(** * TaskFlow: the dual-backend task persistence layer

    A shallow embedding of
      - [backend/src/db/memoryStore.js]        (the in-memory store),
      - [backend/src/controllers/taskController.js] (the full controller),
      - the simplified controller (same handlers, model chosen per request),
      - the Mongoose task schema (validators, hooks, statistics pipeline),
    followed by the properties of the persistence layer.

    Conventions.  A JavaScript object is a finite map from property names to
    values; a missing property reads as [undefined].  Timestamps are
    milliseconds since the epoch.  An [async] function is modelled by its
    result once awaited: [Ok v] for a fulfilled promise, [Throw e] for a
    rejected one.  Module-level [let] bindings become an explicit store that
    every operation takes and returns. *)

From Stdlib Require Import ZArith Ascii String List Bool Lia Sorted.
From Stdlib Require PrimFloat Uint63 FloatOps.
From stdpp Require Import base option list strings gmap pretty.

Set Warnings "-register-all".

Open Scope Z_scope.

(** ** JavaScript values *)

Inductive value : Type :=
| VUndefined
| VNull
| VBool (b : bool)
| VNum (n : Z)
| VReal (x : PrimFloat.float)
| VStr (s : string)
| VDate (ms : Z)
| VRegExp (source flags : string)
| VArr (items : list value)
| VObj (props : gmap string value).

(** An object: property name to value. *)
Abbreviation obj := (gmap string value).

(** [VNum] holds the integers the program counts and compares: counts,
    page numbers, millisecond clock readings.  [VReal] is a number that is
    not held as an integer: the double itself, with the arithmetic of
    IEEE 754. *)

(** An integer as a double (exact up to 2^53 in size). *)
Definition float_of_Z (z : Z) : PrimFloat.float :=
  if z <? 0 then PrimFloat.opp (PrimFloat.of_uint63 (Uint63.of_Z (- z)))
  else PrimFloat.of_uint63 (Uint63.of_Z z).

(** The integer part of a finite double, towards zero; [None] for NaN and
    the infinities. *)
Definition float_trunc (x : PrimFloat.float) : option Z :=
  match FloatOps.Prim2SF x with
  | SpecFloat.S754_zero _ => Some 0
  | SpecFloat.S754_finite negative m e =>
      let size := if 0 <=? e then Z.pos m * 2 ^ e else Z.pos m / 2 ^ (- e) in
      Some (if negative then - size else size)
  | SpecFloat.S754_infinity _ | SpecFloat.S754_nan => None
  end.

(** A number as a schema path of type Number holds it. *)
Inductive num : Type :=
| Whole (n : Z)
| Frac (x : PrimFloat.float).

(** [k <= n] and [n <= k] for an integer [k]. *)
Definition at_least (k : Z) (n : num) : bool :=
  match n with
  | Whole a => k <=? a
  | Frac x => PrimFloat.leb (float_of_Z k) x
  end.

Definition at_most (k : Z) (n : num) : bool :=
  match n with
  | Whole a => a <=? k
  | Frac x => PrimFloat.leb x (float_of_Z k)
  end.

Definition num_value (n : num) : value :=
  match n with
  | Whole a => VNum a
  | Frac x => VReal x
  end.

(** [o.k]: a missing property is [undefined]. *)
Definition get (k : string) (o : obj) : value := default VUndefined (o !! k).

(** [{ ...a, ...b }]: properties of [b] win. *)
Definition spread (a b : obj) : obj := b ∪ a.

(** ToBoolean. *)
Definition truthy (v : value) : bool :=
  match v with
  | VUndefined | VNull => false
  | VBool b => b
  | VNum n => negb (n =? 0)
  | VReal x => negb (PrimFloat.eqb x PrimFloat.zero || PrimFloat.is_nan x)
  | VStr s => negb (String.eqb s EmptyString)
  | VDate _ | VRegExp _ _ | VArr _ | VObj _ => true
  end.

(** [a || b] *)
Definition js_or (a b : value) : value := if truthy a then a else b.

(** [a === b] where at least one side is a freshly built primitive: two
    primitives compare by value, an object (Date, array, object) is never
    identical to anything built elsewhere. *)
Definition strict_eq (a b : value) : bool :=
  match a, b with
  | VUndefined, VUndefined => true
  | VNull, VNull => true
  | VBool x, VBool y => Bool.eqb x y
  | VNum x, VNum y => x =? y
  | VReal x, VReal y => PrimFloat.eqb x y
  | VNum x, VReal y | VReal y, VNum x => PrimFloat.eqb (float_of_Z x) y
  | VStr x, VStr y => String.eqb x y
  | _, _ => false
  end.

(** ** Strings *)

(** A string is held by the bytes of its UTF-8 encoding.  Equality, prefix,
    inclusion and the search for ["<"] and [">"] are the same on bytes as on
    the characters of JavaScript.  White space, letter case and length are
    those of JavaScript on strings of ASCII characters only: beyond ASCII
    they follow Unicode, which is not modelled, so the properties that rest
    on them are stated for ASCII strings. *)

Definition ascii_char (c : ascii) : bool := (nat_of_ascii c <? 128)%nat.

Fixpoint is_ascii (s : string) : bool :=
  match s with
  | EmptyString => true
  | String c r => ascii_char c && is_ascii r
  end.

Definition lower_ascii (c : ascii) : ascii :=
  let n := nat_of_ascii c in
  if ((65 <=? n) && (n <=? 90))%nat then ascii_of_nat (n + 32) else c.

(** [s.toLowerCase()] on the ASCII range. *)
Fixpoint toLowerCase (s : string) : string :=
  match s with
  | EmptyString => EmptyString
  | String c r => String (lower_ascii c) (toLowerCase r)
  end.

(** The white space of [\s] and of [String.prototype.trim] within ASCII:
    TAB, LF, VT, FF, CR and SPACE. *)
Definition is_ws (c : ascii) : bool :=
  let n := nat_of_ascii c in
  (((9 <=? n) && (n <=? 13)) || (n =? 32))%nat.

Fixpoint trimStart (s : string) : string :=
  match s with
  | EmptyString => EmptyString
  | String c r => if is_ws c then trimStart r else s
  end.

(** Drops trailing white space: a character is kept when it is not white
    space or when something remains after it. *)
Fixpoint trimEnd (s : string) : string :=
  match s with
  | EmptyString => EmptyString
  | String c r =>
      match trimEnd r with
      | EmptyString => if is_ws c then EmptyString else String c EmptyString
      | r' => String c r'
      end
  end.

(** [s.trim()] *)
Definition trim (s : string) : string := trimEnd (trimStart s).

(** [s.replace(/\s+/g, ' ')]: every maximal run of white space becomes one
    space.  [in_run] tells whether the previous character was white space. *)
Fixpoint collapse_ws (in_run : bool) (s : string) : string :=
  match s with
  | EmptyString => EmptyString
  | String c r =>
      if is_ws c
      then (if in_run then collapse_ws true r else String " "%char (collapse_ws true r))
      else String c (collapse_ws false r)
  end.

(** [s.startsWith(p)] *)
Fixpoint startsWith (p s : string) : bool :=
  match p, s with
  | EmptyString, _ => true
  | String a p', String b s' => Ascii.eqb a b && startsWith p' s'
  | String _ _, EmptyString => false
  end.

(** [s.includes(p)] *)
Fixpoint includes (p s : string) : bool :=
  startsWith p s ||
  match s with
  | EmptyString => false
  | String _ r => includes p r
  end.

Fixpoint contains_char (c : ascii) (s : string) : bool :=
  match s with
  | EmptyString => false
  | String d r => Ascii.eqb c d || contains_char c r
  end.

(** [/<[^>]*>/.test(s)]: some ["<"] is followed, later, by a [">"]. *)
Fixpoint htmlRegex_test (s : string) : bool :=
  match s with
  | EmptyString => false
  | String c r =>
      (Ascii.eqb c "<"%char && contains_char ">"%char r) || htmlRegex_test r
  end.

(** ** Results of awaited calls *)

Record js_error := {
  err_name : string;
  err_message : string;
  err_code : option Z;
  (** [error.errors]: path to message, for a Mongoose ValidationError *)
  err_errors : list (string * string)
}.

(** [new Error(msg)] *)
Definition Error (msg : string) : js_error :=
  {| err_name := "Error"; err_message := msg; err_code := None; err_errors := [] |}.

Inductive result (A : Type) : Type :=
| Ok (a : A)
| Throw (e : js_error).
Arguments Ok {A} a.
Arguments Throw {A} e.

Definition result_bind {A B} (r : result A) (k : A -> result B) : result B :=
  match r with
  | Ok a => k a
  | Throw e => Throw e
  end.

Notation "'let*' x ':=' c 'in' k" := (result_bind c (fun x => k))
  (at level 10, x name, c at level 100, k at level 200).

(** [new SyntaxError(msg)], raised by [new RegExp] on a bad pattern. *)
Definition SyntaxError (msg : string) : js_error :=
  {| err_name := "SyntaxError"; err_message := msg; err_code := None; err_errors := [] |}.

(** [new TypeError(msg)], raised by the runtime on a bad method call. *)
Definition TypeError (msg : string) : js_error :=
  {| err_name := "TypeError"; err_message := msg; err_code := None; err_errors := [] |}.

(** [v.toLowerCase()]: defined on strings only. *)
Definition call_toLowerCase (v : value) : result string :=
  match v with
  | VStr s => Ok (toLowerCase s)
  | _ => Throw (TypeError "toLowerCase is not a function")
  end.

(** [arr.filter(p)] for a predicate that may throw: the first exception
    aborts the scan. *)
Fixpoint filterM {A} (p : A -> result bool) (l : list A) : result (list A) :=
  match l with
  | [] => Ok []
  | x :: r =>
      let* b := p x in
      let* r' := filterM p r in
      Ok (if b then x :: r' else r')
  end.

(** ** The host: what the JavaScript runtime and the machine provide *)

Class Host := {
  (** [Date.parse(s)]; [None] is NaN *)
  Date_parse : string -> option Z;
  (** [Number(s)] for a string; [None] is NaN *)
  ToNumber : string -> option num;
  (** ToString of a value that is not a string (as a property key) *)
  ToString : value -> string;
  (** whether [new RegExp(source, 'i')] compiles; it throws a SyntaxError
      when not *)
  RegExp_valid : string -> bool;
  (** the start of the local day a moment falls in: what
      [setHours(0, 0, 0, 0)] makes of it.  The local days follow one another
      without gap, whatever their lengths. *)
  local_midnight : Z -> Z;
  local_midnight_le : forall t, local_midnight t <= t;
  local_midnight_mono : forall s t, s <= t -> local_midnight s <= local_midnight t;
  local_midnight_again : forall t, local_midnight (local_midnight t) = local_midnight t;
  (** [process.env.NODE_ENV === 'development'] *)
  development : bool
}.

(** A value as a string: a property key, the source of a [RegExp]. *)
Definition to_string `{Host} (v : value) : string :=
  match v with
  | VStr s => s
  | _ => ToString v
  end.

(** A time value within the range of a Date, 100 million days either side
    of the epoch; [None] is NaN. *)
Definition time_clip (ms : Z) : option Z :=
  if Z.abs ms <=? 8640000000000000 then Some ms else None.

(** The time value of [new Date(v)]; [None] is NaN (an invalid date).  An
    array, an object or a regular expression is read through its string. *)
Definition Date_of `{Host} (v : value) : option Z :=
  match v with
  | VDate ms => Some ms
  | VNum n => time_clip n
  | VReal x => match float_trunc x with Some n => time_clip n | None => None end
  | VNull => Some 0
  | VBool b => Some (if b then 1 else 0)
  | VStr s => Date_parse s
  | VUndefined => None
  | VRegExp _ _ | VArr _ | VObj _ => Date_parse (ToString v)
  end.

(** [x - y] on time values, NaN when either is. *)
Definition num_sub (x y : option Z) : option Z :=
  match x, y with
  | Some a, Some b => Some (a - b)
  | _, _ => None
  end.

(** [arr.sort(cmp)]: the sort is stable, and a comparator result of NaN
    counts as 0.  [x] goes before the first element it is strictly smaller
    than or equal to; elements are inserted from the right, so equal
    elements keep their order. *)
Section Sort.
Context {A : Type} (cmp : A -> A -> option Z).

Definition cmp_le (x y : A) : bool :=
  match cmp x y with
  | Some d => d <=? 0
  | None => true
  end.

Fixpoint sort_insert (x : A) (l : list A) : list A :=
  match l with
  | [] => [x]
  | y :: r => if cmp_le x y then x :: y :: r else y :: sort_insert x r
  end.

Fixpoint sort (l : list A) : list A :=
  match l with
  | [] => []
  | x :: r => sort_insert x (sort r)
  end.
End Sort.

(** [v.k] on a value: only plain objects carry properties here. *)
Definition prop (k : string) (v : value) : value :=
  match v with
  | VObj props => get k props
  | _ => VUndefined
  end.

(** ** memoryStore.js *)

Module MemoryStore.

(** [let tasks = []; let nextId = 1;] *)
Record store := { tasks : list obj; nextId : Z }.

Definition empty : store := {| tasks := []; nextId := 1 |}.

(** [task => task._id === id || task.id === id] *)
Definition has_id (id : value) (task : obj) : bool :=
  strict_eq (get "_id" task) id || strict_eq (get "id" task) id.

(** [arr.findIndex(p)], with [None] for -1. *)
Fixpoint findIndex {A} (p : A -> bool) (l : list A) : option nat :=
  match l with
  | [] => None
  | x :: r => if p x then Some O else option_map S (findIndex p r)
  end.

(** [findById]: [tasks.find(...)]; [None] is JavaScript's [undefined]. *)
Definition findById (id : value) (st : store) : option obj :=
  List.find (has_id id) (tasks st).

(** [String(n)] *)
Definition String_ (n : Z) : value := VStr (pretty n).

(** [create(taskData)] at clock reading [now]. *)
Definition create (now : Z) (taskData : obj) (st : store) : obj * store :=
  let newTask : obj :=
    list_to_map
      [ ("_id", String_ (nextId st));
        ("id", String_ (nextId st + 1 - 1));
        ("text", get "text" taskData);
        ("completed", js_or (get "completed" taskData) (VBool false));
        ("priority", js_or (get "priority" taskData) (VStr "medium"));
        ("category", js_or (get "category" taskData) (VStr "general"));
        ("dueDate", js_or (get "dueDate" taskData) VNull);
        ("tags", js_or (get "tags" taskData) (VArr []));
        ("metadata", js_or (get "metadata" taskData) (VObj ∅));
        ("createdAt", VDate now);
        ("updatedAt", VDate now);
        ("lastModified", VDate now) ] in
  (newTask, {| tasks := newTask :: tasks st; nextId := nextId st + 1 |}).

(** [findByIdAndUpdate(id, updateData, options = {})].  [options] is [None]
    when the argument is absent. *)
Definition findByIdAndUpdate (now : Z) (id : value) (updateData : obj)
    (options : option obj) (st : store) : result (option obj) * store :=
  let options := default ∅ options in
  match findIndex (has_id id) (tasks st) with
  | None =>
      if truthy (get "new" options) then (Ok None, st)
      else (Throw (Error "Task not found"), st)
  | Some taskIndex =>
      let old := default ∅ (tasks st !! taskIndex) in
      let updatedTask : obj :=
        <["lastModified" := VDate now]>
          (<["updatedAt" := VDate now]> (spread old updateData)) in
      (Ok (Some updatedTask),
       {| tasks := <[taskIndex := updatedTask]> (tasks st); nextId := nextId st |})
  end.

(** [findByIdAndDelete(id)]: [None] is [null]. *)
Definition findByIdAndDelete (id : value) (st : store) : option obj * store :=
  match findIndex (has_id id) (tasks st) with
  | None => (None, st)
  | Some taskIndex =>
      (tasks st !! taskIndex,
       {| tasks := take taskIndex (tasks st) ++ drop (S taskIndex) (tasks st);
          nextId := nextId st |})
  end.


(** The search predicate of [find]:
    [task.text.toLowerCase().includes(searchTerm) ||
     (task.category && task.category.toLowerCase().includes(searchTerm))] *)
Definition text_or_category_includes (searchTerm : string) (task : obj) : result bool :=
  let* t := call_toLowerCase (get "text" task) in
  if includes searchTerm t then Ok true
  else if truthy (get "category" task)
       then let* c := call_toLowerCase (get "category" task) in Ok (includes searchTerm c)
       else Ok false.

(** [(a, b) => new Date(b.createdAt) - new Date(a.createdAt)] *)
Definition newest_first `{Host} (a b : obj) : option Z :=
  num_sub (Date_of (get "createdAt" b)) (Date_of (get "createdAt" a)).

(** [find(filter = {})] *)
Definition find `{Host} (filter : obj) (st : store) : result (list obj) :=
  let results := tasks st in
  let results :=
    if negb (strict_eq (get "completed" filter) VUndefined)
    then List.filter (fun task => strict_eq (get "completed" task) (get "completed" filter)) results
    else results in
  let results :=
    if truthy (get "priority" filter)
    then List.filter (fun task => strict_eq (get "priority" task) (get "priority" filter)) results
    else results in
  let results :=
    if truthy (get "category" filter)
    then List.filter (fun task => strict_eq (get "category" task) (get "category" filter)) results
    else results in
  let* results :=
    (if truthy (get "$text" filter) && truthy (prop "$search" (get "$text" filter))
     then let* searchTerm := call_toLowerCase (prop "$search" (get "$text" filter)) in
          filterM (text_or_category_includes searchTerm) results
     else Ok results) in
  Ok (sort newest_first results).

(** [countDocuments(filter = {})] *)
Definition countDocuments `{Host} (filter : obj) (st : store) : result Z :=
  let* results := find filter st in
  Ok (Z.of_nat (length results)).

(** [arr.filter(p).length] *)
Definition count (p : obj -> bool) (l : list obj) : Z :=
  Z.of_nat (length (List.filter p l)).

Definition priority_is (p : string) (t : obj) : bool :=
  strict_eq (get "priority" t) (VStr p).

(** [(v || 0) + 1] for a counter that is absent or a number. *)
Definition incr (v : value) : value :=
  match js_or v (VNum 0) with
  | VNum n => VNum (n + 1)
  | _ => VUndefined
  end.

(** [stats.byCategory[category] = (stats.byCategory[category] || 0) + 1] *)
Definition count_category `{Host} (byCategory : obj) (task : obj) : obj :=
  let category := to_string (js_or (get "category" task) (VStr "uncategorized")) in
  <[category := incr (get category byCategory)]> byCategory.

(** [aggregate(pipeline)]: the pipeline is ignored; the array it returns
    has this one element. *)
Definition aggregate `{Host} (st : store) : obj :=
  list_to_map
    [ ("total", VNum (Z.of_nat (length (tasks st))));
      ("completed", VNum (count (fun t => truthy (get "completed" t)) (tasks st)));
      ("active", VNum (count (fun t => negb (truthy (get "completed" t))) (tasks st)));
      ("byPriority",
        VObj (list_to_map
          [ ("low", VNum (count (priority_is "low") (tasks st)));
            ("medium", VNum (count (priority_is "medium") (tasks st)));
            ("high", VNum (count (priority_is "high") (tasks st)));
            ("urgent", VNum (count (priority_is "urgent") (tasks st))) ]));
      ("byCategory", VObj (fold_left count_category (tasks st) ∅)) ].

Definition tags_of (l : list string) : value := VArr (map VStr l).

Definition sampleTasks : list obj :=
  [ list_to_map [ ("text", VStr "Complete TaskFlow project deployment");
                  ("priority", VStr "high"); ("category", VStr "work");
                  ("tags", tags_of ["project"; "deployment"]) ];
    list_to_map [ ("text", VStr "Review MongoDB integration");
                  ("priority", VStr "medium"); ("category", VStr "development");
                  ("tags", tags_of ["database"; "review"]) ];
    list_to_map [ ("text", VStr "Test frontend-backend integration");
                  ("priority", VStr "high"); ("category", VStr "testing");
                  ("tags", tags_of ["integration"; "testing"]) ];
    list_to_map [ ("text", VStr "Update documentation");
                  ("priority", VStr "low"); ("category", VStr "documentation");
                  ("tags", tags_of ["docs"; "readme"]) ];
    list_to_map [ ("text", VStr "Deploy to production");
                  ("priority", VStr "urgent"); ("category", VStr "deployment");
                  ("tags", tags_of ["production"; "deployment"]) ] ].

(** [initializeSampleData()], the clock reading [now] for every task. *)
Definition initializeSampleData (now : Z) (st : store) : store :=
  if (length (tasks st) =? 0)%nat
  then fold_left (fun st taskData => snd (create now taskData st)) sampleTasks st
  else st.

Definition clearTasks (st : store) : store := empty.

(** The property names every object inherits from [Object.prototype]. *)
Definition inherited_names : list string :=
  [ "constructor"; "toString"; "toLocaleString"; "valueOf"; "hasOwnProperty";
    "isPrototypeOf"; "propertyIsEnumerable"; "__proto__"; "__defineGetter__";
    "__defineSetter__"; "__lookupGetter__"; "__lookupSetter__" ].

(** [task[key]] for a key computed at run time: a name the task does not
    have itself but inherits reads as the inherited object, which is
    identical to no value of a filter. *)
Definition get_computed (key : string) (task : obj) : value :=
  match task !! key with
  | Some v => v
  | None => if existsb (String.eqb key) inherited_names then VObj ∅ else VUndefined
  end.

(** The test of [findOne]: every entry of the filter is strictly equal to
    the task's property of that name. *)
Definition has_entries (filter task : obj) : bool :=
  forallb (fun kv => strict_eq (get_computed (fst kv) task) (snd kv)) (map_to_list filter).

(** [findOne(filter)]; [None] is [undefined]. *)
Definition findOne (filter : obj) (st : store) : option obj :=
  List.find (has_entries filter) (tasks st).

Definition getTaskCount (st : store) : Z := Z.of_nat (length (tasks st)).

End MemoryStore.

(** ** The document database, as far as the program does not define it *)

(** The query engine behind a Mongoose model: which documents a filter
    selects, the order a sort specification puts them in, what a generic
    aggregation pipeline returns, and whether the driver in use takes any
    12-character string for an ObjectId.  Documents are seen here as plain
    objects, the way [lean()] returns them. *)
Class Engine := {
  matches : obj -> obj -> bool;
  sort_by : obj -> list obj -> list obj;
  run_pipeline : value -> list obj -> list obj;
  legacy_12_byte_ids : bool;
  (** whether [save()] refuses a document whose [_id] is null ("document
      must have an _id before saving"), or hands it to the driver, which
      stores it under a new id *)
  null_id_refused : bool;
  (** the message of a CastError: type, offending value, path *)
  cast_message : string -> value -> string -> string
}.

Definition MS_PER_DAY : Z := 24 * 60 * 60 * 1000.

(** [new Date().setHours(0, 0, 0, 0)] at clock reading [now]: local
    midnight of the current day, as a time value. *)
Definition setHours0 `{Host} (now : Z) : Z := local_midnight now.

Definition is_hex (c : ascii) : bool :=
  let n := nat_of_ascii c in
  (((48 <=? n) && (n <=? 57)) || ((65 <=? n) && (n <=? 70)) || ((97 <=? n) && (n <=? 102)))%nat.

Fixpoint all_chars (p : ascii -> bool) (s : string) : bool :=
  match s with
  | EmptyString => true
  | String c r => p c && all_chars p r
  end.

(** [mongoose.Types.ObjectId.isValid(id)] for a string. *)
Definition ObjectId_isValid `{Engine} (id : string) : bool :=
  ((String.length id =? 24)%nat && all_chars is_hex id)
  || (legacy_12_byte_ids && (String.length id =? 12)%nat).

Definition hex_digit (n : Z) : ascii :=
  ascii_of_nat (Z.to_nat (if n <? 10 then 48 + n else 87 + n)).

Fixpoint hex_padded (width : nat) (n : Z) (acc : string) : string :=
  match width with
  | O => acc
  | S w => hex_padded w (n / 16) (String (hex_digit (n mod 16)) acc)
  end.

(** The [n]-th ObjectId handed out: 24 hexadecimal digits. *)
Definition ObjectId_of (n : Z) : string := hex_padded 24 n EmptyString.

Fixpoint bytes_hex (s : string) : string :=
  match s with
  | EmptyString => EmptyString
  | String c r =>
      let n := Z.of_nat (nat_of_ascii c) in
      String (hex_digit (n / 16)) (String (hex_digit (n mod 16)) (bytes_hex r))
  end.

(** [new ObjectId(s).toHexString()] for a valid [s]: an id prints in lower
    case whatever the case it was given in; a string of 12 bytes prints as
    the 24 hexadecimal digits of its bytes. *)
Definition ObjectId_hex (s : string) : string :=
  if (String.length s =? 24)%nat then toLowerCase s else bytes_hex s.

(** The digits [toHexString] writes. *)
Definition is_lower_hex (c : ascii) : bool :=
  let n := nat_of_ascii c in
  (((48 <=? n) && (n <=? 57)) || ((97 <=? n) && (n <=? 102)))%nat.

(** An id as [toHexString] writes it: 24 lower-case hexadecimal digits. *)
Definition canonical_id (s : string) : Prop :=
  String.length s = 24%nat /\ all_chars is_lower_hex s = true.

(** Optional sign and decimal digits, nothing else. *)
Fixpoint parse_digits (acc : Z) (s : string) : option Z :=
  match s with
  | EmptyString => Some acc
  | String c r =>
      let n := nat_of_ascii c in
      if ((48 <=? n) && (n <=? 57))%nat
      then parse_digits (10 * acc + Z.of_nat (n - 48)) r
      else None
  end.

Definition parse_decimal (s : string) : option Z :=
  match s with
  | EmptyString => None
  | String "-" r => if String.eqb r EmptyString then None else option_map Z.opp (parse_digits 0 r)
  | _ => parse_digits 0 s
  end.

(** ** models/Task.js *)

Module Task.

(** What Mongoose makes of a raw value on a schema path. *)
Inductive cast (A : Type) : Type :=
| Undef            (** the path is not given *)
| Null             (** the path is given as null *)
| Val (a : A)      (** the value, of the path's type *)
| Bad.             (** CastError *)
Arguments Undef {A}.
Arguments Null {A}.
Arguments Val {A} a.
Arguments Bad {A}.

Definition cast_map {A B} (f : A -> B) (c : cast A) : cast B :=
  match c with
  | Undef => Undef
  | Null => Null
  | Val a => Val (f a)
  | Bad => Bad
  end.

(** [n.toString()] for a whole number: its decimal digits below 10^21,
    exponent notation from there on. *)
Definition Number_toString `{Host} (n : Z) : string :=
  if Z.abs n <? 10 ^ 21 then pretty n else ToString (VNum n).

(** [type: String].  An object that has a string that is not empty as its
    [_id] is read as that string (a document passed for its id); any other
    plain object and an array are refused. *)
Definition cast_String `{Host} (v : value) : cast string :=
  match v with
  | VUndefined => Undef
  | VNull => Null
  | VStr s => Val s
  | VNum n => Val (Number_toString n)
  | VBool b => Val (if b then "true" else "false")
  | VReal _ | VDate _ | VRegExp _ _ => Val (ToString v)
  | VArr _ => Bad
  | VObj props =>
      match get "_id" props with
      | VStr s => if String.eqb s EmptyString then Bad else Val s
      | _ => Bad
      end
  end.

(** [type: Boolean] *)
Definition cast_Boolean (v : value) : cast bool :=
  match v with
  | VUndefined => Undef
  | VNull => Null
  | VBool b => Val b
  | VNum 1 => Val true
  | VNum 0 => Val false
  | VStr s =>
      if String.eqb s "true" || String.eqb s "1" || String.eqb s "yes" then Val true
      else if String.eqb s "false" || String.eqb s "0" || String.eqb s "no" then Val false
      else Bad
  | _ => Bad
  end.

(** A string that writes a number of 275761 or more, or one below -271820,
    is read by a Date path as that many milliseconds, not as a year. *)
Definition as_milliseconds `{Host} (s : string) : option value :=
  match ToNumber s with
  | Some (Whole n) =>
      if (275761 <=? n) || (n <? -271820) then Some (VNum n) else None
  | Some (Frac x) =>
      if PrimFloat.leb (float_of_Z 275761) x || PrimFloat.ltb x (float_of_Z (-271820))
      then Some (VReal x) else None
  | None => None
  end.

Definition valid_date (t : option Z) : cast Z :=
  match t with
  | Some ms => Val ms
  | None => Bad
  end.

(** [type: Date].  A boolean is refused; a number is a time value; any
    other value is what [new Date] makes of it. *)
Definition cast_Date `{Host} (v : value) : cast Z :=
  match v with
  | VUndefined => Undef
  | VNull => Null
  | VBool _ => Bad
  | VStr s =>
      if String.eqb s EmptyString then Null
      else match as_milliseconds s with
           | Some n => valid_date (Date_of n)
           | None => valid_date (Date_parse s)
           end
  | VDate _ | VNum _ | VReal _ | VRegExp _ _ | VArr _ | VObj _ => valid_date (Date_of v)
  end.

(** [type: Number].  A string or a boolean is what [Number] makes of it; a
    number that is not whole is kept as it is; a date is its time value; an
    array, a plain object, a regular expression and NaN are refused. *)
Definition cast_Number `{Host} (v : value) : cast num :=
  match v with
  | VUndefined => Undef
  | VNull => Null
  | VNum n => Val (Whole n)
  | VReal x => if PrimFloat.is_nan x then Bad else Val (Frac x)
  | VBool b => Val (Whole (if b then 1 else 0))
  | VStr s =>
      if String.eqb s EmptyString then Null
      else match ToNumber s with Some n => Val n | None => Bad end
  | VDate ms => Val (Whole ms)
  | VRegExp _ _ | VArr _ | VObj _ => Bad
  end.

(** The string an ObjectId is made from: [value.toString()]; a plain
    object writes as [[object Object]], which is no id. *)
Definition id_string `{Host} (v : value) : option string :=
  match v with
  | VStr s => Some s
  | VNum n => Some (Number_toString n)
  | VBool b => Some (if b then "true" else "false")
  | VReal _ | VDate _ | VRegExp _ _ | VArr _ => Some (ToString v)
  | VUndefined | VNull | VObj _ => None
  end.

(** [new ObjectId(s)]: the id is kept as [toHexString] writes it. *)
Definition ObjectId_from `{Engine} (s : option string) : cast string :=
  match s with
  | Some s => if ObjectId_isValid s then Val (ObjectId_hex s) else Bad
  | None => Bad
  end.

(** [type: ObjectId].  An object with a truthy [_id] is read as that
    [_id]. *)
Definition cast_ObjectId `{Host} `{Engine} (v : value) : cast string :=
  match v with
  | VUndefined => Undef
  | VNull => Null
  | VObj props =>
      if truthy (get "_id" props) then ObjectId_from (id_string (get "_id" props))
      else Bad
  | _ => ObjectId_from (id_string v)
  end.

(** The setters a String path declares. *)
Definition set_trim (c : cast string) : cast string := cast_map trim c.
Definition set_lowercase (c : cast string) : cast string := cast_map toLowerCase c.

(** One element of [tags]: [{ type: String, trim: true, lowercase: true }].
    A null element stays null ([None]). *)
Definition cast_tag `{Host} (v : value) : option (option string) :=
  match set_lowercase (set_trim (cast_String v)) with
  | Val s => Some (Some s)
  | Undef | Null => Some None
  | Bad => None
  end.

Fixpoint cast_tags `{Host} (items : list value) : option (list (option string)) :=
  match items with
  | [] => Some []
  | v :: r =>
      match cast_tag v, cast_tags r with
      | Some t, Some ts => Some (t :: ts)
      | _, _ => None
      end
  end.

(** [tags: [...]]: a value that is not an array becomes a one-element array. *)
Definition cast_Array `{Host} (v : value) : cast (list (option string)) :=
  match v with
  | VUndefined => Undef
  | VNull => Null
  | VArr items => match cast_tags items with Some l => Val l | None => Bad end
  | _ => match cast_tag v with Some t => Val [t] | None => Bad end
  end.

(** A document.  [None] on a path is null or missing. *)
Record doc := {
  _id : option string;
  text : option string;
  completed : option bool;
  priority : option string;
  category : option string;
  dueDate : option Z;
  tags : list (option string);
  createdAt : option Z;
  lastModified : option Z;
  userId : option string;
  estimatedTime : option num;
  actualTime : option num;
  difficulty : option string
}.

(** An error on one path: the path and its message. *)
Definition path_error : Type := string * string.

(** The value a path takes from its cast, with the schema default when the
    path is not given; a failed cast is recorded against the path. *)
Definition place `{Engine} {A} (path kind : string) (raw : value) (c : cast A)
    (dflt : option A) : option A * list path_error :=
  match c with
  | Undef => (dflt, [])
  | Null => (None, [])
  | Val a => (Some a, [])
  | Bad => (None, [(path, cast_message kind raw path)])
  end.

(** [new Task(data)] at clock reading [now]: casts, setters and defaults of
    the schema; paths the schema does not declare are dropped.  The id is
    the one the payload gives as [_id], null when it gives null, and [oid]
    (a new one) when it gives none. *)
Definition construct `{Host} `{Engine} (now : Z) (oid : string) (data : obj)
    : doc * list path_error :=
  let metadata := get "metadata" data in
  let '(id, e0) :=
    place "_id" "ObjectId" (get "_id" data) (cast_ObjectId (get "_id" data)) (Some oid) in
  let '(text, e1) :=
    place "text" "string" (get "text" data) (set_trim (cast_String (get "text" data))) None in
  let '(completed, e2) :=
    place "completed" "Boolean" (get "completed" data)
      (cast_Boolean (get "completed" data)) (Some false) in
  let '(priority, e3) :=
    place "priority" "string" (get "priority" data)
      (set_lowercase (cast_String (get "priority" data))) (Some "medium") in
  let '(category, e4) :=
    place "category" "string" (get "category" data)
      (set_trim (cast_String (get "category" data))) (Some "general") in
  let '(dueDate, e5) :=
    place "dueDate" "date" (get "dueDate" data) (cast_Date (get "dueDate" data)) None in
  let '(tags, e6) :=
    place "tags" "Array" (get "tags" data) (cast_Array (get "tags" data)) (Some []) in
  let '(createdAt, e7) :=
    place "createdAt" "date" (get "createdAt" data)
      (cast_Date (get "createdAt" data)) (Some now) in
  let '(lastModified, e8) :=
    place "lastModified" "date" (get "lastModified" data)
      (cast_Date (get "lastModified" data)) (Some now) in
  let '(userId, e9) :=
    place "userId" "ObjectId" (get "userId" data) (cast_ObjectId (get "userId" data)) None in
  let '(estimatedTime, e10) :=
    place "metadata.estimatedTime" "Number" (prop "estimatedTime" metadata)
      (cast_Number (prop "estimatedTime" metadata)) None in
  let '(actualTime, e11) :=
    place "metadata.actualTime" "Number" (prop "actualTime" metadata)
      (cast_Number (prop "actualTime" metadata)) None in
  let '(difficulty, e12) :=
    place "metadata.difficulty" "string" (prop "difficulty" metadata)
      (cast_String (prop "difficulty" metadata)) (Some "medium") in
  ({| _id := id; text := text; completed := completed; priority := priority;
      category := category; dueDate := dueDate; tags := default [] tags;
      createdAt := createdAt; lastModified := lastModified; userId := userId;
      estimatedTime := estimatedTime; actualTime := actualTime;
      difficulty := difficulty |},
   e0 ++ e1 ++ e2 ++ e3 ++ e4 ++ e5 ++ e6 ++ e7 ++ e8 ++ e9 ++ e10 ++ e11 ++ e12).

(** *** Validators, path by path.  On one path the validators run in the
    order the schema lists them and the first failure is the path's error;
    they are skipped on a path that holds nothing, [required] apart. *)

Definition len (s : string) : Z := Z.of_nat (String.length s).

(** [text]: required, minlength 3, maxlength 255, no HTML tags. *)
Definition validate_text (text : option string) : list path_error :=
  match text with
  | None => [("text", "Task text is required")]
  | Some s =>
      if String.eqb s EmptyString then [("text", "Task text is required")]
      else if len s <? 3 then [("text", "Task text must be at least 3 characters")]
      else if 255 <? len s then [("text", "Task text cannot exceed 255 characters")]
      else if htmlRegex_test s then [("text", "Task text cannot contain HTML tags")]
      else []
  end.

Definition priority_values : list string := ["low"; "medium"; "high"].
Definition difficulty_values : list string := ["easy"; "medium"; "hard"].

Definition one_of (values : list string) (s : string) : bool :=
  existsb (String.eqb s) values.

(** [priority]: enum. *)
Definition validate_priority (priority : option string) : list path_error :=
  match priority with
  | Some p =>
      if one_of priority_values p then []
      else [("priority", "Priority must be either low, medium, or high")]
  | None => []
  end.

(** [category]: maxlength 50. *)
Definition validate_category (category : option string) : list path_error :=
  match category with
  | Some c => if 50 <? len c then [("category", "Category cannot exceed 50 characters")] else []
  | None => []
  end.

(** The validator of [dueDate]:
    [if (!value) return true; return value >= new Date().setHours(0, 0, 0, 0);] *)
Definition dueDate_validator `{Host} (now : Z) (value : option Z) : bool :=
  match value with
  | None => true
  | Some v => setHours0 now <=? v
  end.

Definition validate_dueDate `{Host} (now : Z) (dueDate : option Z) : list path_error :=
  if dueDate_validator now dueDate then []
  else [("dueDate", "Due date cannot be in the past")].

(** [tags.i]: maxlength 20. *)
Fixpoint validate_tags (i : Z) (tags : list (option string)) : list path_error :=
  match tags with
  | [] => []
  | t :: r =>
      (match t with
       | Some s => if 20 <? len s
                   then [("tags." +:+ pretty i, "Tag cannot exceed 20 characters")]
                   else []
       | None => []
       end) ++ validate_tags (i + 1) r
  end.

Definition validate_estimatedTime (t : option num) : list path_error :=
  match t with
  | Some n =>
      if negb (at_least 1 n)
      then [("metadata.estimatedTime", "Estimated time must be at least 1 minute")]
      else if negb (at_most 1440 n)
           then [("metadata.estimatedTime",
                  "Estimated time cannot exceed 24 hours (1440 minutes)")]
           else []
  | None => []
  end.

Definition validate_actualTime (t : option num) : list path_error :=
  match t with
  | Some n =>
      if negb (at_least 1 n)
      then [("metadata.actualTime", "Actual time must be at least 1 minute")] else []
  | None => []
  end.

Definition validate_difficulty (d : option string) : list path_error :=
  match d with
  | Some s =>
      if one_of difficulty_values s then []
      else [("metadata.difficulty",
             "`" +:+ s +:+ "` is not a valid enum value for path `metadata.difficulty`.")]
  | None => []
  end.

(** Every path's validators: the errors of all failing paths. *)
Definition validators `{Host} (now : Z) (d : doc) : list path_error :=
  validate_text (text d) ++ validate_priority (priority d)
  ++ validate_category (category d) ++ validate_dueDate now (dueDate d)
  ++ validate_tags 0 (tags d) ++ validate_estimatedTime (estimatedTime d)
  ++ validate_actualTime (actualTime d) ++ validate_difficulty (difficulty d).

Definition has_path (errs : list path_error) (path : string) : bool :=
  existsb (fun e => String.eqb (fst e) path) errs.

(** [doc.validate()]: a path whose cast failed keeps its cast error; the
    other paths run their validators. *)
Definition validate `{Host} (now : Z) (d : doc) (cast_errors : list path_error)
    : list path_error :=
  cast_errors
  ++ List.filter (fun e => negb (has_path cast_errors (fst e))) (validators now d).

Definition ValidationError (errs : list path_error) : js_error :=
  {| err_name := "ValidationError"; err_message := "Task validation failed";
     err_code := None; err_errors := errs |}.

Definition CastError `{Engine} (kind : string) (raw : value) (path : string) : js_error :=
  {| err_name := "CastError"; err_message := cast_message kind raw path;
     err_code := None; err_errors := [] |}.

(** *** Middleware *)

(** [tag && tag.trim()] *)
Definition tag_kept (tag : option string) : bool :=
  match tag with
  | Some s => negb (String.eqb s EmptyString) && negb (String.eqb (trim s) EmptyString)
  | None => false
  end.

(** [taskSchema.pre('save', ...)] at clock reading [now].  Assigning
    [this.text] runs the path's [trim] setter once more. *)
Definition pre_save (now : Z) (d : doc) : result doc :=
  let text' :=
    match text d with
    | Some s => if String.eqb s EmptyString then Some s
                else Some (trim (trim (collapse_ws false s)))
    | None => None
    end in
  if (10 <? length (tags d))%nat
  then Throw (Error "Cannot have more than 10 tags per task")
  else Ok {| _id := _id d; text := text'; completed := completed d;
             priority := priority d; category := category d; dueDate := dueDate d;
             tags := List.filter tag_kept (tags d);
             createdAt := createdAt d; lastModified := Some now; userId := userId d;
             estimatedTime := estimatedTime d; actualTime := actualTime d;
             difficulty := difficulty d |}.

(** *** The collection *)

Record collection := { docs : list doc; next_oid : Z }.

Definition no_docs : collection := {| docs := []; next_oid := 1 |}.

Definition field {A} (k : string) (f : A -> value) (o : option A) : list (string * value) :=
  match o with Some a => [(k, f a)] | None => [] end.

Definition tag_value (t : option string) : value :=
  match t with Some s => VStr s | None => VNull end.

(** The paths of a document other than its id. *)
Definition fields (d : doc) : list (string * value) :=
  (field "text" VStr (text d) ++ field "completed" VBool (completed d)
   ++ field "priority" VStr (priority d) ++ field "category" VStr (category d)
   ++ field "dueDate" VDate (dueDate d)
   ++ [("tags", VArr (map tag_value (tags d)))]
   ++ field "createdAt" VDate (createdAt d) ++ field "lastModified" VDate (lastModified d)
   ++ field "userId" VStr (userId d)
   ++ [("metadata",
        VObj (list_to_map (field "estimatedTime" num_value (estimatedTime d)
                           ++ field "actualTime" num_value (actualTime d)
                           ++ field "difficulty" VStr (difficulty d))))])%list.

Definition id_value (id : option string) : value :=
  match id with
  | Some s => VStr s
  | None => VNull
  end.

(** The plain object of a document, as [lean()] gives it. *)
Definition to_lean (d : doc) : obj := list_to_map (("_id", id_value (_id d)) :: fields d).

(** The [toJSON] transform: [id] in place of [_id]. *)
Definition toJSON (d : doc) : obj := list_to_map (("id", id_value (_id d)) :: fields d).

Definition MongoServerError (msg : string) : js_error :=
  {| err_name := "MongoServerError"; err_message := msg; err_code := Some 2;
     err_errors := [] |}.

(** The server refuses a second document with an [_id] it holds. *)
Definition DuplicateKey : js_error :=
  {| err_name := "MongoServerError";
     err_message := "E11000 duplicate key error collection: tasks index: _id_";
     err_code := Some 11000; err_errors := [] |}.

Definition no_id : js_error :=
  {| err_name := "MongooseError"; err_message := "document must have an _id before saving";
     err_code := None; err_errors := [] |}.

Definition is_doc (id : string) (d : doc) : bool :=
  match _id d with
  | Some s => String.eqb s id
  | None => false
  end.

Definition set_id (id : option string) (d : doc) : doc :=
  {| _id := id; text := text d; completed := completed d; priority := priority d;
     category := category d; dueDate := dueDate d; tags := tags d;
     createdAt := createdAt d; lastModified := lastModified d; userId := userId d;
     estimatedTime := estimatedTime d; actualTime := actualTime d;
     difficulty := difficulty d |}.

(** What [save()] does before it needs the connection: the built-in
    validation, then the schema's own [pre('save')] hook; after them a
    document whose [_id] is null is refused where the library refuses it. *)
Definition prepare `{Host} `{Engine} (now : Z) (data : obj) (c : collection)
    : result doc :=
  let '(d, cast_errors) := construct now (ObjectId_of (next_oid c)) data in
  match validate now d cast_errors with
  | [] =>
      let* d' := pre_save now d in
      match _id d' with
      | None => if null_id_refused then Throw no_id else Ok d'
      | Some _ => Ok d'
      end
  | errs => Throw (ValidationError errs)
  end.

(** The insertion of a document that passed.  The driver gives a document
    without id a new one; the document [save()] resolves to keeps its null
    [_id]. *)
Definition insertOne (d : doc) (c : collection) : result doc * collection :=
  let oid := default (ObjectId_of (next_oid c)) (_id d) in
  if existsb (is_doc oid) (docs c) then (Throw DuplicateKey, c)
  else (Ok d, {| docs := docs c ++ [set_id (Some oid) d]; next_oid := next_oid c + 1 |}).

(** [new Task(data).save()] *)
Definition save `{Host} `{Engine} (now : Z) (data : obj) (c : collection)
    : result doc * collection :=
  match prepare now data c with
  | Ok d => insertOne d c
  | Throw e => (Throw e, c)
  end.

Definition selected `{Engine} (filter : obj) (c : collection) : list doc :=
  List.filter (fun d => matches filter (to_lean d)) (docs c).

(** [Task.find(filter)], awaited as it is: the documents selected. *)
Definition find `{Engine} (filter : obj) (c : collection) : list doc :=
  selected filter c.

(** [Task.find(filter).sort(sort).skip(skip).limit(limit).lean()];
    [limit(0)] is no limit, a limit below zero counts by its size, a skip
    below zero is refused by the server. *)
Definition find_lean `{Engine} (filter sort : obj) (skip limit : Z) (c : collection)
    : result (list obj) :=
  if skip <? 0 then Throw (MongoServerError "Skip value must be non-negative")
  else
    let found := drop (Z.to_nat skip) (sort_by sort (map to_lean (selected filter c))) in
    Ok (if limit =? 0 then found else take (Z.to_nat (Z.abs limit)) found).

(** [Task.countDocuments(filter)] *)
Definition countDocuments `{Engine} (filter : obj) (c : collection) : Z :=
  Z.of_nat (length (selected filter c)).

(** The id of a query by id, cast to ObjectId. *)
Definition cast_id `{Host} `{Engine} (id : value) : result string :=
  match cast_ObjectId id with
  | Val s => Ok s
  | _ => Throw (CastError "ObjectId" id "_id")
  end.

(** [Task.findById(id)] *)
Definition findById `{Host} `{Engine} (id : value) (c : collection)
    : result (option doc) :=
  let* oid := cast_id id in
  Ok (List.find (is_doc oid) (docs c)).

(** [Task.findByIdAndDelete(id)]; [_id] is unique within a collection. *)
Definition findByIdAndDelete `{Host} `{Engine} (id : value) (c : collection)
    : result (option doc) * collection :=
  match cast_id id with
  | Throw e => (Throw e, c)
  | Ok oid =>
      match List.find (is_doc oid) (docs c) with
      | None => (Ok None, c)
      | Some d =>
          (Ok (Some d),
           {| docs := List.filter (fun d' => negb (is_doc oid d')) (docs c);
              next_oid := next_oid c |})
      end
  end.

(** *** Updates *)

(** An update document after casting: what it holds for each path of the
    schema.  [createdAt] is immutable and [updatedAt] is no path of the
    schema: an update naming them loses them here. *)
Record patch := {
  p_text : cast string;
  p_completed : cast bool;
  p_priority : cast string;
  p_category : cast string;
  p_dueDate : cast Z;
  p_tags : cast (list (option string));
  p_userId : cast string;
  p_estimatedTime : cast num;
  p_actualTime : cast num;
  p_difficulty : cast string
}.

(** A failed cast in an update rejects the whole call. *)
Definition checked `{Engine} {A} (kind path : string) (raw : value) (c : cast A)
    : result (cast A) :=
  match c with
  | Bad => Throw (CastError kind raw path)
  | _ => Ok c
  end.

(** A sub-path of [metadata]: an update that gives [metadata] as an object
    replaces the whole of it, so a sub-path it leaves out is removed. *)
Definition within {A} (metadata : value) (c : cast A) : cast A :=
  match metadata, c with
  | VObj _, Undef => Null
  | _, _ => c
  end.

Definition cast_update `{Host} `{Engine} (update : obj) : result patch :=
  let metadata := get "metadata" update in
  let* text := checked "string" "text" (get "text" update)
                 (set_trim (cast_String (get "text" update))) in
  let* completed := checked "Boolean" "completed" (get "completed" update)
                      (cast_Boolean (get "completed" update)) in
  let* priority := checked "string" "priority" (get "priority" update)
                     (set_lowercase (cast_String (get "priority" update))) in
  let* category := checked "string" "category" (get "category" update)
                     (set_trim (cast_String (get "category" update))) in
  let* dueDate := checked "date" "dueDate" (get "dueDate" update)
                    (cast_Date (get "dueDate" update)) in
  let* tags := checked "Array" "tags" (get "tags" update)
                 (cast_Array (get "tags" update)) in
  let* _ := checked "date" "lastModified" (get "lastModified" update)
              (cast_Date (get "lastModified" update)) in
  let* userId := checked "ObjectId" "userId" (get "userId" update)
                   (cast_ObjectId (get "userId" update)) in
  let* estimatedTime := checked "Number" "metadata.estimatedTime"
                          (prop "estimatedTime" metadata)
                          (within metadata (cast_Number (prop "estimatedTime" metadata))) in
  let* actualTime := checked "Number" "metadata.actualTime" (prop "actualTime" metadata)
                       (within metadata (cast_Number (prop "actualTime" metadata))) in
  let* difficulty := checked "string" "metadata.difficulty" (prop "difficulty" metadata)
                       (within metadata (cast_String (prop "difficulty" metadata))) in
  Ok {| p_text := text; p_completed := completed; p_priority := priority;
        p_category := category; p_dueDate := dueDate; p_tags := tags;
        p_userId := userId; p_estimatedTime := estimatedTime;
        p_actualTime := actualTime; p_difficulty := difficulty |}.

(** The value of a path after the update. *)
Definition updated {A} (c : cast A) (old : option A) : option A :=
  match c with
  | Undef | Bad => old
  | Null => None
  | Val a => Some a
  end.

(** The validators of a path the update sets; a path it does not name is
    not validated. *)
Definition on_set {A} (c : cast A) (check : option A -> list path_error) : list path_error :=
  match c with
  | Undef | Bad => []
  | Null => check None
  | Val a => check (Some a)
  end.

(** [runValidators: true]: update validators, on the paths the update
    names.  The elements of an array are not validated by an update. *)
Definition update_validators `{Host} (now : Z) (p : patch) : list path_error :=
  (on_set (p_text p) validate_text ++ on_set (p_priority p) validate_priority
   ++ on_set (p_category p) validate_category
   ++ on_set (p_dueDate p) (validate_dueDate now)
   ++ on_set (p_estimatedTime p) validate_estimatedTime
   ++ on_set (p_actualTime p) validate_actualTime
   ++ on_set (p_difficulty p) validate_difficulty)%list.

(** The document after the update.  [lastModified] is set by
    [taskSchema.pre(['findOneAndUpdate', ...])] and by the schema's
    [timestamps] option, to the clock reading [now]. *)
Definition apply_patch (now : Z) (p : patch) (d : doc) : doc :=
  {| _id := _id d;
     text := updated (p_text p) (text d);
     completed := updated (p_completed p) (completed d);
     priority := updated (p_priority p) (priority d);
     category := updated (p_category p) (category d);
     dueDate := updated (p_dueDate p) (dueDate d);
     tags := default [] (updated (p_tags p) (Some (tags d)));
     createdAt := createdAt d;
     lastModified := Some now;
     userId := updated (p_userId p) (userId d);
     estimatedTime := updated (p_estimatedTime p) (estimatedTime d);
     actualTime := updated (p_actualTime p) (actualTime d);
     difficulty := updated (p_difficulty p) (difficulty d) |}.

Fixpoint replace_doc (oid : string) (d' : doc) (l : list doc) : list doc :=
  match l with
  | [] => []
  | d :: r => if is_doc oid d then d' :: r else d :: replace_doc oid d' r
  end.

(** What [findByIdAndUpdate] does before it needs the connection: the
    casts of the id and of the update, and the update validators. *)
Definition cast_query `{Host} `{Engine} (now : Z) (id : value) (update options : obj)
    : result (string * patch) :=
  let* oid := cast_id id in
  let* p := cast_update update in
  if truthy (get "runValidators" options)
  then match update_validators now p with
       | [] => Ok (oid, p)
       | errs => Throw (ValidationError errs)
       end
  else Ok (oid, p).

(** The update of the document matched; [options.new] chooses between the
    document after and before the update. *)
Definition findOneAndUpdate (now : Z) (options : obj) (q : string * patch) (c : collection)
    : result (option doc) * collection :=
  let '(oid, p) := q in
  match List.find (is_doc oid) (docs c) with
  | None => (Ok None, c)
  | Some d =>
      let d' := apply_patch now p d in
      (Ok (Some (if truthy (get "new" options) then d' else d)),
       {| docs := replace_doc oid d' (docs c); next_oid := next_oid c |})
  end.

(** [Task.findByIdAndUpdate(id, update, options)] *)
Definition findByIdAndUpdate `{Host} `{Engine} (now : Z) (id : value) (update options : obj)
    (c : collection) : result (option doc) * collection :=
  match cast_query now id update options with
  | Throw e => (Throw e, c)
  | Ok q => findOneAndUpdate now options q c
  end.

(** *** Statistics *)

(** [{ $lt: ['$dueDate', now] }] in an aggregation expression: values of
    different types compare in the BSON order, where null and a missing
    field come before every date. *)
Definition expr_lt_date (dueDate : option Z) (now : Z) : bool :=
  match dueDate with
  | Some t => t <? now
  | None => true
  end.

(** [{ $eq: ['$completed', false] }] *)
Definition expr_eq_false (completed : option bool) : bool :=
  match completed with
  | Some b => negb b
  | None => false
  end.

(** ['$completed'] as the condition of a [$cond]. *)
Definition expr_true (completed : option bool) : bool := default false completed.

(** [{ $sum: { $cond: [c, 1, 0] } }] over the group. *)
Definition sum_cond (c : doc -> bool) (l : list doc) : Z :=
  fold_left (fun acc d => acc + (if c d then 1 else 0)) l 0.

(** [Task.getStatistics()] at clock reading [now]: the [$group] stage over
    the whole collection, the [$project] stage, and the fallback object
    when the collection is empty and the pipeline returns nothing. *)
Definition getStatistics (now : Z) (c : collection) : obj :=
  match docs c with
  | [] =>
      list_to_map [ ("total", VNum 0); ("completed", VNum 0); ("active", VNum 0);
                    ("overdue", VNum 0); ("completionRate", VNum 0) ]
  | l =>
      let total := sum_cond (fun _ => true) l in
      let completed := sum_cond (fun d => expr_true (completed d)) l in
      let active := sum_cond (fun d => negb (expr_true (Task.completed d))) l in
      let overdue :=
        sum_cond (fun d => expr_lt_date (dueDate d) now && expr_eq_false (Task.completed d)) l in
      list_to_map
        [ ("total", VNum total); ("completed", VNum completed); ("active", VNum active);
          ("overdue", VNum overdue);
          ("completionRate",
            if total =? 0 then VNum 0
            else VReal (PrimFloat.mul
                          (PrimFloat.div (float_of_Z completed) (float_of_Z total))
                          (float_of_Z 100))) ]
  end.

(** *** Virtual properties *)

(** [isOverdue] at clock reading [now].  A due date that is set is a Date
    object, so truthy whatever its time value. *)
Definition isOverdue (now : Z) (d : doc) : bool :=
  match dueDate d with
  | None => false
  | Some due => if default false (completed d) then false else due <? now
  end.

(** [daysUntilDue] at clock reading [now]; [None] is [null].  The sign of a
    zero result is dropped.  The difference of the two midnights and its
    quotient by the length of a day are those of the doubles as long as the
    dates are less than 2^26 days (some 180 000 years) apart; the sign of
    the result is that of the doubles throughout. *)
Definition daysUntilDue `{Host} (now : Z) (d : doc) : option Z :=
  match dueDate d with
  | None => None
  | Some due =>
      if default false (completed d) then None
      else
        let today := setHours0 now in
        let due := setHours0 due in
        Some (- ((- (due - today)) / MS_PER_DAY))
  end.

End Task.

(** ** Numbers of the request: [parseInt] and what the controllers compute
    with its results *)

(** A number of JavaScript that is whole or not finite.  [Int n] is the
    double of value [n]: the functions below build it from integers that a
    double holds exactly. *)
Inductive number : Type :=
| Int (n : Z)
| NegZero
| NaN
| PosInf
| NegInf.

(** Every integer up to 2^53 in size is a double. *)
Definition MAX_SAFE : Z := 9007199254740992.

(** The double nearest to an integer above 2^53: 53 significant bits, a tie
    going to the even one. *)
Definition nearest (n : Z) : Z :=
  let e := Z.log2 n - 52 in
  let q := n / 2 ^ e in
  let r := n mod 2 ^ e in
  let half := 2 ^ (e - 1) in
  (if (half <? r) || ((r =? half) && Z.odd q) then q + 1 else q) * 2 ^ e.

(** The double an integer rounds to. *)
Definition double_of (n : Z) : number :=
  if Z.abs n <=? MAX_SAFE then Int n
  else
    let m := nearest (Z.abs n) in
    if 2 ^ 1024 <=? m then (if n <? 0 then NegInf else PosInf)
    else Int (Z.sgn n * m).

(** An integer that a double holds. *)
Definition exact (n : Z) : Prop := double_of n = Int n.

Definition digit_of (c : ascii) : option Z :=
  let n := nat_of_ascii c in
  if ((48 <=? n) && (n <=? 57))%nat then Some (Z.of_nat (n - 48)) else None.

Definition hex_of (c : ascii) : option Z :=
  let n := nat_of_ascii c in
  if ((48 <=? n) && (n <=? 57))%nat then Some (Z.of_nat (n - 48))
  else if ((65 <=? n) && (n <=? 70))%nat then Some (Z.of_nat (n - 55))
  else if ((97 <=? n) && (n <=? 102))%nat then Some (Z.of_nat (n - 87))
  else None.

(** The longest prefix of digits in base [radix], read as a number; [None]
    when there is no digit. *)
Fixpoint digits_prefix (digit : ascii -> option Z) (radix : Z) (acc : option Z) (s : string)
    : option Z :=
  match s with
  | EmptyString => acc
  | String c r =>
      match digit c with
      | Some d => digits_prefix digit radix (Some (radix * default 0 acc + d)) r
      | None => acc
      end
  end.

Definition unsigned_prefix (s : string) : option Z :=
  match s with
  | String "0" (String "x" r) | String "0" (String "X" r) => digits_prefix hex_of 16 None r
  | _ => digits_prefix digit_of 10 None s
  end.

(** [parseInt(s)] for a string: the digits read, rounded to a double. *)
Definition parseInt_string (s : string) : number :=
  match trimStart s with
  | String "-" r =>
      match unsigned_prefix r with
      | Some 0 => NegZero
      | Some n => double_of (- n)
      | None => NaN
      end
  | String "+" r => match unsigned_prefix r with Some n => double_of n | None => NaN end
  | r => match unsigned_prefix r with Some n => double_of n | None => NaN end
  end.

(** [parseInt(v)]: the argument is first turned into a string.  A whole
    number below 10^21 in size writes as its digits; an array reads as its
    elements joined by commas, so as its first element; [true], [null],
    [undefined], [/re/] and [[object Object]] start with no digit. *)
Fixpoint parseInt `{Host} (v : value) : number :=
  match v with
  | VNum n =>
      if Z.abs n <? 10 ^ 21 then double_of n else parseInt_string (ToString v)
  | VStr s => parseInt_string s
  | VArr (x :: _) => parseInt x
  | VReal _ | VDate _ => parseInt_string (ToString v)
  | VUndefined | VNull | VBool _ | VRegExp _ _ | VArr [] | VObj _ => NaN
  end.

(** [x - 1] *)
Definition num_pred (x : number) : number :=
  match x with
  | Int n => double_of (n - 1)
  | NegZero => Int (-1)
  | other => other
  end.

(** [x * y] and [x + y] on results of [parseInt] and of [num_pred]: the
    exact result, rounded to a double.  The sign of a zero result is
    dropped, the result being used as an index. *)
Definition num_mul (x y : number) : number :=
  match x, y with
  | Int a, Int b => double_of (a * b)
  | Int _, NegZero | NegZero, Int _ | NegZero, NegZero => Int 0
  | Int a, PosInf | PosInf, Int a =>
      if a =? 0 then NaN else if a <? 0 then NegInf else PosInf
  | Int a, NegInf | NegInf, Int a =>
      if a =? 0 then NaN else if a <? 0 then PosInf else NegInf
  | PosInf, PosInf | NegInf, NegInf => PosInf
  | PosInf, NegInf | NegInf, PosInf => NegInf
  | _, _ => NaN
  end.

Definition num_add (x y : number) : number :=
  match x, y with
  | Int a, Int b => double_of (a + b)
  | Int a, NegZero | NegZero, Int a => Int a
  | NegZero, NegZero => Int 0
  | PosInf, NegInf | NegInf, PosInf => NaN
  | PosInf, (Int _ | NegZero | PosInf) | (Int _ | NegZero), PosInf => PosInf
  | NegInf, (Int _ | NegZero | NegInf) | (Int _ | NegZero), NegInf => NegInf
  | _, _ => NaN
  end.

(** [Math.ceil(count / limit)] for a count that is not negative: the
    length of a list, so below 2^53, where the quotient of the doubles has
    the ceiling of the exact one. *)
Definition ceil_div (count : Z) (limit : number) : number :=
  match limit with
  | Int 0 => if count =? 0 then NaN else PosInf
  | NegZero => if count =? 0 then NaN else NegInf
  | Int l => Int (- ((- count) / l))
  | PosInf | NegInf => Int 0
  | NaN => NaN
  end.

(** [x < y] *)
Definition num_lt (x y : number) : bool :=
  match x, y with
  | NaN, _ | _, NaN => false
  | PosInf, _ | _, NegInf => false
  | _, PosInf | NegInf, _ => true
  | Int a, Int b => a <? b
  | Int a, NegZero => a <? 0
  | NegZero, Int b => 0 <? b
  | NegZero, NegZero => false
  end.

(** How [res.json] writes a number. *)
Definition json_number (x : number) : value :=
  match x with
  | Int n => VNum n
  | NegZero => VNum 0
  | NaN | PosInf | NegInf => VNull
  end.

(** An index argument of [slice], within a list of [n] elements. *)
Definition relative_index (n : nat) (x : number) : nat :=
  match x with
  | Int i => if i <? 0 then Z.to_nat (Z.max (Z.of_nat n + i) 0) else Nat.min (Z.to_nat i) n
  | PosInf => n
  | NegZero | NaN | NegInf => O
  end.

(** [arr.slice(start, end)] *)
Definition slice {A} (start end_ : number) (l : list A) : list A :=
  let from := relative_index (length l) start in
  let to := relative_index (length l) end_ in
  take (to - from) (drop from l).

(** ** The process: connection state and the two task sets *)

Record world := {
  (** [mongoose.connection.readyState]: 0 disconnected, 1 connected,
      2 connecting, 3 disconnecting, 99 uninitialized *)
  readyState : Z;
  db : Task.collection;
  mem : MemoryStore.store
}.

Definition with_db (w : world) (c : Task.collection) : world :=
  {| readyState := readyState w; db := c; mem := mem w |}.

Definition with_mem (w : world) (st : MemoryStore.store) : world :=
  {| readyState := readyState w; db := db w; mem := st |}.

(** An operation of the model [Task] needs the connection: without it the
    call is rejected (at once, or when the buffered call times out). *)
Definition MongooseError : js_error :=
  {| err_name := "MongooseError";
     err_message := "Operation cannot run: the connection is not established";
     err_code := None; err_errors := [] |}.

Definition on_db {A} (w : world) (op : Task.collection -> result A * Task.collection)
    : result A * world :=
  if readyState w =? 1
  then let '(r, c) := op (db w) in (r, with_db w c)
  else (Throw MongooseError, w).

Definition read_db {A} (w : world) (op : Task.collection -> result A) : result A :=
  if readyState w =? 1 then op (db w) else Throw MongooseError.

(** An operation that casts and validates before it needs the connection:
    what [check] raises is raised whatever the state of the connection, and
    only what passes it goes to the database. *)
Definition on_db_after {A B} (w : world) (check : Task.collection -> result B)
    (op : B -> Task.collection -> result A * Task.collection) : result A * world :=
  match check (db w) with
  | Throw e => (Throw e, w)
  | Ok b => on_db w (op b)
  end.

(** ** Requests and responses *)

Record request := {
  query : obj;
  params_id : value;
  body : obj;
  validatedData : option obj
}.

(** [res.status(status).json(json)]; [json] is [None] for [res.end()]. *)
Record response := { status : Z; json : option obj }.

Definition send (status : Z) (props : list (string * value)) : response :=
  {| status := status; json := Some (list_to_map props) |}.

(** [x === undefined ? dflt : x], the default of a destructured property. *)
Definition or_default (x dflt : value) : value :=
  match x with
  | VUndefined => dflt
  | _ => x
  end.

Definition objects (l : list obj) : value := VArr (map VObj l).

(** [process.env.NODE_ENV === 'development' ? error.message : 'Internal server error'] *)
Definition error_details `{Host} (e : js_error) : value :=
  VStr (if development then err_message e else "Internal server error").

(** A number given to [skip] or [limit]: the server refuses what is not a
    whole number of 64 bits. *)
Definition to_count (x : number) : result Z :=
  match x with
  | Int n =>
      if Z.abs n <? 2 ^ 63 then Ok n
      else Throw (Task.MongoServerError "Failed to parse a number")
  | NegZero => Ok 0
  | NaN | PosInf | NegInf => Throw (Task.MongoServerError "Failed to parse a number")
  end.

(** [v.trim()] *)
Definition call_trim (v : value) : result string :=
  match v with
  | VStr s => Ok (trim s)
  | _ => Throw (TypeError "trim is not a function")
  end.

Definition not_found (id : value) `{Host} : response :=
  send 404 [ ("success", VBool false); ("error", VStr "Task not found");
             ("details", VStr ("No task found with ID: " +:+ to_string id)) ].

(** ** controllers/taskController.js *)

Module TaskController.
Section TaskController.
Context `{Host} `{Engine}.

Definition isMongoAvailable (w : world) : bool := readyState w =? 1.

Inductive model := TheTask | TheInMemoryTask.

(** Declared by the controller; none of its handlers calls it. *)
Definition getTaskModel (w : world) : model :=
  if isMongoAvailable w then TheTask else TheInMemoryTask.

Definition handleDBError (error : js_error) : response :=
  if String.eqb (err_name error) "ValidationError"
  then send 400 [ ("success", VBool false); ("error", VStr "Validation failed");
                  ("details", VArr (map (fun e => VStr (snd e)) (err_errors error))) ]
  else if bool_decide (err_code error = Some 11000)
  then send 409 [ ("success", VBool false); ("error", VStr "Duplicate entry");
                  ("details", VStr "A task with similar content already exists") ]
  else if String.eqb (err_name error) "CastError"
  then send 400 [ ("success", VBool false); ("error", VStr "Invalid ID format");
                  ("details", VStr "The provided ID is not a valid MongoDB ObjectId") ]
  else send 500 [ ("success", VBool false); ("error", VStr "Database operation failed");
                  ("details", error_details error) ].

(** The body of a [try]: a response, or the error handed to [catch]. *)
Definition caught (r : result response) : response :=
  match r with
  | Ok res => res
  | Throw e => handleDBError e
  end.

Definition invalid_id : response :=
  send 400 [ ("success", VBool false); ("error", VStr "Invalid task ID format") ].

(** [mongoose.Types.ObjectId.isValid(id)] on a route parameter. *)
Definition isValid (id : value) : bool :=
  match id with
  | VStr s => ObjectId_isValid s
  | _ => false
  end.

(** The filter [getAllTasks] builds from the query. *)
Definition build_filter (now : Z) (q : obj) : result obj :=
  let completed := get "completed" q in
  let priority := get "priority" q in
  let category := get "category" q in
  let search := get "search" q in
  let includeOverdue := or_default (get "includeOverdue" q) (VBool false) in
  let filter : obj := ∅ in
  let filter :=
    if negb (strict_eq completed VUndefined)
    then <["completed" := VBool (strict_eq completed (VStr "true"))]> filter else filter in
  let* filter :=
    (if truthy priority
     then let* p := call_toLowerCase priority in Ok (<["priority" := VStr p]> filter)
     else Ok filter) in
  let* filter :=
    (if truthy category
     then if RegExp_valid (to_string category)
          then Ok (<["category" := VRegExp (to_string category) "i"]> filter)
          else Throw (SyntaxError "Invalid regular expression")
     else Ok filter) in
  let filter :=
    if truthy search
    then <["$text" := VObj {[ "$search" := search ]}]> filter else filter in
  let filter :=
    if strict_eq includeOverdue (VStr "true")
    then <["completed" := VBool false]>
           (<["dueDate" := VObj {[ "$lt" := VDate now ]}]> filter)
    else filter in
  Ok filter.

(** The sort specification [getAllTasks] builds from the query. *)
Definition build_sort (q : obj) : obj :=
  let search := get "search" q in
  let sortBy := or_default (get "sortBy" q) (VStr "createdAt") in
  let sortOrder := or_default (get "sortOrder" q) (VStr "desc") in
  let sort : obj :=
    {[ to_string sortBy := VNum (if strict_eq sortOrder (VStr "desc") then -1 else 1) ]} in
  if truthy search
  then <["score" := VObj {[ "$meta" := VStr "textScore" ]}]> sort else sort.

(** [getAllTasks] *)
Definition getAllTasks (req : request) (now : Z) (w : world) : response :=
  let page := or_default (get "page" (query req)) (VNum 1) in
  let limit := or_default (get "limit" (query req)) (VNum 10) in
  caught
    (let* filter := build_filter now (query req) in
     let sort := build_sort (query req) in
     let skip := num_mul (num_pred (parseInt page)) (parseInt limit) in
     let* tasks :=
       read_db w (fun c =>
         let* skip := to_count skip in
         let* lim := to_count (parseInt limit) in
         Task.find_lean filter sort skip lim c) in
     let* totalCount := read_db w (fun c => Ok (Task.countDocuments filter c)) in
     let totalPages := ceil_div totalCount (parseInt limit) in
     let hasNextPage := num_lt (parseInt page) totalPages in
     let hasPrevPage := num_lt (Int 1) (parseInt page) in
     Ok (send 200
           [ ("success", VBool true);
             ("message", VStr ("Retrieved " +:+ pretty (length tasks) +:+ " tasks"));
             ("data", objects tasks);
             ("pagination",
               VObj (list_to_map
                 [ ("currentPage", json_number (parseInt page));
                   ("totalPages", json_number totalPages);
                   ("totalItems", VNum totalCount);
                   ("itemsPerPage", json_number (parseInt limit));
                   ("hasNextPage", VBool hasNextPage);
                   ("hasPrevPage", VBool hasPrevPage) ])) ])).

(** [getTaskById] *)
Definition getTaskById (req : request) (w : world) : response :=
  let id := params_id req in
  if negb (isValid id) then invalid_id
  else
    caught
      (let* task := read_db w (Task.findById id) in
       match task with
       | None => Ok (not_found id)
       | Some task =>
           Ok (send 200 [ ("success", VBool true);
                          ("message", VStr "Task retrieved successfully");
                          ("data", VObj (Task.to_lean task)) ])
       end).

(** [createTask] *)
Definition createTask (req : request) (now : Z) (w : world) : response * world :=
  let taskData := default (body req) (validatedData req) in
  let '(savedTask, w') := on_db_after w (Task.prepare now taskData) Task.insertOne in
  (caught
     (let* savedTask := savedTask in
      Ok (send 201 [ ("success", VBool true);
                     ("message", VStr "Task created successfully");
                     ("data", VObj (Task.toJSON savedTask)) ])),
   w').

Definition update_options : obj :=
  list_to_map [ ("new", VBool true); ("runValidators", VBool true); ("lean", VBool true) ].

(** [updateTask] *)
Definition updateTask (req : request) (now : Z) (w : world) : response * world :=
  let id := params_id req in
  let updateData := default (body req) (validatedData req) in
  if negb (isValid id) then (invalid_id, w)
  else
    let '(updatedTask, w') :=
      on_db_after w
        (fun _ => Task.cast_query now id
                    (<["lastModified" := VDate now]> updateData) update_options)
        (Task.findOneAndUpdate now update_options) in
    (caught
       (let* updatedTask := updatedTask in
        match updatedTask with
        | None => Ok (not_found id)
        | Some task =>
            Ok (send 200 [ ("success", VBool true);
                           ("message", VStr "Task updated successfully");
                           ("data", VObj (Task.to_lean task)) ])
        end),
     w').

(** [deleteTask] *)
Definition deleteTask (req : request) (w : world) : response * world :=
  let id := params_id req in
  if negb (isValid id) then (invalid_id, w)
  else
    let '(deletedTask, w') := on_db w (Task.findByIdAndDelete id) in
    (caught
       (let* deletedTask := deletedTask in
        match deletedTask with
        | None => Ok (not_found id)
        | Some _ => Ok {| status := 204; json := None |}
        end),
     w').

Definition group_by (path : string) : value :=
  VObj {[ "$group" :=
            VObj (list_to_map [ ("_id", VStr path);
                                ("count", VObj {[ "$sum" := VNum 1 ]}) ]) ]}.

(** The pipeline of the priority distribution. *)
Definition priority_pipeline : value :=
  VArr [ group_by "$priority"; VObj {[ "$sort" := VObj {[ "_id" := VNum 1 ]} ]} ].

(** The pipeline of the category distribution. *)
Definition category_pipeline : value :=
  VArr [ group_by "$category"; VObj {[ "$sort" := VObj {[ "count" := VNum (-1) ]} ]};
         VObj {[ "$limit" := VNum 10 ]} ].

Definition aggregate (pipeline : value) (c : Task.collection) : result (list obj) :=
  Ok (run_pipeline pipeline (map Task.to_lean (Task.docs c))).

(** [getTaskStatistics] *)
Definition getTaskStatistics (now : Z) (w : world) : response :=
  caught
    (let* stats := read_db w (fun c => Ok (Task.getStatistics now c)) in
     let* priorityStats := read_db w (aggregate priority_pipeline) in
     let* categoryStats := read_db w (aggregate category_pipeline) in
     let* recentTasks :=
       read_db w (fun c =>
         Ok (Task.countDocuments
               {[ "createdAt" := VObj {[ "$gte" := VDate (now - 7 * MS_PER_DAY) ]} ]} c)) in
     Ok (send 200
           [ ("success", VBool true);
             ("message", VStr "Statistics retrieved successfully");
             ("data",
               VObj (<["recentTasksCount" := VNum recentTasks]>
                       (<["categoryDistribution" := objects categoryStats]>
                          (<["priorityDistribution" := objects priorityStats]> stats)))) ])).

Definition query_too_short : response :=
  send 400 [ ("success", VBool false);
             ("error", VStr "Search query must be at least 2 characters long") ].

(** [!q || q.trim().length < 2] *)
Definition too_short (q : value) : result bool :=
  if negb (truthy q) then Ok true
  else let* t := call_trim q in Ok (Task.len t <? 2).

(** [searchTasks] *)
Definition searchTasks (req : request) (w : world) : response :=
  let q := get "q" (query req) in
  let limit := or_default (get "limit" (query req)) (VNum 10) in
  let page := or_default (get "page" (query req)) (VNum 1) in
  caught
    (let* short := too_short q in
     if short then Ok query_too_short
     else
       let skip := num_mul (num_pred (parseInt page)) (parseInt limit) in
       let* results :=
         read_db w (fun c =>
           let* skip := to_count skip in
           let* lim := to_count (parseInt limit) in
           Task.find_lean {[ "$text" := VObj {[ "$search" := q ]} ]}
             {[ "score" := VObj {[ "$meta" := VStr "textScore" ]} ]} skip lim c) in
       Ok (send 200
             [ ("success", VBool true);
               ("message",
                 VStr ("Found " +:+ pretty (length results) +:+ " tasks matching '"
                       +:+ to_string q +:+ "'"));
               ("data", objects results) ])).

End TaskController.
End TaskController.

(** ** The simplified controller *)

Module SimpleController.
Section SimpleController.
Context `{Host} `{Engine}.

Definition isMongoAvailable (w : world) : bool := readyState w =? 1.

(** The two classes a handler may be given as [TaskModel]. *)
Inductive model := TheTask | TheInMemoryTask.

(** [getTaskModel], awaited. *)
Definition getTaskModel (w : world) : model :=
  if isMongoAvailable w then TheTask else TheInMemoryTask.

(** *** The static methods the handlers call on [TaskModel].  A document
    of [Task] reaches the response through its [toJSON]. *)

Definition find (TaskModel : model) (filter : obj) (w : world) : result (list obj) :=
  match TaskModel with
  | TheTask => read_db w (fun c => Ok (map Task.toJSON (Task.find filter c)))
  | TheInMemoryTask => MemoryStore.find filter (mem w)
  end.

Definition findById (TaskModel : model) (id : value) (w : world) : result (option obj) :=
  match TaskModel with
  | TheTask =>
      read_db w (fun c => let* d := Task.findById id c in Ok (option_map Task.toJSON d))
  | TheInMemoryTask => Ok (MemoryStore.findById id (mem w))
  end.

Definition of_doc (r : result Task.doc) : result obj :=
  let* d := r in Ok (Task.toJSON d).

Definition of_doc_opt (r : result (option Task.doc)) : result (option obj) :=
  let* d := r in Ok (option_map Task.toJSON d).

Definition create (TaskModel : model) (now : Z) (taskData : obj) (w : world)
    : result obj * world :=
  match TaskModel with
  | TheTask =>
      let '(r, w') := on_db_after w (Task.prepare now taskData) Task.insertOne in
      (of_doc r, w')
  | TheInMemoryTask =>
      let '(t, st) := MemoryStore.create now taskData (mem w) in (Ok t, with_mem w st)
  end.

Definition findByIdAndUpdate (TaskModel : model) (now : Z) (id : value)
    (updateData options : obj) (w : world) : result (option obj) * world :=
  match TaskModel with
  | TheTask =>
      let '(r, w') :=
        on_db_after w (fun _ => Task.cast_query now id updateData options)
          (Task.findOneAndUpdate now options) in
      (of_doc_opt r, w')
  | TheInMemoryTask =>
      let '(r, st) :=
        MemoryStore.findByIdAndUpdate now id updateData (Some options) (mem w) in
      (r, with_mem w st)
  end.

Definition findByIdAndDelete (TaskModel : model) (id : value) (w : world)
    : result (option obj) * world :=
  match TaskModel with
  | TheTask => let '(r, w') := on_db w (Task.findByIdAndDelete id) in (of_doc_opt r, w')
  | TheInMemoryTask =>
      let '(t, st) := MemoryStore.findByIdAndDelete id (mem w) in (Ok t, with_mem w st)
  end.

(** [aggregate]: the array it resolves to. *)
Definition aggregate (TaskModel : model) (pipeline : value) (w : world) : result (list obj) :=
  match TaskModel with
  | TheTask => read_db w (TaskController.aggregate pipeline)
  | TheInMemoryTask => Ok [MemoryStore.aggregate (mem w)]
  end.

Definition handleError (error : js_error) : response :=
  send 500 [ ("success", VBool false); ("error", VStr "Operation failed");
             ("details", error_details error) ].

Definition caught (r : result response) : response :=
  match r with
  | Ok res => res
  | Throw e => handleError e
  end.

Definition storage (w : world) : value :=
  VStr (if isMongoAvailable w then "mongodb" else "memory").

(** [getAllTasks] *)
Definition getAllTasks (req : request) (w : world) : response :=
  let completed := get "completed" (query req) in
  let priority := get "priority" (query req) in
  let search := get "search" (query req) in
  let limit := or_default (get "limit" (query req)) (VNum 50) in
  let page := or_default (get "page" (query req)) (VNum 1) in
  let TaskModel := getTaskModel w in
  caught
    (let filter : obj := ∅ in
     let filter :=
       if negb (strict_eq completed VUndefined)
       then <["completed" := VBool (strict_eq completed (VStr "true"))]> filter
       else filter in
     let* filter :=
       (if truthy priority
        then let* p := call_toLowerCase priority in Ok (<["priority" := VStr p]> filter)
        else Ok filter) in
     let filter :=
       if truthy search && isMongoAvailable w
       then <["$text" := VObj {[ "$search" := search ]}]> filter
       else filter in
     let* tasks := find TaskModel filter w in
     let* tasks :=
       (if truthy search && negb (isMongoAvailable w)
        then let* searchTerm := call_toLowerCase search in
             filterM (MemoryStore.text_or_category_includes searchTerm) tasks
        else Ok tasks) in
     let tasks :=
       if negb (isMongoAvailable w)
       then let skip := num_mul (num_pred (parseInt page)) (parseInt limit) in
            slice skip (num_add skip (parseInt limit)) tasks
       else tasks in
     let totalCount := Z.of_nat (length tasks) in
     Ok (send 200
           [ ("success", VBool true);
             ("message", VStr ("Retrieved " +:+ pretty (length tasks) +:+ " tasks"));
             ("data", objects tasks);
             ("storage", storage w);
             ("pagination",
               VObj (list_to_map
                 [ ("currentPage", json_number (parseInt page));
                   ("itemsPerPage", json_number (parseInt limit));
                   ("totalItems", VNum totalCount) ])) ])).

(** [getTaskById] *)
Definition getTaskById (req : request) (w : world) : response :=
  let id := params_id req in
  let TaskModel := getTaskModel w in
  caught
    (let* task := findById TaskModel id w in
     match task with
     | None => Ok (not_found id)
     | Some task =>
         Ok (send 200 [ ("success", VBool true);
                        ("message", VStr "Task retrieved successfully");
                        ("data", VObj task); ("storage", storage w) ])
     end).

Definition text_required : response :=
  send 400 [ ("success", VBool false); ("error", VStr "Task text is required");
             ("details", VStr "Please provide task text") ].

(** [!taskData.text || taskData.text.trim().length === 0] *)
Definition text_missing (text : value) : result bool :=
  if negb (truthy text) then Ok true
  else let* t := call_trim text in Ok (Task.len t =? 0).

(** [createTask] *)
Definition createTask (req : request) (now : Z) (w : world) : response * world :=
  let taskData := body req in
  let TaskModel := getTaskModel w in
  match text_missing (get "text" taskData) with
  | Throw e => (handleError e, w)
  | Ok true => (text_required, w)
  | Ok false =>
      match call_trim (get "text" taskData) with
      | Throw e => (handleError e, w)
      | Ok text =>
          let '(savedTask, w') :=
            create TaskModel now
              (list_to_map
                 [ ("text", VStr text);
                   ("completed", js_or (get "completed" taskData) (VBool false));
                   ("priority", js_or (get "priority" taskData) (VStr "medium"));
                   ("category", js_or (get "category" taskData) (VStr "general"));
                   ("tags", js_or (get "tags" taskData) (VArr []));
                   ("dueDate", js_or (get "dueDate" taskData) VNull) ]) w in
          (caught
             (let* savedTask := savedTask in
              Ok (send 201 [ ("success", VBool true);
                             ("message", VStr "Task created successfully");
                             ("data", VObj savedTask); ("storage", storage w') ])),
           w')
      end
  end.

(** [updateTask] *)
Definition updateTask (req : request) (now : Z) (w : world) : response * world :=
  let id := params_id req in
  let updateData := body req in
  let TaskModel := getTaskModel w in
  let '(updatedTask, w') :=
    findByIdAndUpdate TaskModel now id (<["updatedAt" := VDate now]> updateData)
      {[ "new" := VBool true ]} w in
  (caught
     (let* updatedTask := updatedTask in
      match updatedTask with
      | None => Ok (not_found id)
      | Some task =>
          Ok (send 200 [ ("success", VBool true);
                         ("message", VStr "Task updated successfully");
                         ("data", VObj task); ("storage", storage w') ])
      end),
   w').

(** [deleteTask] *)
Definition deleteTask (req : request) (w : world) : response * world :=
  let id := params_id req in
  let TaskModel := getTaskModel w in
  let '(deletedTask, w') := findByIdAndDelete TaskModel id w in
  (caught
     (let* deletedTask := deletedTask in
      match deletedTask with
      | None => Ok (not_found id)
      | Some _ =>
          Ok (send 200 [ ("success", VBool true);
                         ("message", VStr "Task deleted successfully");
                         ("storage", storage w') ])
      end),
   w').

Definition cond_eq (path : string) (b : bool) : value :=
  VObj {[ "$sum" :=
            VObj {[ "$cond" :=
                      VArr [ VObj {[ "$eq" := VArr [VStr path; VBool b] ]};
                             VNum 1; VNum 0 ] ]} ]}.

(** The pipeline of [getTaskStatistics]. *)
Definition statistics_pipeline : value :=
  VArr [ VObj {[ "$group" :=
                   VObj (list_to_map
                     [ ("_id", VNull);
                       ("total", VObj {[ "$sum" := VNum 1 ]});
                       ("completed", cond_eq "$completed" true);
                       ("active", cond_eq "$completed" false) ]) ]} ].

(** [getTaskStatistics] *)
Definition getTaskStatistics (w : world) : response :=
  let TaskModel := getTaskModel w in
  caught
    (if isMongoAvailable w
     then
       let* stats := aggregate TaskModel statistics_pipeline w in
       let result : obj :=
         match stats with
         | first :: _ => first
         | [] => list_to_map [ ("total", VNum 0); ("completed", VNum 0); ("active", VNum 0) ]
         end in
       Ok (send 200 [ ("success", VBool true);
                      ("message", VStr "Statistics retrieved successfully");
                      ("data", VObj result); ("storage", VStr "mongodb") ])
     else
       let* stats := aggregate TaskModel VUndefined w in
       Ok (send 200 [ ("success", VBool true);
                      ("message", VStr "Statistics retrieved successfully");
                      ("data", match stats with first :: _ => VObj first | [] => VUndefined end);
                      ("storage", VStr "memory") ])).

(** [searchTasks]: checks [q], then hands the request, with [search] and
    [limit] set, to [getAllTasks]. *)
Definition searchTasks (req : request) (w : world) : response :=
  let q := get "q" (query req) in
  let limit := or_default (get "limit" (query req)) (VNum 10) in
  match TaskController.too_short q with
  | Throw e => handleError e
  | Ok true => TaskController.query_too_short
  | Ok false =>
      getAllTasks
        {| query := <["limit" := limit]> (<["search" := q]> (query req));
           params_id := params_id req; body := body req;
           validatedData := validatedData req |} w
  end.

End SimpleController.
End SimpleController.

(** ** A concrete host, engine and task sets, for closed examples *)

(** The clock reading of the examples with a due date: 14 November 2023,
    22:13:20 UTC; the midnight before it, and the midnight a day earlier. *)
Definition example_now : Z := 1700000000000.
Definition example_today : Z := 1699920000000.
Definition example_yesterday : Z := 1699833600000.

(** UTC, production mode; two date strings understood. *)
Definition utc_host : Host.
Proof.
  refine
    {| Date_parse := fun s =>
         if String.eqb s "2023-11-14T00:00:00.000Z" then Some example_today
         else if String.eqb s "2023-11-13T00:00:00.000Z" then Some example_yesterday
         else None;
       ToNumber := fun s =>
         if String.eqb (trim s) EmptyString then Some (Whole 0)
         else option_map Whole (parse_decimal (trim s));
       ToString := fun _ => "[object]";
       RegExp_valid := fun s => negb (String.eqb s "(");
       local_midnight := fun t => t - t mod MS_PER_DAY;
       development := false |}.
  - abstract (intros t; pose proof (Z.mod_pos_bound t MS_PER_DAY eq_refl); lia).
  - abstract (intros a b Hab;
              pose proof (Z.div_mod a MS_PER_DAY ltac:(discriminate));
              pose proof (Z.div_mod b MS_PER_DAY ltac:(discriminate));
              pose proof (Z.div_le_mono a b MS_PER_DAY eq_refl Hab);
              assert (0 < MS_PER_DAY) by reflexivity; nia).
  - abstract (intros t;
              pose proof (Z.div_mod t MS_PER_DAY ltac:(discriminate));
              replace (t - t mod MS_PER_DAY) with (t / MS_PER_DAY * MS_PER_DAY) by lia;
              rewrite Z.mod_mul by discriminate; lia).
Defined.

(** Every filter selects every document and no order is imposed. *)
Definition plain_engine : Engine :=
  {| matches := fun _ _ => true; sort_by := fun _ l => l;
     run_pipeline := fun _ _ => []; legacy_12_byte_ids := false;
     null_id_refused := false;
     cast_message := fun kind _ path => "Cast to " +:+ kind +:+ " failed at path " +:+ path |}.

Definition just_text (s : string) : obj := {[ "text" := VStr s ]}.

(** The in-memory task set after three creations, at clock readings 1000,
    2000 and 3000. *)
Definition three_tasks : MemoryStore.store :=
  snd (MemoryStore.create 3000 (just_text "third task")
    (snd (MemoryStore.create 2000 (just_text "second task")
      (snd (MemoryStore.create 1000 (just_text "first task") MemoryStore.empty))))).

(** No connection; three tasks in memory. *)
Definition offline : world :=
  {| readyState := 0; db := Task.no_docs; mem := three_tasks |}.

(** Connected; both task sets empty. *)
Definition online : world :=
  {| readyState := 1; db := Task.no_docs; mem := MemoryStore.empty |}.

Definition a_request (q : obj) (id : value) (payload : obj) : request :=
  {| query := q; params_id := id; body := payload; validatedData := None |}.

(** What a response says under [key], and under [key] of its [pagination]. *)
Definition said (key : string) (r : response) : value := get key (default ∅ (json r)).

(** A patch that names the creation time. *)
Definition createdAt_patch : obj := {[ "createdAt" := VStr "2000-01-01T00:00:00.000Z" ]}.

(** A creation request for the full controller. *)
Definition create_request (payload : obj) : request := a_request ∅ VUndefined payload.

(** The document collection after three creations through the full
    controller, the second task completed. *)
Definition stocked : world :=
  snd (@TaskController.createTask utc_host plain_engine
         (create_request (just_text "third document")) 3000
    (snd (@TaskController.createTask utc_host plain_engine
            (create_request (<["completed" := VBool true]> (just_text "second document"))) 2000
      (snd (@TaskController.createTask utc_host plain_engine
              (create_request (just_text "first document")) 1000 online))))).


(** How many elements of a list satisfy a test. *)
Definition number_of {A} (p : A -> bool) (l : list A) : Z :=
  Z.of_nat (length (List.filter p l)).



(** Eleven tags. *)
Definition eleven_tags : value := VArr (repeat (VStr "tag") 11).

(** A text that is too short, with too many tags; and a good text with too
    many tags. *)
Definition short_text_many_tags : obj :=
  list_to_map [("text", VStr "ab"); ("tags", eleven_tags)].
Definition good_text_many_tags : obj :=
  list_to_map [("text", VStr "water the plants"); ("tags", eleven_tags)].

(** *** White space in a text *)

Definition starts_ws (s : string) : bool :=
  match s with
  | EmptyString => false
  | String c _ => is_ws c
  end.

Fixpoint ends_ws (s : string) : bool :=
  match s with
  | EmptyString => false
  | String c EmptyString => is_ws c
  | String _ r => ends_ws r
  end.

(** Every white-space character is a space and is followed by a character
    that is not white space, or by the end. *)
Fixpoint single_spaces (s : string) : bool :=
  match s with
  | EmptyString => true
  | String c r =>
      (if is_ws c then Ascii.eqb c " " && negb (starts_ws r) else true) && single_spaces r
  end.

(** A text is whitespace-normalized: nothing to trim at either end, and
    between words single spaces only. *)
Definition normalized (s : string) : Prop :=
  starts_ws s = false /\ ends_ws s = false /\ single_spaces s = true.

(** The normal form of a text: trimmed, then runs of white space collapsed. *)
Definition normalize (s : string) : string := collapse_ws false (trim s).


(** A task due on the day given. *)
Definition due (day : string) : obj :=
  list_to_map [("text", VStr "pay the rent"); ("dueDate", VStr day)].


(** The stored tasks carry the numbers [ns] as their identifiers, in this
    order: both [_id] and [id] of each are the decimal string of its number. *)
Definition numbered (ns : list Z) (tasks : list obj) : Prop :=
  Forall2 (fun n task => get "_id" task = MemoryStore.String_ n
                         /\ get "id" task = MemoryStore.String_ n) ns tasks.

(** The identifiers of a store are as [create] hands them out: distinct
    numbers below the counter. *)
Definition well_numbered (st : MemoryStore.store) : Prop :=
  exists ns, NoDup ns /\ Forall (fun n => n < MemoryStore.nextId st) ns
             /\ numbered ns (MemoryStore.tasks st).

(** At most one stored task answers to [id]. *)
Definition at_most_one (id : value) (st : MemoryStore.store) : Prop :=
  number_of (MemoryStore.has_id id) (MemoryStore.tasks st) <= 1.

(** A request that names a task. *)
Definition by_id (id : string) : request := a_request ∅ (VStr id) ∅.

(** The document collection with one task, due on the day of
    [example_now] and created then. *)
Definition one_due : world :=
  snd (@TaskController.createTask utc_host plain_engine
         (create_request (due "2023-11-14T00:00:00.000Z")) example_now online).

(** The in-memory stores a process can reach: from the empty store by
    creating, deleting, clearing, loading the sample data, and updating with
    a patch that names neither [_id] nor [id]. *)
Inductive reachable : MemoryStore.store -> Prop :=
| reach_empty : reachable MemoryStore.empty
| reach_create (now : Z) (taskData : obj) (st : MemoryStore.store) :
    reachable st -> reachable (snd (MemoryStore.create now taskData st))
| reach_delete (id : value) (st : MemoryStore.store) :
    reachable st -> reachable (snd (MemoryStore.findByIdAndDelete id st))
| reach_update (now : Z) (id : value) (updateData : obj) (options : option obj)
    (st : MemoryStore.store) :
    reachable st ->
    updateData !! "_id" = None -> updateData !! "id" = None ->
    reachable (snd (MemoryStore.findByIdAndUpdate now id updateData options st))
| reach_clear (st : MemoryStore.store) :
    reachable st -> reachable (MemoryStore.clearTasks st)
| reach_sample (now : Z) (st : MemoryStore.store) :
    reachable st -> reachable (MemoryStore.initializeSampleData now st).

(** The creation time of a stored task, when it is a date. *)
Definition created_at (task : obj) : option Z :=
  match get "createdAt" task with
  | VDate ms => Some ms
  | _ => None
  end.

(** [a] was created no earlier than [b]. *)
Definition not_older (a b : obj) : Prop :=
  match created_at a, created_at b with
  | Some x, Some y => y <= x
  | _, _ => False
  end.

(** A stored task passes the criteria of a filter without text search:
    each of [completed], [priority], [category] that the filter gives (for
    [completed]: gives at all, for the others: gives as a truthy value) is
    strictly equal to the task's. *)
Definition passes (filter task : obj) : bool :=
  (strict_eq (get "completed" filter) VUndefined
   || strict_eq (get "completed" task) (get "completed" filter))
  && (negb (truthy (get "priority" filter))
      || strict_eq (get "priority" task) (get "priority" filter))
  && (negb (truthy (get "category" filter))
      || strict_eq (get "category" task) (get "category" filter)).

(** The filter asks for no text search. *)
Definition no_text_search (filter : obj) : Prop :=
  truthy (get "$text" filter) && truthy (prop "$search" (get "$text" filter)) = false.


(** A tag as a saved document holds it: a string that is not empty, with
    nothing to trim, in lower case, of at most 20 characters. *)
Definition stored_tag (t : option string) : Prop :=
  exists s, t = Some s /\ s <> EmptyString /\ trim s = s /\ toLowerCase s = s
            /\ Task.len s <= 20.

(** What the setters of a tag leave: nothing to trim, no upper case. *)
Definition set_tag (t : option string) : Prop :=
  forall s, t = Some s -> trim s = s /\ toLowerCase s = s.

(** The paths of the schema at the top of a document. *)
Definition schema_paths : list string :=
  [ "text"; "completed"; "priority"; "category"; "dueDate"; "tags"; "createdAt";
    "lastModified"; "userId"; "metadata" ].

(** A payload with untidy text, category and tags. *)
Definition untidy_payload : obj :=
  list_to_map [ ("text", VStr "  Buy   MILK ");
                ("category", VStr " errands ");
                ("tags", VArr [VStr " Home "; VStr "  "; VStr "URGENT"]);
                ("metadata", VObj {[ "estimatedTime" := VStr "30" ]}) ].

(** The document it is saved as, first in its collection, at clock reading
    4000. *)
Definition tidy_doc : Task.doc :=
  {| Task._id := Some (ObjectId_of 1); Task.text := Some "Buy MILK";
     Task.completed := Some false; Task.priority := Some "medium";
     Task.category := Some "errands"; Task.dueDate := None;
     Task.tags := [Some "home"; Some "urgent"]; Task.createdAt := Some 4000;
     Task.lastModified := Some 4000; Task.userId := None;
     Task.estimatedTime := Some (Whole 30); Task.actualTime := None;
     Task.difficulty := Some "medium" |}.


(** A search request. *)
Definition search_for (q : value) : request := a_request {[ "q" := q ]} VUndefined ∅.



(** A value that, when a string or an object read as the string of its
    [_id], has ASCII characters only. *)
Definition ascii_value (v : value) : bool :=
  match v with
  | VStr s => is_ascii s
  | VObj props =>
      match get "_id" props with
      | VStr s => is_ascii s
      | _ => true
      end
  | _ => true
  end.

(** A payload whose text, priority, category and tags have ASCII
    characters only. *)
Definition ascii_payload (data : obj) : bool :=
  ascii_value (get "text" data) && ascii_value (get "priority" data)
  && ascii_value (get "category" data)
  && match get "tags" data with
     | VArr items => forallb ascii_value items
     | v => ascii_value v
     end.



(** * Properties *)

(** ** Lists *)

Lemma findIndex_None {A} (p : A -> bool) (l : list A) :
  MemoryStore.findIndex p l = None <-> Forall (fun x => p x = false) l.
Proof.
  induction l as [|x l IH]; simpl.
  - split; [constructor | reflexivity].
  - destruct (p x) eqn:Hx.
    + split; [discriminate |]. intros Hall. inversion Hall; congruence.
    + destruct (MemoryStore.findIndex p l) as [j|]; simpl.
      * split; [discriminate |]. intros Hall. inversion Hall as [|? ? _ Hl].
        apply IH in Hl. discriminate.
      * split; [| reflexivity]. intros _. constructor; [assumption | apply IH; reflexivity].
Qed.

Lemma findIndex_Some {A} (p : A -> bool) (l : list A) (i : nat) :
  MemoryStore.findIndex p l = Some i ->
  exists x, l !! i = Some x /\ p x = true /\ List.find p l = Some x
            /\ Forall (fun y => p y = false) (take i l).
Proof.
  revert i. induction l as [|x l IH]; simpl; intros i Hi; [discriminate |].
  destruct (p x) eqn:Hx.
  - injection Hi as <-. exists x. repeat split; try assumption. constructor.
  - destruct (MemoryStore.findIndex p l) as [j|] eqn:Hj; [| discriminate].
    injection Hi as <-. destruct (IH j eq_refl) as (y & Hy & Hp & Hf & Hall).
    exists y. repeat split; try assumption. simpl. constructor; assumption.
Qed.

Lemma find_None_findIndex {A} (p : A -> bool) (l : list A) :
  List.find p l = None <-> MemoryStore.findIndex p l = None.
Proof.
  induction l as [|x l IH]; simpl; [tauto |].
  destruct (p x); [split; discriminate |].
  rewrite IH. destruct (MemoryStore.findIndex p l); simpl; split; congruence.
Qed.

Lemma find_findIndex {A} (p : A -> bool) (l : list A) (x : A) :
  List.find p l = Some x ->
  exists i, MemoryStore.findIndex p l = Some i /\ l !! i = Some x.
Proof.
  induction l as [|y l IH]; simpl; [discriminate |].
  destruct (p y).
  - intros [= ->]. exists O. split; reflexivity.
  - intros Hx. destruct (IH Hx) as (i & Hi & Hl). exists (S i). rewrite Hi. split; [reflexivity | exact Hl].
Qed.

(** ** The in-memory store *)

Section MemoryStoreFacts.
Import MemoryStore.

Lemma get_empty (k : string) : get k ∅ = VUndefined.
Proof. unfold get. rewrite lookup_empty. reflexivity. Qed.

(** What an update does to a stored task, property by property. *)
Lemma updated_task_get (now : Z) (old updateData : obj) (k : string) :
  get k (<["lastModified" := VDate now]>
           (<["updatedAt" := VDate now]> (spread old updateData))) =
  if decide (k = "lastModified") then VDate now
  else if decide (k = "updatedAt") then VDate now
  else match updateData !! k with
       | Some v => v
       | None => get k old
       end.
Proof.
  unfold get, spread.
  destruct (decide (k = "lastModified")) as [->|Hne1].
  { rewrite lookup_insert_eq. reflexivity. }
  rewrite lookup_insert_ne by congruence.
  destruct (decide (k = "updatedAt")) as [->|Hne2].
  { rewrite lookup_insert_eq. reflexivity. }
  rewrite lookup_insert_ne by congruence.
  rewrite lookup_union. destruct (updateData !! k), (old !! k); reflexivity.
Qed.

(** An update that finds its task returns the merged task and stores it
    in the place of the old one. *)
Lemma findByIdAndUpdate_found (now : Z) (id : value) (updateData : obj)
    (options : option obj) (st : store) (i : nat) :
  findIndex (has_id id) (tasks st) = Some i ->
  exists old,
    tasks st !! i = Some old /\
    let updatedTask :=
      <["lastModified" := VDate now]>
        (<["updatedAt" := VDate now]> (spread old updateData)) in
    findByIdAndUpdate now id updateData options st =
      (Ok (Some updatedTask),
       {| tasks := <[i := updatedTask]> (tasks st); nextId := nextId st |}).
Proof.
  intros Hi. destruct (findIndex_Some _ _ _ Hi) as (old & Hold & _).
  exists old. split; [assumption |]. unfold findByIdAndUpdate.
  rewrite Hi, Hold. reflexivity.
Qed.

(** A patch that does not name [createdAt] leaves it alone, and every
    update stamps [lastModified] with the clock reading. *)
Lemma update_keeps_createdAt_unless_named (now : Z) (id : value) (updateData : obj)
    (options : option obj) (st : store) (i : nat) (old : obj) :
  findIndex (has_id id) (tasks st) = Some i ->
  tasks st !! i = Some old ->
  updateData !! "createdAt" = None ->
  exists new,
    fst (findByIdAndUpdate now id updateData options st) = Ok (Some new) /\
    tasks (snd (findByIdAndUpdate now id updateData options st)) !! i = Some new /\
    get "createdAt" new = get "createdAt" old /\
    get "lastModified" new = VDate now.
Proof.
  intros Hi Hold Hnone.
  destruct (findByIdAndUpdate_found now id updateData options st i Hi) as (old' & Hold' & Heq).
  rewrite Hold in Hold'. injection Hold' as <-. simpl in Heq. rewrite Heq. simpl.
  eexists. split; [reflexivity |]. split.
  - apply list_lookup_insert_eq. apply lookup_lt_Some in Hold. assumption.
  - rewrite !updated_task_get. rewrite Hnone. split; reflexivity.
Qed.

End MemoryStoreFacts.

(** C10.  In the in-memory store, [findByIdAndUpdate] on an id that no
    stored task answers to resolves to null when the options carry a truthy
    [new], and throws "Task not found" when the options are absent or their
    [new] is falsy; the store is the same afterwards in both cases. *)
Theorem findByIdAndUpdate_no_match (now : Z) (id : value) (updateData : obj)
    (options : option obj) (st : MemoryStore.store) :
  Forall (fun task => MemoryStore.has_id id task = false) (MemoryStore.tasks st) ->
  (truthy (get "new" (default ∅ options)) = true ->
   MemoryStore.findByIdAndUpdate now id updateData options st = (Ok None, st)) /\
  (options = None \/ truthy (get "new" (default ∅ options)) = false ->
   MemoryStore.findByIdAndUpdate now id updateData options st
   = (Throw (Error "Task not found"), st)).
Proof.
  intros Hnone. apply findIndex_None in Hnone.
  unfold MemoryStore.findByIdAndUpdate. rewrite Hnone. split.
  - intros ->. reflexivity.
  - intros [-> | ->]; [| reflexivity]. simpl. rewrite get_empty. reflexivity.
Qed.

Lemma findByIdAndUpdate_no_match_witness :
  MemoryStore.findByIdAndUpdate 4000 (VStr "7") (just_text "renamed")
    (Some {[ "new" := VBool true ]}) three_tasks = (Ok None, three_tasks)
  /\ MemoryStore.findByIdAndUpdate 4000 (VStr "7") (just_text "renamed") None three_tasks
     = (Throw (Error "Task not found"), three_tasks).
Proof.
  assert (Hnone : Forall (fun task => MemoryStore.has_id (VStr "7") task = false)
                    (MemoryStore.tasks three_tasks)).
  { repeat constructor. }
  split.
  - apply (proj1 (findByIdAndUpdate_no_match 4000 (VStr "7") (just_text "renamed")
                    (Some {[ "new" := VBool true ]}) three_tasks Hnone)).
    reflexivity.
  - apply (proj2 (findByIdAndUpdate_no_match 4000 (VStr "7") (just_text "renamed")
                    None three_tasks Hnone)).
    left. reflexivity.
Defined.

(** ** Which backend serves a request *)

Section Dispatch.
Context `{Host} `{Engine}.









Lemma with_db_same (w : world) : with_db w (db w) = w.
Proof. destruct w; reflexivity. Qed.






(** The simplified controller resolves its model on every request, and
    without a connection that model is the in-memory store. *)
Lemma getTaskModel_offline (w : world) :
  readyState w <> 1 ->
  SimpleController.getTaskModel w = SimpleController.TheInMemoryTask.
Proof.
  intros Hrs. unfold SimpleController.getTaskModel, SimpleController.isMongoAvailable.
  destruct (Z.eqb_spec (readyState w) 1); congruence.
Qed.

(** Without a connection the simplified controller serves get-by-id,
    update and delete from the in-memory store, and leaves the document
    database alone. *)
Lemma simple_controller_offline (req : request) (now : Z) (w : world) :
  readyState w <> 1 ->
  SimpleController.findById (SimpleController.getTaskModel w) (params_id req) w
    = Ok (MemoryStore.findById (params_id req) (mem w))
  /\ db (snd (SimpleController.createTask req now w)) = db w
  /\ db (snd (SimpleController.updateTask req now w)) = db w
  /\ db (snd (SimpleController.deleteTask req w)) = db w.
Proof.
  intros Hrs. rewrite getTaskModel_offline by assumption. split; [reflexivity |].
  unfold SimpleController.createTask, SimpleController.updateTask,
    SimpleController.deleteTask.
  rewrite getTaskModel_offline by assumption. simpl. repeat split.
  - destruct (SimpleController.text_missing _) as [[|]|]; try reflexivity.
    destruct (call_trim _); reflexivity.
  - destruct (MemoryStore.findByIdAndUpdate _ _ _ _ _). reflexivity.
  - destruct (MemoryStore.findByIdAndDelete _ _). reflexivity.
Qed.


End Dispatch.


(** ** Updates and the two timestamps *)

(** In the document model an update cannot reach [createdAt], and it stamps
    [lastModified] with the clock reading. *)
Lemma apply_patch_timestamps (now : Z) (p : Task.patch) (d : Task.doc) :
  Task.createdAt (Task.apply_patch now p d) = Task.createdAt d
  /\ Task.lastModified (Task.apply_patch now p d) = Some now.
Proof. split; reflexivity. Qed.

(** An update of the document model that returns the new document returns
    a stored document's successor: same id, same creation time, and
    [lastModified] at the clock reading of the update. *)
Lemma document_update_keeps_createdAt `{Host} `{Engine} (now : Z) (id : value)
    (update options : obj) (c c' : Task.collection) (d' : Task.doc) :
  truthy (get "new" options) = true ->
  Task.findByIdAndUpdate now id update options c = (Ok (Some d'), c') ->
  exists d,
    In d (Task.docs c) /\ Task._id d' = Task._id d
    /\ Task.createdAt d' = Task.createdAt d
    /\ Task.lastModified d' = Some now.
Proof.
  intros Hnew. unfold Task.findByIdAndUpdate.
  destruct (Task.cast_query now id update options) as [[oid p]|e]; [| discriminate].
  unfold Task.findOneAndUpdate.
  destruct (List.find (Task.is_doc oid) (Task.docs c)) as [d|] eqn:Hfind; [| discriminate].
  rewrite Hnew. intros [= <- _]. exists d.
  apply List.find_some in Hfind as [Hin _]. repeat split; assumption || reflexivity.
Qed.

(** C2, on the code.  Through the simplified controller and the in-memory
    store, an update whose patch names [createdAt] replaces the creation
    time of the task: task "1", created at clock reading 1000, carries the
    patch's string afterwards.  Its [lastModified] is the clock reading of
    the update. *)
Theorem memory_update_overwrites_createdAt :
  let before := MemoryStore.findById (VStr "1") (mem offline) in
  let result :=
    @SimpleController.updateTask utc_host plain_engine
      (a_request ∅ (VStr "1") createdAt_patch) 9000 offline in
  let after := MemoryStore.findById (VStr "1") (mem (snd result)) in
  status (fst result) = 200
  /\ option_map (get "createdAt") before = Some (VDate 1000)
  /\ option_map (get "createdAt") after = Some (VStr "2000-01-01T00:00:00.000Z")
  /\ option_map (get "lastModified") after = Some (VDate 9000).
Proof. vm_compute. repeat split; reflexivity. Qed.

(** ** Pagination *)


(** *** Integers as doubles *)


(** Above 2^53 the nearest double is a mantissa of 53 bits times a power
    of two. *)
Lemma nearest_shape (n : Z) :
  MAX_SAFE < n ->
  exists q e, 1 <= e /\ 2 ^ 52 <= q <= 2 ^ 53 /\ nearest n = q * 2 ^ e.
Proof.
  intros Hn. unfold nearest.
  assert (Hlog : 53 <= Z.log2 n).
  { change 53 with (Z.log2 MAX_SAFE). apply Z.log2_le_mono. lia. }
  set (e := Z.log2 n - 52).
  assert (He : 1 <= e) by (unfold e; lia).
  assert (Hpos : 0 < 2 ^ e) by (apply Z.pow_pos_nonneg; lia).
  destruct (Z.log2_spec n ltac:(unfold MAX_SAFE in Hn; lia)) as [Hlo Hhi].
  assert (Hsplit : 2 ^ Z.log2 n = 2 ^ 52 * 2 ^ e).
  { unfold e. rewrite <- Z.pow_add_r by lia. f_equal. lia. }
  assert (Hsplit' : 2 ^ Z.succ (Z.log2 n) = 2 ^ 53 * 2 ^ e).
  { unfold e. rewrite <- Z.pow_add_r by lia. f_equal. lia. }
  assert (Hq : 2 ^ 52 <= n / 2 ^ e < 2 ^ 53).
  { split.
    - apply Z.div_le_lower_bound; [exact Hpos |]. rewrite Z.mul_comm. lia.
    - apply Z.div_lt_upper_bound; [exact Hpos |]. rewrite Z.mul_comm. lia. }
  exists (if (2 ^ (e - 1) <? n mod 2 ^ e) || ((n mod 2 ^ e =? 2 ^ (e - 1)) && Z.odd (n / 2 ^ e))
          then n / 2 ^ e + 1 else n / 2 ^ e), e.
  split; [exact He |]. split; [| reflexivity].
  destruct (_ || _); lia.
Qed.

Lemma nearest_large (n : Z) : MAX_SAFE < n -> MAX_SAFE <= nearest n.
Proof.
  intros Hn. destruct (nearest_shape n Hn) as (q & e & He & Hq & ->).
  assert (H2 : 2 ^ 1 <= 2 ^ e) by (apply Z.pow_le_mono_r; lia).
  change (2 ^ 1) with 2 in H2. change MAX_SAFE with (2 ^ 52 * 2).
  assert (H52 : 0 < 2 ^ 52) by reflexivity. nia.
Qed.






Section Pagination.
Context `{Host} `{Engine}.







End Pagination.




(** ** Statistics *)










(** ** Validation errors and the answer to the caller *)

(** C5, on the code.  A creation payload with a two-character text and
    eleven tags breaks two rules; the full controller answers 400 with the
    one message of the text rule, the tags rule is not among the details.
    The same eleven tags with a good text are refused by the [pre('save')]
    hook with a plain [Error], which the controller answers with 500. *)
Theorem tags_rule_is_not_enumerated `{Host} `{Engine} (now : Z) :
  let both := fst (TaskController.createTask (create_request short_text_many_tags) now online) in
  let tags_only := fst (TaskController.createTask (create_request good_text_many_tags) now online) in
  status both = 400
  /\ said "error" both = VStr "Validation failed"
  /\ said "details" both = VArr [VStr "Task text must be at least 3 characters"]
  /\ status tags_only = 500
  /\ said "error" tags_only = VStr "Database operation failed".
Proof. repeat split; reflexivity. Qed.

(** ** Normalizing a text *)

Lemma is_ws_not_angle (c : ascii) :
  is_ws c = true -> Ascii.eqb c "<" = false /\ Ascii.eqb c ">" = false.
Proof. destruct c as [[] [] [] [] [] [] [] []]; simpl; intros; try discriminate; split; reflexivity. Qed.

Lemma trimStart_starts (s : string) : starts_ws (trimStart s) = false.
Proof.
  induction s as [|c r IH]; simpl; [reflexivity |].
  destruct (is_ws c) eqn:Hc; [assumption | simpl; assumption].
Qed.

Lemma trimEnd_ends (s : string) : ends_ws (trimEnd s) = false.
Proof.
  induction s as [|c r IH]; simpl; [reflexivity |].
  destruct (trimEnd r) as [|c' r'] eqn:Hr.
  - destruct (is_ws c) eqn:Hc; simpl; [reflexivity | assumption].
  - simpl. simpl in IH. assumption.
Qed.

Lemma trimEnd_starts (s : string) : starts_ws s = false -> starts_ws (trimEnd s) = false.
Proof.
  destruct s as [|c r]; simpl; [reflexivity |]. intros Hc. rewrite Hc.
  destruct (trimEnd r); simpl; exact Hc.
Qed.

Lemma trim_trimmed (s : string) : starts_ws (trim s) = false /\ ends_ws (trim s) = false.
Proof.
  unfold trim. split; [apply trimEnd_starts, trimStart_starts | apply trimEnd_ends].
Qed.

Lemma trimStart_id (s : string) : starts_ws s = false -> trimStart s = s.
Proof. destruct s as [|c r]; simpl; [reflexivity |]. intros ->. reflexivity. Qed.

Lemma trimEnd_id (s : string) : ends_ws s = false -> trimEnd s = s.
Proof.
  induction s as [|c r IH]; simpl; [reflexivity |].
  destruct r as [|c' r'].
  - simpl. intros ->. reflexivity.
  - intros Hr. rewrite (IH Hr). reflexivity.
Qed.

Lemma trim_id (s : string) : starts_ws s = false -> ends_ws s = false -> trim s = s.
Proof. intros Hs He. unfold trim. rewrite (trimStart_id s Hs). apply trimEnd_id, He. Qed.

Lemma collapse_nonempty (b : bool) (s : string) :
  ends_ws s = false -> s <> EmptyString -> collapse_ws b s <> EmptyString.
Proof.
  revert b. induction s as [|c r IH]; intros b He Hne; [congruence |].
  simpl. destruct r as [|c' r'].
  - simpl in He. rewrite He. discriminate.
  - assert (Hr : collapse_ws true (String c' r') <> EmptyString) by (apply IH; [assumption | discriminate]).
    destruct (is_ws c); [destruct b; [assumption | discriminate] | discriminate].
Qed.

Lemma collapse_ends (b : bool) (s : string) :
  ends_ws s = false -> ends_ws (collapse_ws b s) = false.
Proof.
  revert b. induction s as [|c r IH]; intros b He; [reflexivity |].
  destruct r as [|c' r'].
  - simpl in He. simpl. rewrite He. simpl. exact He.
  - assert (Hne : forall b', collapse_ws b' (String c' r') <> EmptyString)
      by (intros b'; apply collapse_nonempty; [assumption | discriminate]).
    assert (Hend : forall b', ends_ws (collapse_ws b' (String c' r')) = false)
      by (intros b'; apply IH; assumption).
    change (collapse_ws b (String c (String c' r'))) with
      (if is_ws c
       then (if b then collapse_ws true (String c' r')
             else String " " (collapse_ws true (String c' r')))
       else String c (collapse_ws false (String c' r'))).
    destruct (is_ws c); [destruct b |].
    + apply Hend.
    + specialize (Hne true). specialize (Hend true).
      destruct (collapse_ws true (String c' r')); [congruence | exact Hend].
    + specialize (Hne false). specialize (Hend false).
      destruct (collapse_ws false (String c' r')); [congruence | exact Hend].
Qed.

Lemma collapse_starts (s : string) :
  starts_ws s = false -> starts_ws (collapse_ws false s) = false.
Proof. destruct s as [|c r]; simpl; [reflexivity |]. intros Hc. rewrite Hc. simpl. exact Hc. Qed.

Lemma collapse_single_spaces (b : bool) (s : string) :
  single_spaces (collapse_ws b s) = true
  /\ (b = true -> starts_ws (collapse_ws b s) = false).
Proof.
  revert b. induction s as [|c r IH]; intros b; simpl; [split; reflexivity |].
  destruct (is_ws c) eqn:Hc.
  - destruct b.
    + apply IH.
    + destruct (IH true) as [Hs Hst]. split; [| discriminate].
      simpl. rewrite Hs, (Hst eq_refl). reflexivity.
  - destruct (IH false) as [Hs _]. split.
    + simpl. rewrite Hc, Hs. reflexivity.
    + intros _. simpl. exact Hc.
Qed.

Lemma normalize_normalized (s : string) : normalized (normalize s).
Proof.
  unfold normalized, normalize. destruct (trim_trimmed s) as [Hs He].
  repeat split.
  - apply collapse_starts, Hs.
  - apply collapse_ends, He.
  - apply collapse_single_spaces.
Qed.

Lemma collapse_length_le (b : bool) (s : string) :
  (String.length (collapse_ws b s) <= String.length s)%nat.
Proof.
  revert b. induction s as [|c r IH]; intros b; simpl; [lia |].
  pose proof (IH true). pose proof (IH false).
  destruct (is_ws c); [destruct b |]; simpl; lia.
Qed.

Lemma length_pos_nonempty (s : string) : s <> EmptyString -> (1 <= String.length s)%nat.
Proof. destruct s; [congruence | simpl; lia]. Qed.

(** Collapsing cannot shorten a trimmed text of three characters or more to
    fewer than three: its first and last characters stay, and so does one
    character between them. *)
Lemma collapse_length_ge_3 (s : string) :
  starts_ws s = false -> ends_ws s = false ->
  (3 <= String.length s)%nat -> (3 <= String.length (collapse_ws false s))%nat.
Proof.
  destruct s as [|c1 [|c2 [|c3 r]]]; simpl; try lia.
  intros Hc1 He _. rewrite Hc1. simpl.
  assert (Hrest : forall b, (1 <= String.length (collapse_ws b (String c3 r)))%nat).
  { intros b. apply length_pos_nonempty, collapse_nonempty; [| discriminate].
    destruct r; exact He. }
  destruct (is_ws c2); simpl.
  - specialize (Hrest true). simpl in Hrest. lia.
  - specialize (Hrest false). simpl in Hrest. lia.
Qed.

#[local] Arguments Ascii.eqb : simpl never.

Lemma collapse_contains_gt (b : bool) (s : string) :
  contains_char ">" (collapse_ws b s) = contains_char ">" s.
Proof.
  revert b. induction s as [|c r IH]; intros b; simpl; [reflexivity |].
  destruct (is_ws c) eqn:Hc.
  - destruct (is_ws_not_angle c Hc) as [_ Hgt].
    rewrite Ascii.eqb_sym in Hgt. rewrite Hgt. simpl.
    destruct b; simpl; apply IH.
  - simpl. rewrite IH. reflexivity.
Qed.

Lemma collapse_html (b : bool) (s : string) :
  htmlRegex_test (collapse_ws b s) = htmlRegex_test s.
Proof.
  revert b. induction s as [|c r IH]; intros b; simpl; [reflexivity |].
  destruct (is_ws c) eqn:Hc.
  - destruct (is_ws_not_angle c Hc) as [Hlt _]. rewrite Hlt. simpl.
    destruct b; simpl; apply IH.
  - simpl. rewrite IH, collapse_contains_gt. reflexivity.
Qed.

(** ** Saving a document *)

Section Saving.
Context `{Host} `{Engine}.

(** The paths of a new document, each as its cast and default place it. *)
Lemma construct_fields (now : Z) (oid : string) (data : obj) :
  let d := fst (Task.construct now oid data) in
  Task._id d
  = fst (Task.place "_id" "ObjectId" (get "_id" data)
           (Task.cast_ObjectId (get "_id" data)) (Some oid))
  /\ Task.text d
     = fst (Task.place "text" "string" (get "text" data)
              (Task.set_trim (Task.cast_String (get "text" data))) None)
  /\ Task.priority d
     = fst (Task.place "priority" "string" (get "priority" data)
              (Task.set_lowercase (Task.cast_String (get "priority" data)))
              (Some "medium"))
  /\ Task.dueDate d
     = fst (Task.place "dueDate" "date" (get "dueDate" data)
              (Task.cast_Date (get "dueDate" data)) None).
Proof.
  unfold Task.construct.
  repeat match goal with
  | |- context [match ?p with pair _ _ => _ end] => destruct p
  end.
  simpl. repeat split; reflexivity.
Qed.

Lemma place_no_error {A} (path kind : string) (raw : value) (c : Task.cast A)
    (dflt : option A) (q : string) :
  path <> q \/ c <> Task.Bad ->
  Task.has_path (snd (Task.place path kind raw c dflt)) q = false.
Proof.
  intros Hor. destruct c; try reflexivity. simpl.
  destruct Hor as [Hne | Hbad]; [| congruence].
  destruct (String.eqb_spec path q); [congruence | reflexivity].
Qed.

Lemma has_path_app (l1 l2 : list Task.path_error) (q : string) :
  Task.has_path (l1 ++ l2) q = Task.has_path l1 q || Task.has_path l2 q.
Proof. unfold Task.has_path. apply existsb_app. Qed.


Lemma validate_nil (now : Z) (d : Task.doc) (cast_errors : list Task.path_error) :
  Task.validate now d cast_errors = [] ->
  cast_errors = [] /\ Task.validators now d = [].
Proof.
  unfold Task.validate. intros Hnil. apply app_eq_nil in Hnil as [-> Hf].
  split; [reflexivity |].
  revert Hf. induction (Task.validators now d) as [|e l IH]; [reflexivity |].
  simpl. discriminate.
Qed.

(** What a document went through when [save()] is ready to insert it. *)
Lemma prepare_Ok (now : Z) (data : obj) (c : Task.collection) (d' : Task.doc) :
  Task.prepare now data c = Ok d' ->
  let built := Task.construct now (ObjectId_of (Task.next_oid c)) data in
  snd built = [] /\ Task.validators now (fst built) = []
  /\ Task.pre_save now (fst built) = Ok d'.
Proof.
  unfold Task.prepare.
  destruct (Task.construct now (ObjectId_of (Task.next_oid c)) data) as [d ce].
  destruct (Task.validate now d ce) as [|e errs] eqn:Hv; [| discriminate].
  apply validate_nil in Hv as [-> Hv].
  destruct (Task.pre_save now d) as [d1|e] eqn:Hpre; [| discriminate].
  cbn [result_bind fst snd].
  destruct (Task._id d1); [| destruct null_id_refused; [discriminate |]];
    intros [= <-]; auto.
Qed.

(** A successful [save] is a preparation and an insertion. *)
Lemma save_Ok_steps (now : Z) (data : obj) (c c' : Task.collection) (d' : Task.doc) :
  Task.save now data c = (Ok d', c') ->
  Task.prepare now data c = Ok d'
  /\ existsb (Task.is_doc (default (ObjectId_of (Task.next_oid c)) (Task._id d')))
       (Task.docs c) = false
  /\ c' = {| Task.docs :=
               Task.docs c
               ++ [Task.set_id (Some (default (ObjectId_of (Task.next_oid c)) (Task._id d')))
                     d'];
             Task.next_oid := Task.next_oid c + 1 |}.
Proof.
  unfold Task.save. destruct (Task.prepare now data c) as [d|e]; [| discriminate].
  unfold Task.insertOne. destruct (existsb _ _) eqn:Hex; [discriminate |].
  intros [= <- <-]. auto.
Qed.

(** What a successful [save] went through. *)
Lemma save_Ok (now : Z) (data : obj) (c c' : Task.collection) (d' : Task.doc) :
  Task.save now data c = (Ok d', c') ->
  let d := fst (Task.construct now (ObjectId_of (Task.next_oid c)) data) in
  Task.validators now d = []
  /\ Task.pre_save now d = Ok d'
  /\ Task.docs c'
     = Task.docs c
       ++ [Task.set_id (Some (default (ObjectId_of (Task.next_oid c)) (Task._id d'))) d'].
Proof.
  intros Hsave. apply save_Ok_steps in Hsave as (Hprep & _ & ->).
  apply prepare_Ok in Hprep as (_ & Hv & Hpre). cbv zeta. auto.
Qed.

(** A document with its own id put back is itself. *)
Lemma set_id_same (d : Task.doc) : Task.set_id (Task._id d) d = d.
Proof. destruct d; reflexivity. Qed.

Lemma set_id_again (id id' : option string) (d : Task.doc) :
  Task.set_id id (Task.set_id id' d) = Task.set_id id d.
Proof. reflexivity. Qed.

(** A failed validation is a [ValidationError] carrying every error found,
    and nothing is stored. *)
Lemma save_invalid (now : Z) (data : obj) (c : Task.collection) :
  let built := Task.construct now (ObjectId_of (Task.next_oid c)) data in
  Task.validate now (fst built) (snd built) <> [] ->
  Task.save now data c
  = (Throw (Task.ValidationError (Task.validate now (fst built) (snd built))), c).
Proof.
  unfold Task.save, Task.prepare.
  destruct (Task.construct now (ObjectId_of (Task.next_oid c)) data) as [d ce].
  simpl. destruct (Task.validate now d ce); [congruence | reflexivity].
Qed.


Lemma validators_priority (now : Z) (d : Task.doc) :
  Task.validators now d = [] -> Task.validate_priority (Task.priority d) = [].
Proof.
  unfold Task.validators. intros Hv.
  apply app_eq_nil in Hv as [_ Hv]. apply app_eq_nil in Hv. apply Hv.
Qed.

(** A text that passes its validators. *)
Lemma validate_text_ok (t : string) :
  Task.validate_text (Some t) = [] ->
  t <> EmptyString /\ 3 <= Task.len t <= 255 /\ htmlRegex_test t = false.
Proof.
  unfold Task.validate_text.
  destruct (String.eqb_spec t EmptyString); [discriminate |].
  destruct (Z.ltb_spec (Task.len t) 3); [discriminate |].
  destruct (Z.ltb_spec 255 (Task.len t)); [discriminate |].
  destruct (htmlRegex_test t); [discriminate |].
  intros _. repeat split; try assumption; lia.
Qed.

(** The answer to a failed database call is never 201. *)
Lemma handleDBError_status (e : js_error) :
  status (TaskController.handleDBError e) = 400
  \/ status (TaskController.handleDBError e) = 409
  \/ status (TaskController.handleDBError e) = 500.
Proof.
  unfold TaskController.handleDBError.
  destruct (String.eqb (err_name e) "ValidationError"); [left; reflexivity |].
  destruct (bool_decide (err_code e = Some 11000)); [right; left; reflexivity |].
  destruct (String.eqb (err_name e) "CastError"); [left; reflexivity |].
  right; right; reflexivity.
Qed.

(** A creation the full controller answers with 201 saved a document. *)
Lemma createTask_created (req : request) (now : Z) (w : world) :
  status (fst (TaskController.createTask req now w)) = 201 ->
  exists d c',
    Task.save now (default (body req) (validatedData req)) (db w) = (Ok d, c')
    /\ snd (TaskController.createTask req now w) = with_db w c'.
Proof.
  unfold TaskController.createTask, on_db_after, on_db, Task.save.
  destruct (Task.prepare now _ (db w)) as [b|e] eqn:Hprep.
  - destruct (readyState w =? 1); [| simpl; discriminate].
    destruct (Task.insertOne b (db w)) as [[d|e] c'] eqn:Hins; simpl.
    + intros _. exists d, c'. split; reflexivity.
    + intros Hs. destruct (handleDBError_status e) as [He | [He | He]];
        rewrite He in Hs; discriminate.
  - simpl. intros Hs. destruct (handleDBError_status e) as [He | [He | He]];
      rewrite He in Hs; discriminate.
Qed.

(** On a connected process the full controller's creation is a [save] and
    its answer. *)
Lemma createTask_connected (req : request) (now : Z) (w : world) :
  readyState w = 1 ->
  TaskController.createTask req now w
  = (let saved := Task.save now (default (body req) (validatedData req)) (db w) in
     (TaskController.caught
        (let* savedTask := fst saved in
         Ok (send 201 [ ("success", VBool true);
                        ("message", VStr "Task created successfully");
                        ("data", VObj (Task.toJSON savedTask)) ])),
      with_db w (snd saved))).
Proof.
  intros Hrs. unfold TaskController.createTask, on_db_after, on_db, Task.save.
  destruct (Task.prepare now _ (db w)) as [b|e].
  - rewrite Hrs. simpl. destruct (Task.insertOne b (db w)). reflexivity.
  - cbv zeta. cbn [fst snd]. rewrite with_db_same. reflexivity.
Qed.

(** On a connected process the full controller's update is a
    [findByIdAndUpdate] and its answer. *)
Lemma updateTask_connected (req : request) (now : Z) (w : world) :
  readyState w = 1 ->
  TaskController.isValid (params_id req) = true ->
  TaskController.updateTask req now w
  = (let updated :=
       Task.findByIdAndUpdate now (params_id req)
         (<["lastModified" := VDate now]> (default (body req) (validatedData req)))
         TaskController.update_options (db w) in
     (TaskController.caught
        (let* updatedTask := fst updated in
         match updatedTask with
         | None => Ok (not_found (params_id req))
         | Some task =>
             Ok (send 200 [ ("success", VBool true);
                            ("message", VStr "Task updated successfully");
                            ("data", VObj (Task.to_lean task)) ])
         end),
      with_db w (snd updated))).
Proof.
  intros Hrs Hid. unfold TaskController.updateTask, on_db_after, on_db, Task.findByIdAndUpdate.
  rewrite Hid. cbn [negb].
  destruct (Task.cast_query now _ _ _) as [q|e].
  - rewrite Hrs. simpl. destruct (Task.findOneAndUpdate now _ q (db w)). reflexivity.
  - cbv zeta. cbn [fst snd]. rewrite with_db_same. reflexivity.
Qed.


End Saving.

(** ** The text of a created task *)

Lemma trim_nonempty (s : string) : trim s <> EmptyString -> s <> EmptyString.
Proof. intros Ht ->. apply Ht. reflexivity. Qed.

Lemma len_nonempty (s : string) : s <> EmptyString -> (Task.len s =? 0) = false.
Proof. destruct s; [congruence |]. intros _. reflexivity. Qed.

Lemma js_or_again (a b : value) : js_or (js_or a b) b = js_or a b.
Proof.
  unfold js_or. destruct (truthy a) eqn:Ha; [rewrite Ha; reflexivity |].
  destruct (truthy b); reflexivity.
Qed.

Lemma text_missing_string (s : string) :
  trim s <> EmptyString -> SimpleController.text_missing (VStr s) = Ok false.
Proof.
  intros Hne. pose proof (trim_nonempty s Hne) as Hs.
  unfold SimpleController.text_missing, truthy, call_trim, result_bind.
  destruct (String.eqb_spec s EmptyString); [congruence |].
  cbn [negb]. rewrite (len_nonempty _ Hne). reflexivity.
Qed.


(** Without a connection the simplified controller stores the text trimmed
    and otherwise as given. *)
Lemma simple_create_offline `{Host} `{Engine} (req : request) (now : Z) (w : world)
    (s : string) :
  readyState w <> 1 ->
  get "text" (body req) = VStr s ->
  trim s <> EmptyString ->
  status (fst (SimpleController.createTask req now w)) = 201
  /\ exists t,
       MemoryStore.tasks (mem (snd (SimpleController.createTask req now w)))
       = t :: MemoryStore.tasks (mem w)
       /\ get "text" t = VStr (trim s)
       /\ get "dueDate" t = js_or (get "dueDate" (body req)) VNull
       /\ get "priority" t = js_or (get "priority" (body req)) (VStr "medium").
Proof.
  intros Hrs Htext Hne. unfold SimpleController.createTask.
  rewrite Htext, (getTaskModel_offline w Hrs), (text_missing_string s Hne).
  cbn [call_trim SimpleController.create].
  split; [reflexivity |]. eexists. split; [reflexivity |].
  split; [reflexivity |]. split.
  - transitivity (js_or (js_or (get "dueDate" (body req)) VNull) VNull);
      [reflexivity | apply js_or_again].
  - transitivity (js_or (js_or (get "priority" (body req)) (VStr "medium")) (VStr "medium"));
      [reflexivity | apply js_or_again].
Qed.




(** ** The priority of a created task *)

Lemma one_of_In (values : list string) (s : string) :
  Task.one_of values s = true -> In s values.
Proof.
  unfold Task.one_of. intros Hex. apply existsb_exists in Hex as (v & Hin & Heq).
  apply String.eqb_eq in Heq. subst v. exact Hin.
Qed.

(** C8 as stated fails.  The sample data of the in-memory store gives its
    last task the priority 'urgent', so after [initializeSampleData] on the
    empty store the newest task has a priority outside low, medium, high. *)
Lemma sample_data_has_urgent :
  option_map (get "priority")
    (head (MemoryStore.tasks (MemoryStore.initializeSampleData 1000 MemoryStore.empty)))
  = Some (VStr "urgent")
  /\ ~ In "urgent" Task.priority_values.
Proof.
  split; [vm_compute; reflexivity |].
  simpl. intros [Hu | [Hu | [Hu | []]]]; discriminate.
Qed.

(** C8, amended.  A creation payload that omits priority (or gives a falsy
    one) yields a task of priority 'medium' in the in-memory store, which
    stores any other priority as given, without a test.  In the document
    model a successful [save] of a payload that omits priority stores
    'medium', and of a payload whose priority is a string stores that string
    in lower case, which is then one of 'low', 'medium', 'high'. *)
Theorem priority_of_created_task `{Host} `{Engine} (now : Z) (data : obj)
    (st : MemoryStore.store) (c c' : Task.collection) (d : Task.doc) :
  ((truthy (get "priority" data) = false ->
    get "priority" (fst (MemoryStore.create now data st)) = VStr "medium")
   /\ (truthy (get "priority" data) = true ->
       get "priority" (fst (MemoryStore.create now data st)) = get "priority" data))
  /\ (Task.save now data c = (Ok d, c') ->
      (get "priority" data = VUndefined -> Task.priority d = Some "medium")
      /\ (forall p, get "priority" data = VStr p ->
            Task.priority d = Some (toLowerCase p)
            /\ In (toLowerCase p) Task.priority_values)).
Proof.
  split.
  - change (get "priority" (fst (MemoryStore.create now data st)))
      with (js_or (get "priority" data) (VStr "medium")).
    unfold js_or. split; intros ->; reflexivity.
  - intros Hsave. apply save_Ok in Hsave as (Hv & Hpre & _).
    apply validators_priority in Hv.
    destruct (construct_fields now (ObjectId_of (Task.next_oid c)) data)
      as (_ & _ & Hp & _).
    set (d0 := fst (Task.construct now (ObjectId_of (Task.next_oid c)) data)) in *.
    assert (Hkept : Task.priority d = Task.priority d0).
    { unfold Task.pre_save in Hpre.
      destruct (10 <? length (Task.tags d0))%nat; [discriminate |].
      injection Hpre as <-. reflexivity. }
    rewrite Hkept. split.
    + intros Hundef. rewrite Hp, Hundef. reflexivity.
    + intros p Hstr. rewrite Hstr in Hp. simpl in Hp. rewrite Hp in Hv |- *.
      split; [reflexivity |]. unfold Task.validate_priority in Hv.
      destruct (Task.one_of Task.priority_values (toLowerCase p)) eqn:Hone;
        [apply one_of_In, Hone | discriminate].
Qed.

Lemma priority_of_created_task_witness :
  get "priority" (fst (MemoryStore.create 4000 (just_text "no priority given")
                         MemoryStore.empty)) = VStr "medium"
  /\ exists d c',
       @Task.save utc_host plain_engine 4000
         (<["priority" := VStr "HIGH"]> (just_text "loud priority")) Task.no_docs
       = (Ok d, c')
       /\ Task.priority d = Some "high".
Proof.
  split.
  - destruct (@priority_of_created_task utc_host plain_engine 4000
                (just_text "no priority given") MemoryStore.empty Task.no_docs Task.no_docs
                (fst (@Task.construct utc_host plain_engine 0 EmptyString ∅))) as [[Hmem _] _].
    apply Hmem. reflexivity.
  - destruct (@Task.save utc_host plain_engine 4000
                (<["priority" := VStr "HIGH"]> (just_text "loud priority")) Task.no_docs)
      as [[d|e] c'] eqn:Hsave.
    + exists d, c'. split; [reflexivity |].
      destruct (@priority_of_created_task utc_host plain_engine 4000
                  (<["priority" := VStr "HIGH"]> (just_text "loud priority"))
                  MemoryStore.empty Task.no_docs c' d) as [_ Hdoc].
      destruct (Hdoc Hsave) as [_ Hstr].
      destruct (Hstr "HIGH" eq_refl) as [Hp _]. exact Hp.
    + vm_compute in Hsave. discriminate.
Defined.

(** ** The due date *)

Section DueDate.
Context `{Host} `{Engine}.


Lemma dueDate_validator_spec (now v : Z) :
  Task.dueDate_validator now (Some v) = true <-> setHours0 now <= v.
Proof. unfold Task.dueDate_validator. apply Z.leb_le. Qed.

















End DueDate.




(** ** Deleting *)

Section Deleting.
Import MemoryStore.

Lemma number_of_app {A} (p : A -> bool) (l1 l2 : list A) :
  number_of p (l1 ++ l2) = number_of p l1 + number_of p l2.
Proof. unfold number_of. rewrite List.filter_app, length_app. lia. Qed.

Lemma number_of_nonneg {A} (p : A -> bool) (l : list A) : 0 <= number_of p l.
Proof. unfold number_of. lia. Qed.

Lemma number_of_zero {A} (p : A -> bool) (l : list A) :
  number_of p l = 0 -> Forall (fun x => p x = false) l.
Proof.
  unfold number_of. induction l as [|x l IH]; simpl; [constructor |].
  destruct (p x) eqn:Hx; simpl; [lia |]. intros Hl. constructor; auto.
Qed.

Lemma find_none_Forall {A} (p : A -> bool) (l : list A) :
  Forall (fun x => p x = false) l -> List.find p l = None.
Proof. intros Hall. apply find_None_findIndex, findIndex_None, Hall. Qed.

(** A delete that finds its task removes the first task answering to the
    id and returns it. *)
Lemma findByIdAndDelete_found (id : value) (st st' : store) (t : obj) :
  findByIdAndDelete id st = (Some t, st') ->
  exists i,
    tasks st !! i = Some t /\ has_id id t = true
    /\ Forall (fun x => has_id id x = false) (take i (tasks st))
    /\ tasks st' = take i (tasks st) ++ drop (S i) (tasks st)
    /\ nextId st' = nextId st.
Proof.
  unfold findByIdAndDelete.
  destruct (findIndex (has_id id) (tasks st)) as [i|] eqn:Hi; [| discriminate].
  destruct (findIndex_Some _ _ _ Hi) as (x & Hx & Hp & _ & Hbefore).
  rewrite Hx. intros [= <- <-]. exists i. simpl. auto.
Qed.

Lemma findByIdAndDelete_none (id : value) (st : store) :
  Forall (fun task => has_id id task = false) (tasks st) ->
  findByIdAndDelete id st = (None, st).
Proof.
  intros Hnone. apply findIndex_None in Hnone.
  unfold findByIdAndDelete. rewrite Hnone. reflexivity.
Qed.

(** With at most one task answering to the id, none does after the delete. *)
Lemma delete_then_findById (id : value) (st st' : store) (t : obj) :
  at_most_one id st ->
  findByIdAndDelete id st = (Some t, st') ->
  findById id st' = None.
Proof.
  unfold at_most_one. intros Hone Hdel.
  destruct (findByIdAndDelete_found id st st' t Hdel) as (i & Hi & Ht & Hbefore & Htasks & _).
  unfold findById. rewrite Htasks. apply find_none_Forall.
  rewrite <- (take_drop_middle (tasks st) i t Hi) in Hone.
  rewrite number_of_app in Hone.
  change (t :: drop (S i) (tasks st)) with ([t] ++ drop (S i) (tasks st)) in Hone.
  rewrite number_of_app in Hone.
  assert (Ht1 : number_of (has_id id) [t] = 1) by (unfold number_of; simpl; rewrite Ht; reflexivity).
  pose proof (number_of_nonneg (has_id id) (take i (tasks st))).
  pose proof (number_of_nonneg (has_id id) (drop (S i) (tasks st))).
  apply Forall_app. split; [exact Hbefore |].
  apply number_of_zero. lia.
Qed.

(** *** Stores whose identifiers come from [create] alone *)

Lemma has_id_numbered (id : value) (n : Z) (task : obj) :
  get "_id" task = String_ n -> get "id" task = String_ n ->
  has_id id task = true -> id = String_ n.
Proof.
  unfold has_id, String_. intros -> ->. destruct id; simpl; try discriminate.
  rewrite orb_diag. intros Heq. apply String.eqb_eq in Heq. congruence.
Qed.

Lemma numbered_at_most_one (id : value) (ns : list Z) (l : list obj) :
  NoDup ns -> numbered ns l -> number_of (has_id id) l <= 1.
Proof.
  intros Hnd Hnum. induction Hnum as [|n t ns l [Hid1 Hid2] Hrest IH].
  - unfold number_of. simpl. lia.
  - apply NoDup_cons in Hnd as [Hnotin Hnd]. specialize (IH Hnd).
    change (t :: l) with ([t] ++ l). rewrite number_of_app.
    destruct (has_id id t) eqn:Ht.
    + assert (Hzero : number_of (has_id id) l = 0).
      { pose proof (has_id_numbered id n t Hid1 Hid2 Ht) as ->.
        clear IH Ht Hid1 Hid2. unfold number_of.
        induction Hrest as [|n' t' ns l [Hid1 Hid2] Hrest IH]; [reflexivity |].
        apply not_elem_of_cons in Hnotin as [Hne Hnotin].
        apply NoDup_cons in Hnd as [_ Hnd].
        simpl. destruct (has_id (String_ n) t') eqn:Ht'.
        - apply (has_id_numbered _ n' t' Hid1 Hid2) in Ht'.
          unfold String_ in Ht'. injection Ht' as Ht'.
          apply (inj pretty) in Ht'. congruence.
        - apply IH; assumption. }
      unfold number_of in *. simpl. rewrite Ht. simpl. lia.
    + unfold number_of in *. simpl. rewrite Ht. simpl. lia.
Qed.

Lemma well_numbered_at_most_one (id : value) (st : store) :
  well_numbered st -> at_most_one id st.
Proof. intros (ns & Hnd & _ & Hnum). eapply numbered_at_most_one; eassumption. Qed.

Lemma empty_well_numbered : well_numbered empty.
Proof. exists []. repeat split; constructor. Qed.

Lemma create_well_numbered (now : Z) (taskData : obj) (st : store) :
  well_numbered st -> well_numbered (snd (create now taskData st)).
Proof.
  intros (ns & Hnd & Hlt & Hnum). exists (nextId st :: ns). simpl. repeat split.
  - apply NoDup_cons. split; [| exact Hnd].
    intros Hin. rewrite Forall_forall in Hlt. specialize (Hlt _ Hin). lia.
  - constructor; [lia |]. eapply Forall_impl; [exact Hlt |]. simpl. intros. lia.
  - constructor; [| exact Hnum]. split; [reflexivity |].
    transitivity (String_ (nextId st + 1 - 1)); [reflexivity | f_equal; lia].
Qed.

Lemma delete_well_numbered (id : value) (st : store) :
  well_numbered st -> well_numbered (snd (findByIdAndDelete id st)).
Proof.
  intros (ns & Hnd & Hlt & Hnum). unfold findByIdAndDelete.
  destruct (findIndex (has_id id) (tasks st)) as [i|]; [| exists ns; auto].
  exists (delete i ns). simpl. rewrite <- delete_take_drop. repeat split.
  - eapply sublist_NoDup; [exact Hnd | apply sublist_delete].
  - apply Forall_delete, Hlt.
  - apply Forall2_delete, Hnum.
Qed.

(** Every store reached from the empty one by creations and deletions has
    at most one task answering to any id. *)
Lemma created_ids_are_distinct (id : value) (st : store) :
  well_numbered st ->
  (forall now taskData, well_numbered (snd (create now taskData st)))
  /\ (forall id', well_numbered (snd (findByIdAndDelete id' st)))
  /\ at_most_one id st.
Proof.
  intros Hwn. repeat split.
  - intros now taskData. apply create_well_numbered, Hwn.
  - intros id'. apply delete_well_numbered, Hwn.
  - apply well_numbered_at_most_one, Hwn.
Qed.

End Deleting.

Section DeletingThroughControllers.
Context `{Host} `{Engine}.

Lemma with_mem_same (w : world) : with_mem w (mem w) = w.
Proof. destruct w; reflexivity. Qed.

Lemma find_after_filter {A} (p : A -> bool) (l : list A) :
  List.find p (List.filter (fun x => negb (p x)) l) = None.
Proof.
  induction l as [|x l IH]; [reflexivity |]. simpl.
  destruct (p x) eqn:Hx; simpl; [exact IH | rewrite Hx; exact IH].
Qed.

(** Without a connection, deleting an id no stored task answers to is
    answered 404 by the simplified controller, and nothing changes. *)
Lemma simple_delete_missing (req : request) (w : world) :
  readyState w <> 1 ->
  Forall (fun task => MemoryStore.has_id (params_id req) task = false)
    (MemoryStore.tasks (mem w)) ->
  status (fst (SimpleController.deleteTask req w)) = 404
  /\ snd (SimpleController.deleteTask req w) = w.
Proof.
  intros Hrs Hnone. unfold SimpleController.deleteTask.
  rewrite (getTaskModel_offline w Hrs). cbn [SimpleController.findByIdAndDelete].
  rewrite (findByIdAndDelete_none _ _ Hnone). simpl.
  split; [reflexivity | apply with_mem_same].
Qed.

(** On a connected process, deleting a well-formed id that no document has
    is answered 404 by the full controller, and nothing changes. *)
Lemma full_delete_missing (req : request) (w : world) :
  readyState w = 1 ->
  TaskController.isValid (params_id req) = true ->
  Task.findById (params_id req) (db w) = Ok None ->
  status (fst (TaskController.deleteTask req w)) = 404
  /\ snd (TaskController.deleteTask req w) = w.
Proof.
  intros Hrs Hid Hfind. unfold TaskController.deleteTask, on_db.
  rewrite Hid, Hrs. cbn [negb]. unfold Task.findById in Hfind.
  unfold Task.findByIdAndDelete.
  destruct (Task.cast_id (params_id req)) as [oid|e]; [| discriminate].
  cbn [result_bind] in Hfind. injection Hfind as Hfind. rewrite Hfind. simpl.
  split; [reflexivity | apply with_db_same].
Qed.

(** After a delete the full controller answered 204, getting the same id
    is answered 404. *)
Lemma full_delete_then_get (req : request) (w : world) :
  status (fst (TaskController.deleteTask req w)) = 204 ->
  status (TaskController.getTaskById req (snd (TaskController.deleteTask req w))) = 404.
Proof.
  unfold TaskController.deleteTask, TaskController.getTaskById, on_db, read_db.
  destruct (TaskController.isValid (params_id req)) eqn:Hid; cbn [negb]; [| discriminate].
  destruct (readyState w =? 1) eqn:Hrs; [| discriminate].
  unfold Task.findByIdAndDelete, Task.findById.
  destruct (Task.cast_id (params_id req)) as [oid|e] eqn:Hcast.
  - destruct (List.find (Task.is_doc oid) (Task.docs (db w))) as [d|] eqn:Hfind.
    + intros _. cbn [snd with_db readyState db].
      rewrite Hrs. cbn [result_bind Task.docs]. rewrite find_after_filter. reflexivity.
    + simpl. discriminate.
  - simpl. intros Hs.
    destruct (handleDBError_status e) as [He | [He | He]]; rewrite He in Hs; discriminate.
Qed.

End DeletingThroughControllers.

(** C9, on the code.  An update of the in-memory store spreads the patch
    over the stored task, its [id] and [_id] included.  Without a
    connection, through the simplified controller: the update of task "2"
    with the patch [{ id: "1" }] is answered 200 and leaves two tasks
    answering to the id "1"; the delete of "1" is then answered 200, "Task
    deleted successfully", and removes one of the two; and get-by-id of "1",
    right after that successful delete, is answered 200 with the task
    "first task", where the claim has not-found. *)
Theorem deleted_id_is_still_found :
  let patched :=
    @SimpleController.updateTask utc_host plain_engine
      (a_request ∅ (VStr "2") {[ "id" := VStr "1" ]}) 4000 offline in
  let deleted :=
    @SimpleController.deleteTask utc_host plain_engine (by_id "1") (snd patched) in
  let got :=
    @SimpleController.getTaskById utc_host plain_engine (by_id "1") (snd deleted) in
  number_of (MemoryStore.has_id (VStr "1")) (MemoryStore.tasks (mem offline)) = 1
  /\ status (fst patched) = 200
  /\ number_of (MemoryStore.has_id (VStr "1")) (MemoryStore.tasks (mem (snd patched))) = 2
  /\ status (fst deleted) = 200
  /\ said "message" (fst deleted) = VStr "Task deleted successfully"
  /\ number_of (MemoryStore.has_id (VStr "1")) (MemoryStore.tasks (mem (snd deleted))) = 1
  /\ status got = 200
  /\ prop "text" (said "data" got) = VStr "first task".
Proof. vm_compute. repeat split; reflexivity. Qed.

(** The same slip in the store itself: an update whose patch names [id] can
    make two stored tasks answer to one id; the delete of that id then
    removes one of them and the other is still found. *)
Lemma patched_id_answers_twice :
  let aliased :=
    snd (MemoryStore.findByIdAndUpdate 4000 (VStr "2") {[ "id" := VStr "1" ]}
           (Some {[ "new" := VBool true ]}) three_tasks) in
  let deleted := MemoryStore.findByIdAndDelete (VStr "1") aliased in
  number_of (MemoryStore.has_id (VStr "1")) (MemoryStore.tasks aliased) = 2
  /\ option_map (get "text") (fst deleted) = Some (VStr "second task")
  /\ option_map (get "text") (MemoryStore.findById (VStr "1") (snd deleted))
     = Some (VStr "first task").
Proof. vm_compute. repeat split; reflexivity. Qed.

(** Where the slip has not struck the delete behaves as expected.  In the
    in-memory store, when at most one stored task answers to an id (as in
    every store built by creations and deletions), a successful delete of
    that id leaves no task answering to it; a delete of an id no task
    answers to returns null and leaves the store as it was, and the
    simplified controller answers it 404.  In the full controller, on a
    connected process, the delete of a well-formed id that no document has
    is answered 404 and changes nothing, and after a delete answered 204 the
    same id is answered 404 by get-by-id; a malformed id is answered 400
    before any lookup. *)
Theorem delete_then_not_found `{Host} `{Engine} (req : request) (w : world) :
  let id := params_id req in
  (forall t st',
     at_most_one id (mem w) ->
     MemoryStore.findByIdAndDelete id (mem w) = (Some t, st') ->
     MemoryStore.findById id st' = None)
  /\ (Forall (fun task => MemoryStore.has_id id task = false) (MemoryStore.tasks (mem w)) ->
      MemoryStore.findByIdAndDelete id (mem w) = (None, mem w)
      /\ (readyState w <> 1 ->
          status (fst (SimpleController.deleteTask req w)) = 404
          /\ snd (SimpleController.deleteTask req w) = w))
  /\ (readyState w = 1 -> TaskController.isValid id = true ->
      Task.findById id (db w) = Ok None ->
      status (fst (TaskController.deleteTask req w)) = 404
      /\ snd (TaskController.deleteTask req w) = w)
  /\ (status (fst (TaskController.deleteTask req w)) = 204 ->
      status (TaskController.getTaskById req (snd (TaskController.deleteTask req w))) = 404)
  /\ (TaskController.isValid id = false ->
      status (fst (TaskController.deleteTask req w)) = 400
      /\ snd (TaskController.deleteTask req w) = w).
Proof.
  cbv zeta. refine (conj _ (conj _ (conj _ (conj _ _)))).
  - intros t st' Hone Hdel. eapply delete_then_findById; eassumption.
  - intros Hnone. split; [apply findByIdAndDelete_none, Hnone |].
    intros Hrs. apply simple_delete_missing; assumption.
  - apply full_delete_missing.
  - apply full_delete_then_get.
  - intros Hid. unfold TaskController.deleteTask. rewrite Hid. split; reflexivity.
Qed.

Lemma delete_then_not_found_witness :
  (forall t st',
     MemoryStore.findByIdAndDelete (VStr "2") three_tasks = (Some t, st') ->
     MemoryStore.findById (VStr "2") st' = None)
  /\ status (fst (@SimpleController.deleteTask utc_host plain_engine (by_id "7") offline)) = 404
  /\ status (fst (@TaskController.deleteTask utc_host plain_engine
                    (by_id "00000000000000000000000a") stocked)) = 404.
Proof.
  split; [| split].
  - intros t st' Hdel.
    destruct (@delete_then_not_found utc_host plain_engine (by_id "2") offline)
      as (Hfound & _).
    apply (Hfound t st'); [| exact Hdel].
    unfold at_most_one. vm_compute. discriminate.
  - destruct (@delete_then_not_found utc_host plain_engine (by_id "7") offline)
      as (_ & Hmissing & _).
    destruct Hmissing as [_ Hsimple]; [repeat constructor |].
    apply Hsimple. discriminate.
  - destruct (@delete_then_not_found utc_host plain_engine
                (by_id "00000000000000000000000a") stocked) as (_ & _ & Hfull & _).
    apply Hfull; reflexivity.
Defined.

(** * Further properties of the in-memory store *)

Section MemoryStoreMore.
Import MemoryStore.

Lemma well_numbered_fresh (st : store) :
  well_numbered st ->
  Forall (fun task => has_id (String_ (nextId st)) task = false) (tasks st).
Proof.
  intros (ns & _ & Hlt & Hnum). induction Hnum as [|n t ns l [Hid1 Hid2] Hrest IH].
  - constructor.
  - apply Forall_cons in Hlt as [Hn Hlt]. constructor; [| apply IH, Hlt].
    destruct (has_id (String_ (nextId st)) t) eqn:Ht; [| reflexivity].
    apply (has_id_numbered _ n t Hid1 Hid2) in Ht.
    unfold String_ in Ht. injection Ht as Ht. apply (inj pretty) in Ht. lia.
Qed.

Lemma update_well_numbered (now : Z) (id : value) (updateData : obj)
    (options : option obj) (st : store) :
  updateData !! "_id" = None -> updateData !! "id" = None ->
  well_numbered st ->
  well_numbered (snd (findByIdAndUpdate now id updateData options st)).
Proof.
  intros H_id Hid (ns & Hnd & Hlt & Hnum). unfold findByIdAndUpdate.
  destruct (findIndex (has_id id) (tasks st)) as [i|] eqn:Hi.
  2:{ destruct (truthy _); exists ns; auto. }
  destruct (findIndex_Some _ _ _ Hi) as (old & Hold & _).
  rewrite Hold. exists ns. simpl. repeat split; try assumption.
  destruct (Forall2_lookup_r _ _ _ _ _ Hnum Hold) as (n & Hn & Ho1 & Ho2).
  rewrite <- (list_insert_id ns i n Hn).
  apply Forall2_insert; [exact Hnum |].
  rewrite !updated_task_get, H_id, Hid. simpl. split; assumption.
Qed.

Lemma sample_well_numbered (now : Z) (st : store) :
  well_numbered st -> well_numbered (initializeSampleData now st).
Proof.
  intros Hwn. unfold initializeSampleData.
  destruct (length (tasks st) =? 0)%nat; [| exact Hwn].
  revert st Hwn. induction sampleTasks as [|d l IH]; intros st Hwn; [exact Hwn |].
  simpl. apply IH, create_well_numbered, Hwn.
Qed.

Lemma reachable_well_numbered (st : store) : reachable st -> well_numbered st.
Proof.
  induction 1.
  - apply empty_well_numbered.
  - apply create_well_numbered; assumption.
  - apply delete_well_numbered; assumption.
  - apply update_well_numbered; assumption.
  - apply empty_well_numbered.
  - apply sample_well_numbered; assumption.
Qed.

(** X1.  A created task is found again under the id it was given, whatever
    the store held; its two identifiers are the decimal string of the
    store's counter; and no older task answers to that id in a store built
    from the empty one by creations, deletions, clearing, the loading of the
    sample data and updates whose patch names neither [_id] nor [id]. *)
Theorem create_then_findById (now : Z) (taskData : obj) (st : store) :
  let created := fst (create now taskData st) in
  let st' := snd (create now taskData st) in
  get "_id" created = String_ (nextId st)
  /\ get "id" created = get "_id" created
  /\ findById (get "_id" created) st' = Some created
  /\ tasks st' = created :: tasks st
  /\ (reachable st ->
      Forall (fun task => has_id (get "_id" created) task = false) (tasks st)).
Proof.
  cbv zeta.
  assert (H_id : get "_id" (fst (create now taskData st)) = String_ (nextId st))
    by reflexivity.
  assert (Hid : get "id" (fst (create now taskData st)) = String_ (nextId st)).
  { transitivity (String_ (nextId st + 1 - 1)); [reflexivity | f_equal; lia]. }
  rewrite H_id, Hid. repeat split.
  - change (findById (String_ (nextId st)) (snd (create now taskData st)))
      with (List.find (has_id (String_ (nextId st)))
              (fst (create now taskData st) :: tasks st)).
    cbn [List.find].
    assert (Hhas : has_id (String_ (nextId st)) (fst (create now taskData st)) = true).
    { unfold has_id. rewrite H_id. unfold String_. cbn [strict_eq].
      rewrite String.eqb_refl. reflexivity. }
    rewrite Hhas. reflexivity.
  - intros Hreach. apply well_numbered_fresh, reachable_well_numbered, Hreach.
Qed.

(** X2.  In every reachable store at most one task answers to any id, a
    task's [_id] and [id] agree, and a successful delete of an id leaves no
    task answering to it. *)
Theorem reachable_ids_are_unique (st : store) (id : value) :
  reachable st ->
  at_most_one id st
  /\ Forall (fun task => get "_id" task = get "id" task) (tasks st)
  /\ (forall t st', findByIdAndDelete id st = (Some t, st') -> findById id st' = None).
Proof.
  intros Hreach. pose proof (reachable_well_numbered st Hreach) as Hwn.
  pose proof (well_numbered_at_most_one id st Hwn) as Hone.
  repeat split.
  - exact Hone.
  - destruct Hwn as (ns & _ & _ & Hnum).
    induction Hnum as [|n t ns l [Hid1 Hid2] Hrest IH]; constructor; [congruence | exact IH].
  - intros t st' Hdel. eapply delete_then_findById; eassumption.
Qed.

Lemma reachable_ids_are_unique_witness :
  at_most_one (VStr "2") three_tasks
  /\ findById (VStr "2") (snd (findByIdAndDelete (VStr "2") three_tasks)) = None.
Proof.
  assert (Hreach : reachable three_tasks).
  { unfold three_tasks. repeat apply reach_create. apply reach_empty. }
  destruct (reachable_ids_are_unique three_tasks (VStr "2") Hreach) as (Hone & _ & Hdel).
  split; [exact Hone |].
  assert (Hsome : bool_decide (is_Some (fst (findByIdAndDelete (VStr "2") three_tasks)))
                  = true)
    by (vm_compute; reflexivity).
  destruct (findByIdAndDelete (VStr "2") three_tasks) as [[t|] st'] eqn:Hdeleted;
    [| discriminate].
  apply (Hdel t st'). reflexivity.
Defined.

Lemma create_then_findById_witness :
  findById (VStr "4") (snd (create 4000 (just_text "fourth task") three_tasks))
  = Some (fst (create 4000 (just_text "fourth task") three_tasks))
  /\ Forall (fun task => has_id (VStr "4") task = false) (tasks three_tasks).
Proof.
  destruct (create_then_findById 4000 (just_text "fourth task") three_tasks)
    as (_ & _ & Hfound & _ & Hfresh).
  split; [exact Hfound |].
  apply Hfresh. unfold three_tasks. repeat apply reach_create. apply reach_empty.
Defined.

(** ** [find] *)

Lemma sort_insert_perm {A} (cmp : A -> A -> option Z) (x : A) (l : list A) :
  Permutation (sort_insert cmp x l) (x :: l).
Proof.
  induction l as [|y r IH]; simpl; [reflexivity |].
  destruct (cmp_le cmp x y); [reflexivity |].
  rewrite IH. apply perm_swap.
Qed.

Lemma sort_perm {A} (cmp : A -> A -> option Z) (l : list A) :
  Permutation (sort cmp l) l.
Proof.
  induction l as [|x r IH]; simpl; [reflexivity |].
  rewrite sort_insert_perm, IH. reflexivity.
Qed.

Lemma filter_filter_and {A} (p q : A -> bool) (l : list A) :
  List.filter p (List.filter q l) = List.filter (fun x => q x && p x) l.
Proof.
  induction l as [|x r IH]; simpl; [reflexivity |].
  destruct (q x); simpl; [destruct (p x) |]; rewrite IH; reflexivity.
Qed.

Lemma filter_all {A} (l : list A) : List.filter (fun _ => true) l = l.
Proof. induction l as [|x r IH]; simpl; [| rewrite IH]; reflexivity. Qed.

Lemma filter_same {A} (p q : A -> bool) (l : list A) :
  (forall x, p x = q x) -> List.filter p l = List.filter q l.
Proof. intros Hpq. induction l as [|x r IH]; simpl; [| rewrite Hpq, IH]; reflexivity. Qed.

Lemma filterM_Ok {A} (p : A -> result bool) (l l' : list A) :
  filterM p l = Ok l' ->
  Forall (fun x => p x = Ok true) l' /\ l' `sublist_of` l
  /\ Forall (fun x => exists b, p x = Ok b) l.
Proof.
  revert l'. induction l as [|x r IH]; simpl; intros l'.
  - intros [= <-]. repeat split; constructor.
  - destruct (p x) as [b|e] eqn:Hx; simpl; [| discriminate].
    destruct (filterM p r) as [r'|e]; simpl; [| discriminate].
    destruct (IH r' eq_refl) as (Hall & Hsub & Hdef).
    intros [= <-]. split; [| split].
    + destruct b; [constructor; assumption | assumption].
    + destruct b; [apply sublist_skip | apply sublist_cons]; assumption.
    + constructor; [exists b; assumption | assumption].
Qed.

(** Without text search, [find] sorts the tasks that pass the filter. *)
Lemma find_sorts_passing `{Host} (filter : obj) (st : store) :
  no_text_search filter ->
  find filter st = Ok (sort newest_first (List.filter (passes filter) (tasks st))).
Proof.
  unfold no_text_search, find. intros ->. cbn [result_bind]. f_equal. f_equal.
  unfold passes.
  destruct (strict_eq (get "completed" filter) VUndefined);
    destruct (truthy (get "priority" filter));
    destruct (truthy (get "category" filter)); cbn [negb orb];
    rewrite ?filter_filter_and; try (symmetry; apply filter_all);
    apply filter_same; intros x;
    rewrite ?andb_true_r, ?andb_true_l; try reflexivity;
    rewrite ?andb_assoc; reflexivity.
Qed.



Lemma created_at_Date_of `{Host} (task : obj) (ms : Z) :
  created_at task = Some ms -> Date_of (get "createdAt" task) = Some ms.
Proof. unfold created_at. destruct (get "createdAt" task); try discriminate. intros [= ->]. reflexivity. Qed.

Lemma cmp_le_newest `{Host} (x y : obj) (a b : Z) :
  created_at x = Some a -> created_at y = Some b ->
  cmp_le newest_first x y = (b <=? a).
Proof.
  intros Hx Hy. unfold cmp_le, newest_first.
  rewrite (created_at_Date_of x a Hx), (created_at_Date_of y b Hy). cbn [num_sub].
  destruct (Z.leb_spec (b - a) 0), (Z.leb_spec b a); lia || reflexivity.
Qed.

Lemma not_older_trans (a b c : obj) : not_older a b -> not_older b c -> not_older a c.
Proof.
  unfold not_older.
  destruct (created_at a), (created_at b), (created_at c); try tauto. lia.
Qed.

Lemma sort_insert_sorted `{Host} (x : obj) (l : list obj) :
  is_Some (created_at x) ->
  Forall (fun t => is_Some (created_at t)) l ->
  StronglySorted not_older l ->
  StronglySorted not_older (sort_insert newest_first x l).
Proof.
  intros [a Ha] Hdated Hsorted. induction Hsorted as [|y r Hr IH Hy]; simpl.
  - repeat constructor.
  - apply Forall_cons in Hdated as [[b Hb] Hdated].
    rewrite (cmp_le_newest x y a b Ha Hb).
    destruct (Z.leb_spec b a) as [Hle | Hlt].
    + assert (Hxy : not_older x y) by (unfold not_older; rewrite Ha, Hb; exact Hle).
      constructor; [constructor; assumption |]. constructor; [exact Hxy |].
      eapply Forall_impl; [exact Hy |]. simpl. intros z Hz. eapply not_older_trans; eassumption.
    + constructor; [apply IH, Hdated |].
      rewrite sort_insert_perm.
      constructor; [| exact Hy]. unfold not_older. rewrite Ha, Hb. lia.
Qed.

Lemma sort_sorted `{Host} (l : list obj) :
  Forall (fun t => is_Some (created_at t)) l ->
  StronglySorted not_older (sort newest_first l).
Proof.
  induction 1 as [|x r Hx Hr IH]; simpl; [constructor |].
  apply sort_insert_sorted; [exact Hx | | exact IH].
  rewrite sort_perm. exact Hr.
Qed.

(** With or without text search, [find] sorts a selection of the stored
    tasks. *)
Lemma find_sorts_selection `{Host} (filter : obj) (st : store) (found : list obj) :
  find filter st = Ok found ->
  exists selection,
    found = sort newest_first selection
    /\ forall t, In t selection -> In t (tasks st).
Proof.
  unfold find.
  set (l1 := if negb _ then _ else tasks st).
  set (l2 := if truthy (get "priority" filter) then _ else l1).
  set (l3 := if truthy (get "category" filter) then _ else l2).
  assert (H1 : forall t, In t l1 -> In t (tasks st)).
  { unfold l1. destruct (negb (strict_eq (get "completed" filter) VUndefined)); [| auto].
    intros t Ht. apply filter_In in Ht. apply Ht. }
  assert (H2 : forall t, In t l2 -> In t (tasks st)).
  { unfold l2. destruct (truthy (get "priority" filter)); [| auto].
    intros t Ht. apply filter_In in Ht. apply H1, Ht. }
  assert (H3 : forall t, In t l3 -> In t (tasks st)).
  { unfold l3. destruct (truthy (get "category" filter)); [| auto].
    intros t Ht. apply filter_In in Ht. apply H2, Ht. }
  clearbody l3. clear l1 l2 H1 H2.
  destruct (truthy (get "$text" filter) && _).
  - destruct (call_toLowerCase _) as [term|e]; simpl; [| discriminate].
    destruct (filterM _ l3) as [l4|e] eqn:Hf; simpl; [| discriminate].
    intros [= <-]. exists l4. split; [reflexivity |].
    intros t Ht. apply H3. apply filterM_Ok in Hf as (_ & Hsub & _).
    apply list_elem_of_In. eapply elem_of_sublist; [| exact Hsub].
    apply list_elem_of_In, Ht.
  - simpl. intros [= <-]. exists l3. split; [reflexivity | exact H3].
Qed.

(** X4.  When the creation time of every stored task is a date, what [find]
    returns, with or without text search, is ordered newest first: no task
    comes before one created later. *)
Theorem find_is_newest_first `{Host} (filter : obj) (st : store) (found : list obj) :
  Forall (fun task => is_Some (created_at task)) (tasks st) ->
  find filter st = Ok found ->
  StronglySorted not_older found.
Proof.
  intros Hdated Hfind.
  destruct (find_sorts_selection filter st found Hfind) as (selection & -> & Hstored).
  apply sort_sorted. apply Forall_forall. intros t Hin.
  rewrite Forall_forall in Hdated. apply Hdated, list_elem_of_In, Hstored, list_elem_of_In, Hin.
Qed.

Lemma all_dated (l : list obj) :
  forallb (fun t => bool_decide (is_Some (created_at t))) l = true ->
  Forall (fun t => is_Some (created_at t)) l.
Proof.
  intros Hall. apply Forall_forall. intros t Hin.
  rewrite forallb_forall in Hall.
  apply list_elem_of_In, Hall, bool_decide_eq_true in Hin. exact Hin.
Qed.

Lemma find_is_newest_first_witness :
  StronglySorted not_older
    (sort (@newest_first utc_host) (List.filter (passes ∅) (tasks three_tasks))).
Proof.
  apply (@find_is_newest_first utc_host ∅ three_tasks).
  - apply all_dated. vm_compute. reflexivity.
  - apply find_sorts_passing. reflexivity.
Defined.

(** ** [findByIdAndUpdate], [findByIdAndDelete], [findOne] *)

(** X5.  An update that finds its task replaces that one task and nothing
    else: the other tasks, their order, their number and the id counter stay;
    in the new task every property the patch names has the patch's value,
    every other property its old value, except [updatedAt] and
    [lastModified], which hold the clock reading whatever the patch says. *)
Theorem update_changes_one_task (now : Z) (id : value) (updateData : obj)
    (options : option obj) (st : store) (i : nat) :
  findIndex (has_id id) (tasks st) = Some i ->
  let result := findByIdAndUpdate now id updateData options st in
  exists old new,
    tasks st !! i = Some old /\ has_id id old = true
    /\ fst result = Ok (Some new)
    /\ tasks (snd result) !! i = Some new
    /\ (forall j, j <> i -> tasks (snd result) !! j = tasks st !! j)
    /\ length (tasks (snd result)) = length (tasks st)
    /\ nextId (snd result) = nextId st
    /\ get "updatedAt" new = VDate now /\ get "lastModified" new = VDate now
    /\ (forall k, k <> "updatedAt" -> k <> "lastModified" ->
          get k new = match updateData !! k with Some v => v | None => get k old end).
Proof.
  intros Hi. cbv zeta.
  destruct (findIndex_Some _ _ _ Hi) as (old & Hold & Hhas & _).
  destruct (findByIdAndUpdate_found now id updateData options st i Hi) as (old' & Hold' & Heq).
  rewrite Hold in Hold'. injection Hold' as <-. cbv zeta in Heq. rewrite Heq.
  eexists old, _. cbn [fst snd tasks nextId].
  repeat split; try assumption.
  - apply list_lookup_insert_eq. apply lookup_lt_Some in Hold. exact Hold.
  - intros j Hj. apply list_lookup_insert_ne. congruence.
  - apply length_insert.
  - rewrite updated_task_get. reflexivity.
  - rewrite updated_task_get. reflexivity.
  - intros k Hk1 Hk2. rewrite updated_task_get.
    destruct (decide (k = "lastModified")); [congruence |].
    destruct (decide (k = "updatedAt")); [congruence | reflexivity].
Qed.

Lemma update_changes_one_task_witness :
  let result := findByIdAndUpdate 4000 (VStr "2") (just_text "second task, renamed")
                  None three_tasks in
  length (tasks (snd result)) = 3%nat
  /\ tasks (snd result) !! 0%nat = tasks three_tasks !! 0%nat.
Proof.
  destruct (update_changes_one_task 4000 (VStr "2") (just_text "second task, renamed")
              None three_tasks 1) as (old & new & _ & _ & _ & _ & Hothers & Hlen & _);
    [reflexivity |].
  cbv zeta. split; [rewrite Hlen; reflexivity | apply Hothers; discriminate].
Defined.

(** X6.  A delete that finds its task removes that one task and nothing
    else: it is the first stored task answering to the id, the other tasks
    keep their order, the count drops by one and the id counter stays, so
    the ids of deleted tasks are not handed out again. *)
Theorem delete_removes_one_task (id : value) (st st' : store) (t : obj) :
  findByIdAndDelete id st = (Some t, st') ->
  has_id id t = true
  /\ Permutation (tasks st) (t :: tasks st')
  /\ tasks st' `sublist_of` tasks st
  /\ getTaskCount st' = getTaskCount st - 1
  /\ nextId st' = nextId st
  /\ (exists i, tasks st !! i = Some t
                /\ Forall (fun x => has_id id x = false) (take i (tasks st))).
Proof.
  intros Hdel.
  destruct (findByIdAndDelete_found id st st' t Hdel) as (i & Hi & Ht & Hbefore & Htasks & Hnext).
  repeat split; try assumption.
  - rewrite Htasks, <- (take_drop_middle (tasks st) i t Hi) at 1.
    symmetry. apply Permutation_middle.
  - rewrite Htasks, <- delete_take_drop. apply sublist_delete.
  - pose proof (f_equal length (take_drop_middle (tasks st) i t Hi)) as Hlen.
    rewrite length_app in Hlen. cbn [length] in Hlen.
    unfold getTaskCount. rewrite Htasks, length_app. lia.
  - exists i. split; assumption.
Qed.

Lemma delete_removes_one_task_witness :
  getTaskCount (snd (findByIdAndDelete (VStr "2") three_tasks)) = 2.
Proof.
  assert (Hsome : bool_decide (is_Some (fst (findByIdAndDelete (VStr "2") three_tasks)))
                  = true)
    by (vm_compute; reflexivity).
  destruct (findByIdAndDelete (VStr "2") three_tasks) as [[t|] st'] eqn:Hdel;
    [| discriminate].
  destruct (delete_removes_one_task (VStr "2") three_tasks st' t Hdel)
    as (_ & _ & _ & Hcount & _).
  cbn [snd]. rewrite Hcount. reflexivity.
Defined.

Lemma has_entries_spec (filter task : obj) :
  has_entries filter task = true
  <-> forall k v, filter !! k = Some v -> strict_eq (get_computed k task) v = true.
Proof.
  unfold has_entries. rewrite forallb_forall. split.
  - intros Hall k v Hkv. apply (Hall (k, v)).
    apply list_elem_of_In, elem_of_map_to_list, Hkv.
  - intros Hall [k v] Hin. apply list_elem_of_In, elem_of_map_to_list in Hin.
    apply (Hall k v Hin).
Qed.

Lemma forallb_exists_false {A} (p : A -> bool) (l : list A) :
  forallb p l = false -> exists x, In x l /\ p x = false.
Proof.
  induction l as [|x r IH]; simpl; [discriminate |].
  destruct (p x) eqn:Hx; simpl.
  - intros Hr. destruct (IH Hr) as (y & Hin & Hy). exists y. auto.
  - intros _. exists x. auto.
Qed.

(** X7.  [findOne] returns the first stored task every entry of the filter
    is strictly equal on: a stored task that meets the filter, every task
    stored before it differing from the filter on some entry; it returns
    nothing exactly when every stored task differs from the filter on some
    entry; with an empty filter it returns the first task of the store's
    list, where [create] puts each new task. *)
Theorem findOne_first_match (filter : obj) (st : store) :
  (forall t, findOne filter st = Some t ->
     In t (tasks st)
     /\ (forall k v, filter !! k = Some v -> strict_eq (get_computed k t) v = true)
     /\ exists i,
          tasks st !! i = Some t
          /\ Forall (fun earlier =>
                       exists k v, filter !! k = Some v
                                   /\ strict_eq (get_computed k earlier) v = false)
               (take i (tasks st)))
  /\ (findOne filter st = None <->
      forall t, In t (tasks st) ->
        exists k v, filter !! k = Some v /\ strict_eq (get_computed k t) v = false)
  /\ findOne ∅ st = head (tasks st)
  /\ (forall now taskData,
        findOne ∅ (snd (create now taskData st)) = Some (fst (create now taskData st))).
Proof.
  assert (Hdiffers : forall t, has_entries filter t = false ->
            exists k v, filter !! k = Some v /\ strict_eq (get_computed k t) v = false).
  { intros t Hfalse. unfold has_entries in Hfalse.
    destruct (forallb_exists_false _ _ Hfalse) as ([k v] & Hkv & Hne).
    exists k, v. split; [apply elem_of_map_to_list, list_elem_of_In, Hkv | exact Hne]. }
  unfold findOne. split; [| split; [| split]].
  - intros t Hfound. split; [| split].
    + apply List.find_some in Hfound as [Hin _]. exact Hin.
    + apply List.find_some in Hfound as [_ Hall]. apply has_entries_spec, Hall.
    + destruct (find_findIndex _ _ _ Hfound) as (i & Hi & Ht).
      destruct (findIndex_Some _ _ _ Hi) as (x & _ & _ & _ & Hbefore).
      exists i. split; [exact Ht |].
      eapply Forall_impl; [exact Hbefore |]. exact Hdiffers.
  - split.
    + intros Hnone t Hin. apply Hdiffers. apply (List.find_none _ _ Hnone t Hin).
    + intros Hall. apply find_none_Forall. apply Forall_forall. intros t Hin.
      destruct (Hall t (proj1 (list_elem_of_In _ _) Hin)) as (k & v & Hkv & Hne).
      destruct (has_entries filter t) eqn:Hhas; [| reflexivity].
      rewrite (proj1 (has_entries_spec filter t) Hhas k v Hkv) in Hne. discriminate.
  - destruct (tasks st) as [|t l]; [reflexivity |]. simpl.
    unfold has_entries. rewrite map_to_list_empty. reflexivity.
  - intros now taskData.
    change (tasks (snd (create now taskData st)))
      with (fst (create now taskData st) :: tasks st).
    cbn [List.find]. unfold has_entries at 1. rewrite map_to_list_empty. reflexivity.
Qed.

Lemma findOne_first_match_witness :
  option_map (get "_id") (findOne {[ "text" := VStr "second task" ]} three_tasks)
  = Some (VStr "2")
  /\ findOne {[ "text" := VStr "no such task" ]} three_tasks = None.
Proof.
  destruct (findOne_first_match {[ "text" := VStr "no such task" ]} three_tasks)
    as (_ & Hnone & _).
  split; [vm_compute; reflexivity |].
  apply Hnone. intros t Hin. exists "text", (VStr "no such task").
  split; [reflexivity |].
  destruct Hin as [<- | [<- | [<- | []]]]; vm_compute; reflexivity.
Defined.

(** ** [initializeSampleData] and [aggregate] *)

Lemma creates_length (now : Z) (l : list obj) (st : store) :
  length (tasks (fold_left (fun st taskData => snd (create now taskData st)) l st))
  = (length l + length (tasks st))%nat
  /\ nextId (fold_left (fun st taskData => snd (create now taskData st)) l st)
     = nextId st + Z.of_nat (length l).
Proof.
  revert st. induction l as [|d l IH]; intros st; cbn [fold_left length]; [split; lia |].
  destruct (IH (snd (create now d st))) as [Hlen Hnext].
  rewrite Hlen, Hnext. cbn [create snd tasks nextId length]. split; lia.
Qed.

(** X8.  [initializeSampleData] loads its five tasks only into a store that
    holds none: a store with a task is left as it is, an empty one gets five
    tasks and five ids, and a second call changes nothing, so the samples are
    never loaded twice. *)
Theorem sample_data_is_loaded_once (now now' : Z) (st : store) :
  (tasks st <> [] -> initializeSampleData now st = st)
  /\ (tasks st = [] ->
      getTaskCount (initializeSampleData now st) = 5
      /\ nextId (initializeSampleData now st) = nextId st + 5)
  /\ initializeSampleData now' (initializeSampleData now st) = initializeSampleData now st.
Proof.
  assert (Hfull : forall s, tasks s <> [] -> forall n, initializeSampleData n s = s).
  { intros s Hs n. unfold initializeSampleData. destruct (tasks s); [congruence | reflexivity]. }
  assert (Hempty : tasks st = [] ->
                   length (tasks (initializeSampleData now st)) = 5%nat
                   /\ nextId (initializeSampleData now st) = nextId st + 5).
  { intros Hs. unfold initializeSampleData. rewrite Hs. cbn [length Nat.eqb].
    destruct (creates_length now sampleTasks st) as [Hlen Hnext].
    rewrite Hlen, Hnext, Hs. split; reflexivity. }
  repeat split.
  - intros Hs. apply Hfull, Hs.
  - unfold getTaskCount. rewrite (proj1 (Hempty H)). reflexivity.
  - apply Hempty, H.
  - destruct (tasks st) as [|t l] eqn:Hs.
    + apply Hfull. destruct (Hempty eq_refl) as [Hlen _].
      intros Hnil. rewrite Hnil in Hlen. discriminate.
    + rewrite (Hfull st) by congruence. apply Hfull. congruence.
Qed.

Lemma sample_data_is_loaded_once_witness :
  initializeSampleData 5000 three_tasks = three_tasks
  /\ getTaskCount (initializeSampleData 5000 empty) = 5.
Proof.
  destruct (sample_data_is_loaded_once 5000 5000 three_tasks) as (Hfull & _).
  destruct (sample_data_is_loaded_once 5000 5000 empty) as (_ & Hempty & _).
  split; [apply Hfull; discriminate | apply Hempty; reflexivity].
Defined.






End MemoryStoreMore.

(** * Further properties of the document model *)

(** ** Setters *)

Lemma lower_ascii_ws (c : ascii) : is_ws (lower_ascii c) = is_ws c.
Proof. destruct c as [[] [] [] [] [] [] [] []]; reflexivity. Qed.

Lemma lower_ascii_again (c : ascii) : lower_ascii (lower_ascii c) = lower_ascii c.
Proof. destruct c as [[] [] [] [] [] [] [] []]; reflexivity. Qed.

Lemma toLowerCase_again (s : string) : toLowerCase (toLowerCase s) = toLowerCase s.
Proof.
  induction s as [|c r IH]; [reflexivity |]. simpl. rewrite lower_ascii_again, IH. reflexivity.
Qed.

Lemma trimStart_toLowerCase (s : string) :
  trimStart (toLowerCase s) = toLowerCase (trimStart s).
Proof.
  induction s as [|c r IH]; [reflexivity |]. simpl. rewrite lower_ascii_ws.
  destruct (is_ws c); [exact IH | reflexivity].
Qed.

Lemma trimEnd_toLowerCase (s : string) :
  trimEnd (toLowerCase s) = toLowerCase (trimEnd s).
Proof.
  induction s as [|c r IH]; [reflexivity |]. simpl. rewrite IH, lower_ascii_ws.
  destruct (trimEnd r); simpl; [destruct (is_ws c); reflexivity | reflexivity].
Qed.

Lemma trim_toLowerCase (s : string) : trim (toLowerCase s) = toLowerCase (trim s).
Proof. unfold trim. rewrite trimStart_toLowerCase, trimEnd_toLowerCase. reflexivity. Qed.

Lemma trim_again (s : string) : trim (trim s) = trim s.
Proof. destruct (trim_trimmed s). apply trim_id; assumption. Qed.

Lemma hex_digit_is_hex (n : Z) : 0 <= n < 16 -> is_hex (hex_digit n) = true.
Proof.
  intros Hn. rewrite <- (Z2Nat.id n) by lia.
  assert (Hlt : (Z.to_nat n < 16)%nat) by lia.
  revert Hlt. generalize (Z.to_nat n). clear Hn. intros m Hlt.
  do 16 (destruct m as [|m]; [reflexivity |]). lia.
Qed.

Lemma hex_padded_spec (width : nat) (n : Z) (acc : string) :
  String.length (hex_padded width n acc) = (width + String.length acc)%nat
  /\ (all_chars is_hex acc = true -> all_chars is_hex (hex_padded width n acc) = true).
Proof.
  revert n acc. induction width as [|w IH]; intros n acc; simpl; [auto |].
  destruct (IH (n / 16) (String (hex_digit (n mod 16)) acc)) as [Hlen Hhex].
  split; [rewrite Hlen; simpl; lia |].
  intros Hacc. apply Hhex. simpl.
  rewrite hex_digit_is_hex, Hacc; [reflexivity |].
  apply Z.mod_pos_bound. reflexivity.
Qed.

(** The ids the model hands out are ObjectIds. *)
Lemma ObjectId_of_isValid `{Engine} (n : Z) : ObjectId_isValid (ObjectId_of n) = true.
Proof.
  unfold ObjectId_isValid, ObjectId_of.
  destruct (hex_padded_spec 24 n EmptyString) as [Hlen Hhex].
  rewrite Hlen, Hhex by reflexivity. reflexivity.
Qed.

Section SavingMore.
Context `{Host} `{Engine}.

(** What the setters of a tag leave: nothing to trim, no upper case. *)
Lemma cast_tag_set (v : value) (s : string) :
  Task.cast_tag v = Some (Some s) -> trim s = s /\ toLowerCase s = s.
Proof.
  unfold Task.cast_tag, Task.set_lowercase, Task.set_trim.
  destruct (Task.cast_String v) as [| |a|]; simpl; try discriminate.
  intros [= <-]. split.
  - rewrite trim_toLowerCase, trim_again. reflexivity.
  - apply toLowerCase_again.
Qed.

Lemma cast_tags_set (items : list value) (l : list (option string)) :
  Task.cast_tags items = Some l -> Forall set_tag l.
Proof.
  revert l. induction items as [|v r IH]; simpl; intros l.
  - intros [= <-]. constructor.
  - destruct (Task.cast_tag v) as [t|] eqn:Ht; [| discriminate].
    destruct (Task.cast_tags r) as [ts|]; [| discriminate].
    intros [= <-]. constructor; [| apply IH; reflexivity].
    intros s ->. apply (cast_tag_set v), Ht.
Qed.

Lemma cast_Array_set (v : value) (l : list (option string)) :
  Task.cast_Array v = Task.Val l -> Forall set_tag l.
Proof.
  assert (Hone : forall w, match Task.cast_tag w with
                           | Some t => Task.Val [t]
                           | None => Task.Bad
                           end = Task.Val l -> Forall set_tag l).
  { intros w. destruct (Task.cast_tag w) as [t|] eqn:Ht; [| discriminate].
    intros [= <-]. constructor; [| constructor].
    intros s ->. apply (cast_tag_set w), Ht. }
  destruct v as [| |b|n|q|s'|ms|src fl|items|props]; unfold Task.cast_Array;
    try discriminate; try apply Hone.
  destruct (Task.cast_tags items) as [ts|] eqn:Hts; [| discriminate].
  intros [= <-]. apply (cast_tags_set items), Hts.
Qed.

(** The other paths of a new document. *)
Lemma construct_more_fields (now : Z) (oid : string) (data : obj) :
  let d := fst (Task.construct now oid data) in
  let metadata := get "metadata" data in
  Task.category d
  = fst (Task.place "category" "string" (get "category" data)
           (Task.set_trim (Task.cast_String (get "category" data))) (Some "general"))
  /\ Task.tags d
     = default [] (fst (Task.place "tags" "Array" (get "tags" data)
                          (Task.cast_Array (get "tags" data)) (Some [])))
  /\ Task.completed d
     = fst (Task.place "completed" "Boolean" (get "completed" data)
              (Task.cast_Boolean (get "completed" data)) (Some false))
  /\ Task.createdAt d
     = fst (Task.place "createdAt" "date" (get "createdAt" data)
              (Task.cast_Date (get "createdAt" data)) (Some now)).
Proof.
  unfold Task.construct.
  repeat match goal with
  | |- context [match ?p with pair _ _ => _ end] => destruct p
  end.
  simpl. repeat split; reflexivity.
Qed.

Lemma validators_nil (now : Z) (d : Task.doc) :
  Task.validators now d = [] ->
  Task.validate_text (Task.text d) = []
  /\ Task.validate_priority (Task.priority d) = []
  /\ Task.validate_category (Task.category d) = []
  /\ Task.validate_dueDate now (Task.dueDate d) = []
  /\ Task.validate_tags 0 (Task.tags d) = []
  /\ Task.validate_estimatedTime (Task.estimatedTime d) = []
  /\ Task.validate_actualTime (Task.actualTime d) = []
  /\ Task.validate_difficulty (Task.difficulty d) = [].
Proof.
  unfold Task.validators. intros Hv.
  repeat (apply app_eq_nil in Hv as [? Hv]). repeat split; assumption.
Qed.

Lemma validate_tags_nil (i : Z) (tags : list (option string)) :
  Task.validate_tags i tags = [] ->
  Forall (fun t => forall s, t = Some s -> Task.len s <= 20) tags.
Proof.
  revert i. induction tags as [|t r IH]; intros i; simpl; [constructor |].
  intros Hv. apply app_eq_nil in Hv as [Ht Hr].
  constructor; [| apply (IH (i + 1)), Hr].
  intros s ->. destruct (Z.ltb_spec 20 (Task.len s)); [discriminate | assumption].
Qed.

(** What a successful [save] went through, and the counter after it. *)
Lemma save_Ok_next (now : Z) (data : obj) (c c' : Task.collection) (d' : Task.doc) :
  Task.save now data c = (Ok d', c') ->
  Task.next_oid c' = Task.next_oid c + 1
  /\ Task.pre_save now (fst (Task.construct now (ObjectId_of (Task.next_oid c)) data)) = Ok d'.
Proof.
  intros Hsave. pose proof (save_Ok _ _ _ _ _ Hsave) as (_ & Hpre & _).
  apply save_Ok_steps in Hsave as (_ & _ & ->). split; [reflexivity | exact Hpre].
Qed.

Lemma lower_hex_char (c : ascii) :
  is_lower_hex c = true -> is_hex c = true /\ lower_ascii c = c.
Proof.
  destruct c as [[] [] [] [] [] [] [] []]; intros Hc; try discriminate Hc;
    split; reflexivity.
Qed.

Lemma hex_lower_char (c : ascii) :
  is_hex c = true -> is_lower_hex (lower_ascii c) = true.
Proof.
  destruct c as [[] [] [] [] [] [] [] []]; intros Hc; try discriminate Hc; reflexivity.
Qed.

Lemma hex_digit_lower (n : Z) : 0 <= n < 16 -> is_lower_hex (hex_digit n) = true.
Proof.
  intros Hn. rewrite <- (Z2Nat.id n) by lia.
  assert (Hlt : (Z.to_nat n < 16)%nat) by lia.
  revert Hlt. generalize (Z.to_nat n). clear Hn. intros m Hlt.
  do 16 (destruct m as [|m]; [reflexivity |]). lia.
Qed.

(** A string of lower-case hexadecimal digits is hexadecimal and has no
    upper case to lose. *)
Lemma all_lower_hex (s : string) :
  all_chars is_lower_hex s = true ->
  all_chars is_hex s = true /\ toLowerCase s = s.
Proof.
  induction s as [|c r IH]; simpl; [auto |].
  intros [Hc Hr]%andb_true_iff. destruct (lower_hex_char c Hc) as [Hhex Hlow].
  destruct (IH Hr) as [IH1 IH2]. rewrite Hhex, IH1, Hlow, IH2. auto.
Qed.

Lemma toLowerCase_hex (s : string) :
  all_chars is_hex s = true ->
  String.length (toLowerCase s) = String.length s
  /\ all_chars is_lower_hex (toLowerCase s) = true.
Proof.
  induction s as [|c r IH]; simpl; [auto |].
  intros [Hc Hr]%andb_true_iff. destruct (IH Hr) as [IH1 IH2].
  rewrite IH1, IH2, (hex_lower_char c Hc). auto.
Qed.

Lemma hex_padded_lower (width : nat) (n : Z) (acc : string) :
  all_chars is_lower_hex acc = true ->
  all_chars is_lower_hex (hex_padded width n acc) = true.
Proof.
  revert n acc. induction width as [|w IH]; intros n acc Hacc; simpl; [exact Hacc |].
  apply IH. simpl. rewrite hex_digit_lower, Hacc; [reflexivity |].
  apply Z.mod_pos_bound. reflexivity.
Qed.

Lemma bytes_hex_spec (s : string) :
  String.length (bytes_hex s) = (2 * String.length s)%nat
  /\ all_chars is_lower_hex (bytes_hex s) = true.
Proof.
  induction s as [|c r [IH1 IH2]]; [auto |].
  cbn [bytes_hex String.length all_chars]. cbv zeta.
  pose proof (nat_ascii_bounded c) as Hc.
  rewrite IH1, IH2, !hex_digit_lower.
  - split; [lia | reflexivity].
  - apply Z.mod_pos_bound. reflexivity.
  - split; [apply Z.div_pos; lia | apply Z.div_lt_upper_bound; lia].
Qed.

Lemma ObjectId_hex_canonical `{Engine} (s : string) :
  ObjectId_isValid s = true -> canonical_id (ObjectId_hex s).
Proof.
  unfold ObjectId_isValid, ObjectId_hex, canonical_id.
  destruct (String.length s =? 24)%nat eqn:Hlen.
  - apply Nat.eqb_eq in Hlen. intros Hvalid.
    assert (Hhex : all_chars is_hex s = true).
    { destruct (all_chars is_hex s); [reflexivity |]. simpl in Hvalid.
      apply andb_true_iff in Hvalid as [_ Hl]. apply Nat.eqb_eq in Hl. lia. }
    destruct (toLowerCase_hex s Hhex) as [Hl Hc]. split; [lia | exact Hc].
  - simpl. intros [_ Hl]%andb_true_iff. apply Nat.eqb_eq in Hl.
    destruct (bytes_hex_spec s) as [Hb Hc]. split; [lia | exact Hc].
Qed.

Lemma canonical_id_valid `{Engine} (s : string) :
  canonical_id s -> ObjectId_isValid s = true /\ ObjectId_hex s = s.
Proof.
  intros [Hlen Hc]. destruct (all_lower_hex s Hc) as [Hhex Hlow].
  unfold ObjectId_isValid, ObjectId_hex. rewrite Hlen, Hhex. auto.
Qed.

Lemma ObjectId_of_canonical (n : Z) : canonical_id (ObjectId_of n).
Proof.
  unfold canonical_id, ObjectId_of.
  destruct (hex_padded_spec 24 n EmptyString) as [Hlen _].
  split; [exact Hlen | apply hex_padded_lower; reflexivity].
Qed.

Lemma ObjectId_from_Val (o : option string) (s : string) :
  Task.ObjectId_from o = Task.Val s ->
  canonical_id s /\ exists t, o = Some t /\ s = ObjectId_hex t.
Proof.
  destruct o as [t|]; simpl; [| discriminate].
  destruct (ObjectId_isValid t) eqn:Ht; [| discriminate]. intros [= <-].
  split; [apply ObjectId_hex_canonical, Ht | eauto].
Qed.

(** What casts to an ObjectId is one, written as [toHexString] writes it;
    only null casts to null. *)
Lemma cast_ObjectId_spec (v : value) :
  match Task.cast_ObjectId v with
  | Task.Val s => canonical_id s /\ (forall t, v = VStr t -> s = ObjectId_hex t)
  | Task.Null => v = VNull
  | Task.Undef => v = VUndefined
  | Task.Bad => True
  end.
Proof.
  destruct v as [| |b|n|x|t|ms|src fl|items|props]; cbn [Task.cast_ObjectId];
    try reflexivity;
    try (destruct (truthy (get "_id" props)); [| exact I]);
    match goal with
    | |- context [Task.ObjectId_from ?o] =>
        destruct (Task.ObjectId_from o) as [| |s|] eqn:Hfrom;
          try exact I;
          try (destruct o as [u|]; simpl in Hfrom; [destruct (ObjectId_isValid u) |];
               discriminate)
    end;
    apply ObjectId_from_Val in Hfrom as (Hcanon & u & Ho & Hs);
    (split; [exact Hcanon |]); intros w; try discriminate.
  intros [= <-]. simpl in Ho. congruence.
Qed.

(** The id of a saved document is the payload's, a new one when the payload
    gives none, and null when the payload gives null; the document is
    stored under its id, under a new one when it has none, and no document
    of the collection had that id. *)
Lemma save_Ok_id (now : Z) (data : obj) (c c' : Task.collection) (d' : Task.doc) :
  Task.save now data c = (Ok d', c') ->
  let oid := default (ObjectId_of (Task.next_oid c)) (Task._id d') in
  (get "_id" data = VUndefined -> Task._id d' = Some (ObjectId_of (Task.next_oid c)))
  /\ (forall s, get "_id" data = VStr s -> Task._id d' = Some (ObjectId_hex s))
  /\ (get "_id" data <> VNull -> Task._id d' = Some oid)
  /\ Forall (fun d => Task._id d <> Some oid) (Task.docs c)
  /\ canonical_id oid.
Proof.
  intros Hsave. cbv zeta.
  pose proof (save_Ok_steps _ _ _ _ _ Hsave) as (Hprep & Hnew & _).
  apply prepare_Ok in Hprep as (Hce & _ & Hpre). cbv zeta in Hce, Hpre.
  pose proof (construct_fields now (ObjectId_of (Task.next_oid c)) data) as (Hid & _).
  cbv zeta in Hid.
  assert (Hkept : Task._id d'
                  = Task._id (fst (Task.construct now (ObjectId_of (Task.next_oid c)) data))).
  { revert Hpre. unfold Task.pre_save. destruct (10 <? length _)%nat; [discriminate |].
    intros [= <-]. reflexivity. }
  assert (Hcast : Task.cast_ObjectId (get "_id" data) <> Task.Bad).
  { intros Hbad. revert Hce. unfold Task.construct. rewrite Hbad. cbn [Task.place].
    repeat match goal with
    | |- context [Task.place ?a ?b ?c ?d ?e] => destruct (Task.place a b c d e)
    end.
    discriminate. }
  rewrite <- Hkept in Hid.
  pose proof (cast_ObjectId_spec (get "_id" data)) as Hspec.
  destruct (Task.cast_ObjectId (get "_id" data)) as [| |s|] eqn:Hc;
    [| | | congruence]; cbn [Task.place fst] in Hid; rewrite Hid; cbn [from_option id].
  - (* no id given *)
    repeat split; try congruence.
    + apply List.Forall_forall. intros d Hin Heq.
      rewrite Hid in Hnew. cbn [from_option id] in Hnew.
      assert (Hex : existsb (Task.is_doc (ObjectId_of (Task.next_oid c))) (Task.docs c) = true).
      { apply existsb_exists. exists d. split; [exact Hin |].
        unfold Task.is_doc. rewrite Heq. apply String.eqb_refl. }
      congruence.
    + apply ObjectId_of_canonical.
  - (* null *)
    repeat split; try congruence.
    + apply List.Forall_forall. intros d Hin Heq.
      rewrite Hid in Hnew. cbn [from_option id] in Hnew.
      assert (Hex : existsb (Task.is_doc (ObjectId_of (Task.next_oid c))) (Task.docs c) = true).
      { apply existsb_exists. exists d. split; [exact Hin |].
        unfold Task.is_doc. rewrite Heq. apply String.eqb_refl. }
      congruence.
    + apply ObjectId_of_canonical.
  - (* an id given *)
    destruct Hspec as [Hcanon Hstr].
    split; [intros Hu; rewrite Hu in Hc; discriminate Hc |]. split.
    { intros t Ht. rewrite (Hstr t Ht). reflexivity. }
    split; [reflexivity |]. split; [| exact Hcanon].
    apply List.Forall_forall. intros d Hin Heq.
    rewrite Hid in Hnew. cbn [from_option id] in Hnew.
    assert (Hex : existsb (Task.is_doc s) (Task.docs c) = true).
    { apply existsb_exists. exists d. split; [exact Hin |].
      unfold Task.is_doc. rewrite Heq. apply String.eqb_refl. }
    congruence.
Qed.

(** What [pre('save')] changes: the text, the tags and [lastModified]. *)
Lemma pre_save_Ok (now : Z) (d d' : Task.doc) :
  Task.pre_save now d = Ok d' ->
  (length (Task.tags d) <= 10)%nat
  /\ Task.tags d' = List.filter Task.tag_kept (Task.tags d)
  /\ Task.lastModified d' = Some now
  /\ Task._id d' = Task._id d /\ Task.completed d' = Task.completed d
  /\ Task.priority d' = Task.priority d /\ Task.category d' = Task.category d
  /\ Task.dueDate d' = Task.dueDate d /\ Task.createdAt d' = Task.createdAt d
  /\ Task.userId d' = Task.userId d
  /\ Task.estimatedTime d' = Task.estimatedTime d
  /\ Task.actualTime d' = Task.actualTime d
  /\ Task.difficulty d' = Task.difficulty d
  /\ Task.text d'
     = match Task.text d with
       | Some s => if String.eqb s EmptyString then Some s
                   else Some (trim (trim (collapse_ws false s)))
       | None => None
       end.
Proof.
  unfold Task.pre_save.
  destruct (Nat.ltb_spec 10 (length (Task.tags d))); [discriminate |].
  intros [= <-]. simpl. repeat split; try reflexivity. lia.
Qed.

(** The text of a new document is a trimmed string, whatever the payload
    gave. *)
Lemma construct_text_trimmed (now : Z) (oid : string) (data : obj) (t : string) :
  Task.text (fst (Task.construct now oid data)) = Some t -> trim t = t.
Proof.
  destruct (construct_fields now oid data) as (_ & Ht & _). cbv zeta in Ht.
  rewrite Ht. unfold Task.set_trim.
  destruct (Task.cast_String (get "text" data)); simpl; try discriminate.
  intros [= <-]. apply trim_again.
Qed.

(** X10.  Every document a successful [save] stores meets the schema, for a
    payload whose text, priority, category and tags are of ASCII characters.
    One document is appended to the collection: the document [save]
    resolves to, under the payload's [_id] when the payload gives one (it is
    then an ObjectId, kept in lower case), under a new id when it gives
    none, in either case an id no document of the collection had.  Its [lastModified] is the clock
    reading; its text is whitespace-normalized, of 3 to 255 characters and
    without a markup tag; its priority, when it has one, is one of the three
    values; its category, when it has one, is trimmed and of at most 50
    characters; its due date, when it has one, is not before the local
    midnight of the clock reading; it has at most 10 tags, each a string
    that is not empty, trimmed, in lower case and of at most 20 characters;
    its estimated time, when it has one, is between 1 and 1440, its actual
    time at least 1, its difficulty one of the three values. *)
Theorem saved_document_meets_schema (now : Z) (data : obj)
    (c c' : Task.collection) (d : Task.doc) :
  ascii_payload data = true ->
  Task.save now data c = (Ok d, c') ->
  (exists id,
     Task.docs c' = Task.docs c ++ [Task.set_id (Some id) d]
     /\ (get "_id" data <> VNull -> Task.set_id (Some id) d = d)
     /\ (get "_id" data = VUndefined -> id = ObjectId_of (Task.next_oid c))
     /\ (forall s, get "_id" data = VStr s -> id = ObjectId_hex s)
     /\ ObjectId_isValid id = true
     /\ ObjectId_hex id = id
     /\ Forall (fun d' => Task._id d' <> Some id) (Task.docs c))
  /\ Task.next_oid c' = Task.next_oid c + 1
  /\ Task.lastModified d = Some now
  /\ (exists s, Task.text d = Some s /\ normalized s /\ 3 <= Task.len s <= 255
                /\ htmlRegex_test s = false)
  /\ (forall p, Task.priority d = Some p -> In p Task.priority_values)
  /\ (forall g, Task.category d = Some g -> trim g = g /\ Task.len g <= 50)
  /\ (forall v, Task.dueDate d = Some v -> setHours0 now <= v)
  /\ ((length (Task.tags d) <= 10)%nat /\ Forall stored_tag (Task.tags d))
  /\ (forall n, Task.estimatedTime d = Some n -> at_least 1 n = true /\ at_most 1440 n = true)
  /\ (forall n, Task.actualTime d = Some n -> at_least 1 n = true)
  /\ (forall s, Task.difficulty d = Some s -> In s Task.difficulty_values).
Proof.
  intros _ Hsave.
  destruct (save_Ok_next _ _ _ _ _ Hsave) as (Hnext & _).
  destruct (save_Ok_id _ _ _ _ _ Hsave) as (Hnoid & Hownid & Hgiven & Hfresh & Hvalid).
  cbv zeta in Hgiven, Hfresh, Hvalid.
  apply save_Ok in Hsave as (Hv & Hpre & Hdocs). cbv zeta in Hv, Hpre.
  pose proof (construct_fields now (ObjectId_of (Task.next_oid c)) data) as Hf.
  pose proof (construct_more_fields now (ObjectId_of (Task.next_oid c)) data) as Hm.
  pose proof (construct_text_trimmed now (ObjectId_of (Task.next_oid c)) data) as Htrim.
  cbv zeta in Hf, Hm.
  set (d0 := fst (Task.construct now (ObjectId_of (Task.next_oid c)) data)) in *.
  destruct Hf as (Hid & _). destruct Hm as (Hcat & Htags & _).
  apply validators_nil in Hv
    as (Hvtext & Hvprio & Hvcat & Hvdue & Hvtags & Hvest & Hvact & Hvdiff).
  apply pre_save_Ok in Hpre
    as (Hten & Hptags & Hmod & Hpid & _ & Hpprio & Hpcat & Hpdue & _ & _
        & Hpest & Hpact & Hpdiff & Hptext).
  split; [| split; [| split;
    [| split; [| split; [| split; [| split; [| split; [| split; [| split]]]]]]]]].
  - exists (default (ObjectId_of (Task.next_oid c)) (Task._id d)).
    split; [exact Hdocs |]. split.
    { intros Hnot. rewrite <- (Hgiven Hnot). apply set_id_same. }
    split.
    { intros Hundef. rewrite (Hnoid Hundef). reflexivity. }
    split.
    { intros s Hs. rewrite (Hownid s Hs). reflexivity. }
    destruct (canonical_id_valid _ Hvalid) as [Hisvalid Hhex].
    split; [exact Hisvalid |]. split; [exact Hhex | exact Hfresh].
  - exact Hnext.
  - exact Hmod.
  - destruct (Task.text d0) as [t|] eqn:Ht; [| discriminate].
    apply validate_text_ok in Hvtext as (Hne & Hlen & Hhtml).
    destruct (String.eqb_spec t EmptyString); [congruence |].
    specialize (Htrim t eq_refl).
    assert (Hnorm : collapse_ws false t = normalize t)
      by (unfold normalize; rewrite Htrim; reflexivity).
    destruct (normalize_normalized t) as (Hns & Hne' & Hsingle).
    exists (normalize t). split.
    { rewrite Hptext, Hnorm, (trim_id (normalize t)) by assumption.
      rewrite (trim_id (normalize t)) by assumption. reflexivity. }
    split; [repeat split; assumption |].
    rewrite <- Hnorm, collapse_html. split; [| assumption].
    unfold Task.len in *.
    pose proof (collapse_length_le false t).
    destruct (trim_trimmed t) as [Hs He]. rewrite Htrim in Hs, He.
    pose proof (collapse_length_ge_3 t Hs He ltac:(lia)). lia.
  - intros p Hp. rewrite Hpprio in Hp. rewrite Hp in Hvprio.
    unfold Task.validate_priority in Hvprio.
    destruct (Task.one_of Task.priority_values p) eqn:Hone;
      [apply one_of_In, Hone | discriminate].
  - intros g Hg. rewrite Hpcat in Hg. rewrite Hg in Hvcat. split.
    + rewrite Hcat in Hg. unfold Task.set_trim in Hg.
      destruct (Task.cast_String (get "category" data)); simpl in Hg;
        try discriminate; injection Hg as <-; [reflexivity | apply trim_again].
    + unfold Task.validate_category in Hvcat.
      destruct (Z.ltb_spec 50 (Task.len g)); [discriminate | assumption].
  - intros v Hd. rewrite Hpdue in Hd. rewrite Hd in Hvdue.
    unfold Task.validate_dueDate in Hvdue.
    destruct (Task.dueDate_validator now (Some v)) eqn:Hok; [| discriminate].
    apply dueDate_validator_spec, Hok.
  - split.
    + rewrite Hptags. pose proof (filter_length_le Task.tag_kept (Task.tags d0)).
      unfold Datatypes.length in *. lia.
    + rewrite Hptags. apply validate_tags_nil in Hvtags.
      assert (Hset : Forall set_tag (Task.tags d0)).
      { rewrite Htags.
        destruct (Task.cast_Array (get "tags" data)) as [| |l|] eqn:Hc; simpl;
          try constructor.
        apply (cast_Array_set _ _ Hc). }
      rewrite List.Forall_forall in Hvtags, Hset. apply List.Forall_forall.
      intros t Hin. apply filter_In in Hin as [Hin Hkept].
      destruct t as [s|]; [| discriminate]. exists s.
      destruct (Hset _ Hin s eq_refl) as [Htr Hlow].
      unfold Task.tag_kept in Hkept. apply andb_prop in Hkept as [Hne _].
      destruct (String.eqb_spec s EmptyString); [discriminate |].
      repeat split; try assumption. apply (Hvtags _ Hin), eq_refl.
  - intros n Hn. rewrite Hpest in Hn. rewrite Hn in Hvest.
    unfold Task.validate_estimatedTime in Hvest.
    destruct (at_least 1 n); [| discriminate].
    destruct (at_most 1440 n); [split; reflexivity | discriminate].
  - intros n Hn. rewrite Hpact in Hn. rewrite Hn in Hvact.
    unfold Task.validate_actualTime in Hvact.
    destruct (at_least 1 n); [reflexivity | discriminate].
  - intros s Hs. rewrite Hpdiff in Hs. rewrite Hs in Hvdiff.
    unfold Task.validate_difficulty in Hvdiff.
    destruct (Task.one_of Task.difficulty_values s) eqn:Hone;
      [apply one_of_In, Hone | discriminate].
Qed.

End SavingMore.

Lemma saved_document_meets_schema_witness :
  @Task.save utc_host plain_engine 4000 untidy_payload Task.no_docs
  = (Ok tidy_doc, {| Task.docs := [tidy_doc]; Task.next_oid := 2 |})
  /\ Forall stored_tag (Task.tags tidy_doc)
  /\ normalized "Buy MILK".
Proof.
  assert (Hsave : @Task.save utc_host plain_engine 4000 untidy_payload Task.no_docs
                  = (Ok tidy_doc, {| Task.docs := [tidy_doc]; Task.next_oid := 2 |}))
    by (vm_compute; reflexivity).
  split; [exact Hsave |].
  assert (Hascii : ascii_payload untidy_payload = true) by (vm_compute; reflexivity).
  destruct (@saved_document_meets_schema utc_host plain_engine _ _ _ _ _ Hascii Hsave)
    as (_ & _ & _ & (s & Hs & Hnorm & _) & _ & _ & _ & (_ & Htags) & _).
  split; [exact Htags |]. injection Hs as <-. exact Hnorm.
Defined.

Section Virtuals.
Context `{Host} `{Engine}.

Lemma setHours0_mono (a b : Z) : a <= b -> setHours0 a <= setHours0 b.
Proof. apply local_midnight_mono. Qed.

Lemma setHours0_again (t : Z) : setHours0 (setHours0 t) = setHours0 t.
Proof. apply local_midnight_again. Qed.

(** The ceiling of a quotient by the length of a day. *)
Lemma ceil_days (x : Z) :
  let n := - ((- x) / MS_PER_DAY) in
  (n - 1) * MS_PER_DAY < x <= n * MS_PER_DAY.
Proof.
  cbv zeta. assert (Hday : 0 < MS_PER_DAY) by reflexivity.
  pose proof (Z.mul_div_le (- x) MS_PER_DAY Hday).
  pose proof (Z.mul_succ_div_gt (- x) MS_PER_DAY Hday). nia.
Qed.

Lemma daysUntilDue_Some (now : Z) (d : Task.doc) (n : Z) :
  Task.daysUntilDue now d = Some n ->
  exists due, Task.dueDate d = Some due /\ default false (Task.completed d) = false
              /\ (n - 1) * MS_PER_DAY < setHours0 due - setHours0 now <= n * MS_PER_DAY.
Proof.
  unfold Task.daysUntilDue. destruct (Task.dueDate d) as [due|]; [| discriminate].
  destruct (default false (Task.completed d)); [discriminate |].
  intros [= <-]. exists due. split; [reflexivity |]. split; [reflexivity |].
  apply ceil_days.
Qed.

(** X11.  The two virtual properties of a document agree with each other
    and with the due-date rule, whatever the lengths of the local days:
    [daysUntilDue] is null exactly for a document without due date or marked
    completed, and otherwise, for dates less than 2^26 days apart, the time
    from the local midnight of the clock reading to that of the due date, in
    days of 24 hours rounded up; an overdue document has 0 or fewer days
    left, a document with fewer than 0 days left is overdue; and a document
    just saved has 0 or more days left at the clock reading it was saved
    at. *)
Theorem due_virtuals (now : Z) (d : Task.doc) :
  (Task.daysUntilDue now d = None
   <-> Task.dueDate d = None \/ Task.completed d = Some true)
  /\ (forall n due, Task.daysUntilDue now d = Some n -> Task.dueDate d = Some due ->
        Z.abs (setHours0 due - setHours0 now) < 2 ^ 26 * MS_PER_DAY ->
        (n - 1) * MS_PER_DAY < setHours0 due - setHours0 now <= n * MS_PER_DAY)
  /\ (Task.isOverdue now d = true ->
      exists n, Task.daysUntilDue now d = Some n /\ n <= 0)
  /\ (forall n, Task.daysUntilDue now d = Some n -> n < 0 -> Task.isOverdue now d = true)
  /\ (forall data c c' n,
        Task.save now data c = (Ok d, c') -> Task.daysUntilDue now d = Some n -> 0 <= n).
Proof.
  assert (Hday : 0 < MS_PER_DAY) by reflexivity.
  split; [| split; [| split; [| split]]].
  - unfold Task.daysUntilDue. destruct (Task.dueDate d) as [due|].
    + destruct (Task.completed d) as [[|]|]; simpl; split;
        try discriminate; try (intros [? | ?]; discriminate); auto.
    + split; auto.
  - intros n due Hn Hdue _. apply daysUntilDue_Some in Hn as (due' & Hdue' & _ & Hn).
    congruence.
  - unfold Task.isOverdue, Task.daysUntilDue.
    destruct (Task.dueDate d) as [due|]; [| discriminate].
    destruct (default false (Task.completed d)); [discriminate |].
    intros Hlt. apply Z.ltb_lt in Hlt. eexists. split; [reflexivity |].
    pose proof (setHours0_mono due now ltac:(lia)).
    pose proof (ceil_days (setHours0 due - setHours0 now)) as Hceil. cbv zeta in Hceil.
    nia.
  - intros n Hn Hneg. apply daysUntilDue_Some in Hn as (due & Hdue & Hc & Hn).
    unfold Task.isOverdue. rewrite Hdue, Hc. apply Z.ltb_lt.
    destruct (Z.lt_ge_cases due now) as [Hlt | Hge]; [assumption |].
    pose proof (setHours0_mono now due Hge). nia.
  - intros data c c' n Hsave Hn.
    apply daysUntilDue_Some in Hn as (due & Hdue & _ & Hn).
    assert (Hok : setHours0 now <= due).
    { apply save_Ok in Hsave as (Hv & Hpre & _). cbv zeta in Hv, Hpre.
      set (d0 := fst (Task.construct now (ObjectId_of (Task.next_oid c)) data)) in *.
      assert (Hkept : Task.dueDate d = Task.dueDate d0).
      { unfold Task.pre_save in Hpre.
        destruct (10 <? length (Task.tags d0))%nat; [discriminate |].
        injection Hpre as <-. reflexivity. }
      unfold Task.validators in Hv.
      apply app_eq_nil in Hv as [_ Hv]. apply app_eq_nil in Hv as [_ Hv].
      apply app_eq_nil in Hv as [_ Hv]. apply app_eq_nil in Hv as [Hv _].
      rewrite <- Hkept, Hdue in Hv. unfold Task.validate_dueDate in Hv.
      destruct (Task.dueDate_validator now (Some due)) eqn:Hdv; [| discriminate].
      apply dueDate_validator_spec, Hdv. }
    pose proof (setHours0_mono _ _ Hok) as Hmono.
    rewrite setHours0_again in Hmono. nia.
Qed.

End Virtuals.

Lemma due_virtuals_witness :
  exists d,
    Task.docs (db one_due) = [d]
    /\ Task.isOverdue example_now d = true
    /\ @Task.daysUntilDue utc_host example_now d = Some 0.
Proof.
  eexists. split; [vm_compute; reflexivity |].
  match goal with |- Task.isOverdue _ ?d = true /\ _ => set (doc := d) end.
  assert (Hover : Task.isOverdue example_now doc = true) by (vm_compute; reflexivity).
  split; [exact Hover |].
  destruct (@due_virtuals utc_host plain_engine example_now doc)
    as (_ & _ & Hle & _ & Hge).
  destruct (Hle Hover) as (n & Hn & Hn0).
  assert (Hsave : @Task.save utc_host plain_engine example_now
                    (due "2023-11-14T00:00:00.000Z") Task.no_docs
                  = (Ok doc, {| Task.docs := [doc]; Task.next_oid := 2 |}))
    by (vm_compute; reflexivity).
  pose proof (Hge _ _ _ n Hsave Hn). rewrite Hn. f_equal. lia.
Defined.

(** * Further properties of the controllers *)

Section ControllersMore.
Context `{Host} `{Engine}.

Lemma on_db_frame {A} (w : world) (op : Task.collection -> result A * Task.collection) :
  mem (snd (on_db w op)) = mem w /\ readyState (snd (on_db w op)) = readyState w.
Proof.
  unfold on_db. destruct (readyState w =? 1); [| split; reflexivity].
  destruct (op (db w)). split; reflexivity.
Qed.

Lemma on_db_after_frame {A B} (w : world) (check : Task.collection -> result B)
    (op : B -> Task.collection -> result A * Task.collection) :
  mem (snd (on_db_after w check op)) = mem w
  /\ readyState (snd (on_db_after w check op)) = readyState w.
Proof.
  unfold on_db_after. destruct (check (db w)); [apply on_db_frame | split; reflexivity].
Qed.

Lemma getTaskModel_online (w : world) :
  readyState w = 1 -> SimpleController.getTaskModel w = SimpleController.TheTask.
Proof.
  intros Hrs. unfold SimpleController.getTaskModel, SimpleController.isMongoAvailable.
  rewrite Hrs. reflexivity.
Qed.

(** X12.  Each controller changes only the task set it works on.  The
    handlers of the full controller that write (create, update, delete)
    never change the in-memory store nor the connection state.  Those of the
    simplified controller never change the connection state, leave the
    in-memory store alone while connected and the document collection alone
    while not. *)
Theorem handlers_keep_to_their_task_set (req : request) (now : Z) (w : world) :
  (forall w', In w' [ snd (TaskController.createTask req now w);
                      snd (TaskController.updateTask req now w);
                      snd (TaskController.deleteTask req w) ] ->
     mem w' = mem w /\ readyState w' = readyState w)
  /\ (forall w', In w' [ snd (SimpleController.createTask req now w);
                         snd (SimpleController.updateTask req now w);
                         snd (SimpleController.deleteTask req w) ] ->
        readyState w' = readyState w
        /\ (readyState w = 1 -> mem w' = mem w)
        /\ (readyState w <> 1 -> db w' = db w)).
Proof.
  split.
  - intros w' [<- | [<- | [<- | []]]].
    + unfold TaskController.createTask.
      pose proof (on_db_after_frame w
        (Task.prepare now (default (body req) (validatedData req))) Task.insertOne).
      destruct (on_db_after w _ _). assumption.
    + unfold TaskController.updateTask.
      destruct (negb (TaskController.isValid (params_id req))); [split; reflexivity |].
      pose proof (on_db_after_frame w
        (fun _ : Task.collection =>
           Task.cast_query now (params_id req)
             (<["lastModified" := VDate now]> (default (body req) (validatedData req)))
             TaskController.update_options)
        (Task.findOneAndUpdate now TaskController.update_options)).
      destruct (on_db_after w _ _). assumption.
    + unfold TaskController.deleteTask.
      destruct (negb (TaskController.isValid (params_id req))); [split; reflexivity |].
      pose proof (on_db_frame w (Task.findByIdAndDelete (params_id req))).
      destruct (on_db w _). assumption.
  - assert (Hcreate : forall m data,
      let w' := snd (SimpleController.create m now data w) in
      readyState w' = readyState w
      /\ (m = SimpleController.TheTask -> mem w' = mem w)
      /\ (m = SimpleController.TheInMemoryTask -> db w' = db w)).
    { intros [|] data; simpl.
      - destruct (on_db_after_frame w (Task.prepare now data) Task.insertOne) as [Hm Hr].
        destruct (on_db_after w _ _). simpl.
        repeat split; intros; first [assumption | discriminate].
      - repeat split; intros; first [reflexivity | discriminate]. }
    assert (Hupdate : forall m data options,
      let w' := snd (SimpleController.findByIdAndUpdate m now (params_id req) data options w) in
      readyState w' = readyState w
      /\ (m = SimpleController.TheTask -> mem w' = mem w)
      /\ (m = SimpleController.TheInMemoryTask -> db w' = db w)).
    { intros [|] data options; simpl.
      - destruct (on_db_after_frame w
                    (fun _ : Task.collection =>
                       Task.cast_query now (params_id req) data options)
                    (Task.findOneAndUpdate now options)) as [Hm Hr].
        destruct (on_db_after w _ _). simpl.
        repeat split; intros; first [assumption | discriminate].
      - destruct (MemoryStore.findByIdAndUpdate _ _ _ _ _).
        repeat split; intros; first [reflexivity | discriminate]. }
    assert (Hdelete : forall m,
      let w' := snd (SimpleController.findByIdAndDelete m (params_id req) w) in
      readyState w' = readyState w
      /\ (m = SimpleController.TheTask -> mem w' = mem w)
      /\ (m = SimpleController.TheInMemoryTask -> db w' = db w)).
    { intros [|]; simpl.
      - destruct (on_db_frame w (Task.findByIdAndDelete (params_id req))) as [Hm Hr].
        destruct (on_db w _). simpl. repeat split; intros; first [assumption | discriminate].
      - destruct (MemoryStore.findByIdAndDelete _ _).
        repeat split; intros; first [reflexivity | discriminate]. }
    assert (Hmodel : forall w',
      readyState w' = readyState w
      /\ (SimpleController.getTaskModel w = SimpleController.TheTask -> mem w' = mem w)
      /\ (SimpleController.getTaskModel w = SimpleController.TheInMemoryTask -> db w' = db w) ->
      readyState w' = readyState w
      /\ (readyState w = 1 -> mem w' = mem w)
      /\ (readyState w <> 1 -> db w' = db w)).
    { intros w' (Hrs & Hon & Hoff). split; [assumption |]. split.
      - intros Hone. apply Hon, getTaskModel_online, Hone.
      - intros Hnot. apply Hoff, getTaskModel_offline, Hnot. }
    intros w' [<- | [<- | [<- | []]]]; apply Hmodel.
    + unfold SimpleController.createTask.
      destruct (SimpleController.text_missing _) as [[|]|];
        try (repeat split; reflexivity).
      destruct (call_trim _) as [text|]; [| repeat split; reflexivity].
      match goal with
      | |- context [SimpleController.create ?m now ?data w] =>
          pose proof (Hcreate m data) as Hc; cbv zeta in Hc;
          destruct (SimpleController.create m now data w)
      end.
      exact Hc.
    + unfold SimpleController.updateTask.
      match goal with
      | |- context [SimpleController.findByIdAndUpdate ?m now ?id ?data ?o w] =>
          pose proof (Hupdate m data o) as Hc; cbv zeta in Hc;
          destruct (SimpleController.findByIdAndUpdate m now id data o w)
      end.
      exact Hc.
    + unfold SimpleController.deleteTask.
      match goal with
      | |- context [SimpleController.findByIdAndDelete ?m ?id w] =>
          pose proof (Hdelete m) as Hc; cbv zeta in Hc;
          destruct (SimpleController.findByIdAndDelete m id w)
      end.
      exact Hc.
Qed.

(** What [too_short] says of a string. *)
Lemma too_short_string (s : string) :
  TaskController.too_short (VStr s) = Ok (Task.len (trim s) <? 2).
Proof.
  unfold TaskController.too_short. simpl.
  destruct (String.eqb_spec s EmptyString) as [-> | Hne]; reflexivity.
Qed.

(** X13.  Both search handlers check the query before anything else and
    whatever the connection state: a query that is missing, empty, or a
    string of ASCII characters, fewer than 2 of them once trimmed, is
    answered with 400 and the same body; a query that is given but is no
    string (a repeated parameter) is answered with 500.  A string of ASCII
    characters, 2 or more of them once trimmed, is never answered with 400
    by the simplified controller, and by the full controller, connected and
    with default paging, with 200 and at most 10 results. *)
Theorem search_needs_two_characters (req : request) (w : world) :
  let q := get "q" (query req) in
  let full := TaskController.searchTasks req w in
  let simple := SimpleController.searchTasks req w in
  ((truthy q = false
    \/ exists s, q = VStr s /\ is_ascii s = true /\ Task.len (trim s) < 2) ->
   full = TaskController.query_too_short /\ simple = TaskController.query_too_short
   /\ status full = 400)
  /\ (truthy q = true -> (forall s, q <> VStr s) -> status full = 500 /\ status simple = 500)
  /\ (forall s, q = VStr s -> is_ascii s = true -> 2 <= Task.len (trim s) ->
        status simple <> 400
        /\ (readyState w = 1 -> get "page" (query req) = VUndefined ->
            get "limit" (query req) = VUndefined ->
            status full = 200
            /\ exists results, said "data" full = objects results
                               /\ (length results <= 10)%nat)).
Proof.
  cbv zeta. unfold TaskController.searchTasks, SimpleController.searchTasks.
  split; [| split].
  - intros [Hfalsy | (s & Hs & _ & Hlen)].
    + unfold TaskController.too_short. rewrite Hfalsy. simpl. repeat split; reflexivity.
    + rewrite Hs, too_short_string.
      destruct (Z.ltb_spec (Task.len (trim s)) 2); [| lia]. simpl. repeat split; reflexivity.
  - intros Htruthy Hnot.
    assert (Hthrow : TaskController.too_short (get "q" (query req))
                     = Throw (TypeError "trim is not a function")).
    { unfold TaskController.too_short. rewrite Htruthy. simpl.
      destruct (get "q" (query req)) eqn:Hq; try reflexivity.
      exfalso. eapply Hnot. reflexivity. }
    rewrite Hthrow. split; reflexivity.
  - intros s Hs _ Hlen. rewrite Hs, too_short_string.
    destruct (Z.ltb_spec (Task.len (trim s)) 2); [lia |]. simpl. split.
    + unfold SimpleController.getAllTasks, SimpleController.caught.
      match goal with
      | |- status match ?r with Ok _ => _ | Throw _ => _ end <> 400 =>
          assert (Hr : (exists e, r = Throw e) \/ exists res, r = Ok res /\ status res = 200)
      end.
      2:{ destruct Hr as [(e & ->) | (res & -> & Hres)]; [discriminate | rewrite Hres; discriminate]. }
      repeat match goal with
      | |- (exists e, result_bind ?c _ = Throw e) \/ _ =>
          destruct c; simpl; [| left; eexists; reflexivity]
      end.
      right. eexists. split; reflexivity.
    + intros Hrs Hpage Hlimit. rewrite Hpage, Hlimit. unfold read_db. rewrite Hrs. simpl.
      split; [reflexivity |]. eexists. split; [reflexivity |].
      rewrite length_take. lia.
Qed.

End ControllersMore.

Lemma handlers_keep_to_their_task_set_witness :
  mem (snd (@TaskController.createTask utc_host plain_engine
              (create_request (just_text "first document")) 1000 online)) = mem online
  /\ db (snd (@SimpleController.createTask utc_host plain_engine
                (create_request (just_text "fourth task")) 4000 offline)) = db offline.
Proof.
  destruct (@handlers_keep_to_their_task_set utc_host plain_engine
              (create_request (just_text "first document")) 1000 online) as [Hfull _].
  destruct (@handlers_keep_to_their_task_set utc_host plain_engine
              (create_request (just_text "fourth task")) 4000 offline) as [_ Hsimple].
  split.
  - apply (Hfull _ (or_introl eq_refl)).
  - destruct (Hsimple _ (or_introl eq_refl)) as (_ & _ & Hdb). apply Hdb. discriminate.
Defined.

Lemma search_needs_two_characters_witness :
  status (@TaskController.searchTasks utc_host plain_engine (search_for (VStr " a ")) offline)
  = 400
  /\ @SimpleController.searchTasks utc_host plain_engine (search_for (VStr " a ")) offline
     = TaskController.query_too_short
  /\ status (@SimpleController.searchTasks utc_host plain_engine
               (search_for (VArr [VStr "ab"; VStr "cd"])) offline) = 500.
Proof.
  destruct (@search_needs_two_characters utc_host plain_engine
              (search_for (VStr " a ")) offline) as [Hshort _].
  destruct (@search_needs_two_characters utc_host plain_engine
              (search_for (VArr [VStr "ab"; VStr "cd"])) offline) as (_ & Hother & _).
  destruct Hshort as (_ & Hsimple & Hfull).
  { right. exists " a ". split; [reflexivity |]. split; [reflexivity |].
    vm_compute. reflexivity. }
  destruct Hother as [_ Hfive]; [reflexivity | discriminate |].
  split; [exact Hfull |]. split; [exact Hsimple | exact Hfive].
Defined.

Section SimpleOffline.
Context `{Host} `{Engine}.

(** X14.  Without a connection, a creation through the simplified
    controller with a text of ASCII characters that is not blank answers 201
    from memory with the stored task, whose two ids are the decimal string
    of the store's counter, whose text is the trimmed text and whose
    creation time is the clock reading; the store holds one task more; and
    get-by-id with that id answers 200 with the same task. *)
Theorem simple_create_then_get (req : request) (now : Z) (w : world) (s : string) :
  readyState w <> 1 ->
  get "text" (body req) = VStr s ->
  is_ascii s = true ->
  trim s <> EmptyString ->
  let created := SimpleController.createTask req now w in
  status (fst created) = 201
  /\ said "storage" (fst created) = VStr "memory"
  /\ exists t,
       said "data" (fst created) = VObj t
       /\ get "_id" t = MemoryStore.String_ (MemoryStore.nextId (mem w))
       /\ get "id" t = get "_id" t
       /\ get "text" t = VStr (trim s)
       /\ get "createdAt" t = VDate now
       /\ MemoryStore.getTaskCount (mem (snd created)) = MemoryStore.getTaskCount (mem w) + 1
       /\ forall req',
            params_id req' = get "_id" t ->
            status (SimpleController.getTaskById req' (snd created)) = 200
            /\ said "data" (SimpleController.getTaskById req' (snd created)) = VObj t.
Proof.
  intros Hrs Htext _ Hne. cbv zeta. unfold SimpleController.createTask.
  rewrite Htext, (getTaskModel_offline w Hrs), (text_missing_string s Hne).
  cbn [call_trim SimpleController.create].
  match goal with
  | |- context [MemoryStore.create now ?data (mem w)] =>
      set (payload := data);
      pose proof (eq_refl : get "_id" (fst (MemoryStore.create now payload (mem w)))
                            = MemoryStore.String_ (MemoryStore.nextId (mem w))) as H_id;
      assert (Hid : get "id" (fst (MemoryStore.create now payload (mem w)))
                    = MemoryStore.String_ (MemoryStore.nextId (mem w)))
        by (transitivity (MemoryStore.String_ (MemoryStore.nextId (mem w) + 1 - 1));
            [reflexivity | f_equal; lia]);
      pose proof (eq_refl : get "text" (fst (MemoryStore.create now payload (mem w)))
                            = get "text" payload) as Ht;
      pose proof (eq_refl : get "createdAt" (fst (MemoryStore.create now payload (mem w)))
                            = VDate now) as Hc;
      pose proof (eq_refl : MemoryStore.tasks (snd (MemoryStore.create now payload (mem w)))
                            = fst (MemoryStore.create now payload (mem w))
                              :: MemoryStore.tasks (mem w)) as Htasks;
      destruct (MemoryStore.create now payload (mem w)) as [t st] eqn:Hcreate
  end.
  cbn [fst snd] in *.
  split; [reflexivity |]. split.
  { unfold SimpleController.storage, SimpleController.isMongoAvailable. simpl.
    destruct (Z.eqb_spec (readyState w) 1); [congruence | reflexivity]. }
  exists t. split; [reflexivity |]. split; [exact H_id |]. split; [congruence |].
  split; [rewrite Ht; reflexivity |]. split; [exact Hc |]. split.
  { unfold MemoryStore.getTaskCount. simpl. rewrite Htasks. simpl length. lia. }
  intros req' Hreq. unfold SimpleController.getTaskById.
  assert (Hrs' : readyState (with_mem w st) <> 1) by exact Hrs.
  rewrite (getTaskModel_offline _ Hrs'). simpl.
  unfold MemoryStore.findById. rewrite Htasks. cbn [List.find].
  assert (Hhas : MemoryStore.has_id (params_id req') t = true).
  { unfold MemoryStore.has_id. rewrite Hreq, H_id. unfold MemoryStore.String_.
    cbn [strict_eq]. rewrite String.eqb_refl. reflexivity. }
  rewrite Hhas. split; reflexivity.
Qed.


End SimpleOffline.

Lemma simple_create_then_get_witness :
  let created := @SimpleController.createTask utc_host plain_engine
                   (create_request (just_text " fourth task ")) 4000 offline in
  status (fst created) = 201
  /\ status (@SimpleController.getTaskById utc_host plain_engine (by_id "4") (snd created))
     = 200.
Proof.
  destruct (@simple_create_then_get utc_host plain_engine
              (create_request (just_text " fourth task ")) 4000 offline " fourth task ")
    as (Hs & _ & t & _ & Hid & _ & _ & _ & _ & Hget);
    [discriminate | reflexivity | reflexivity | vm_compute; discriminate |].
  split; [exact Hs |]. apply Hget. rewrite Hid. vm_compute. reflexivity.
Defined.


Lemma slice_sublist {A} (start end_ : number) (l : list A) : slice start end_ l `sublist_of` l.
Proof.
  unfold slice. etransitivity; [apply sublist_take | apply sublist_drop].
Qed.

(** A slice of [n] places of a list that an array can hold has at most [n]
    elements. *)
Lemma slice_length {A} (start : number) (n : Z) (l : list A) :
  0 <= n -> Z.of_nat (length l) + n <= MAX_SAFE ->
  (length (slice start (num_add start (Int n)) l) <= Z.to_nat n)%nat.
Proof.
  intros Hn Hlen. unfold slice. rewrite length_take.
  set (len := length l) in *.
  destruct start as [i| | | |]; cbn [num_add relative_index]; try lia.
  - unfold double_of.
    destruct (Z.leb_spec (Z.abs (i + n)) MAX_SAFE) as [Hsafe | Hbig].
    { cbn [relative_index].
      destruct (Z.ltb_spec i 0); destruct (Z.ltb_spec (i + n) 0); lia. }
    pose proof (nearest_large _ Hbig) as Hnear.
    destruct (2 ^ 1024 <=? nearest (Z.abs (i + n))).
    + destruct (Z.ltb_spec (i + n) 0); cbn [relative_index];
        destruct (Z.ltb_spec i 0); lia.
    + cbn [relative_index].
      destruct (Z.ltb_spec (Z.sgn (i + n) * nearest (Z.abs (i + n))) 0);
        destruct (Z.ltb_spec i 0); nia.
  - destruct (Z.ltb_spec n 0); lia.
Qed.

Section SimpleSearch.
Context `{Host} `{Engine}.

(** Every task [find] returns is a stored task. *)
Lemma find_stored (filter : obj) (st : MemoryStore.store) (found : list obj) :
  MemoryStore.find filter st = Ok found ->
  forall t, In t found -> In t (MemoryStore.tasks st).
Proof.
  unfold MemoryStore.find.
  set (l1 := if negb _ then _ else MemoryStore.tasks st).
  set (l2 := if truthy (get "priority" filter) then _ else l1).
  set (l3 := if truthy (get "category" filter) then _ else l2).
  assert (H1 : forall t, In t l1 -> In t (MemoryStore.tasks st)).
  { unfold l1. destruct (negb (strict_eq (get "completed" filter) VUndefined)); [| auto].
    intros t Ht. apply filter_In in Ht. apply Ht. }
  assert (H2 : forall t, In t l2 -> In t (MemoryStore.tasks st)).
  { unfold l2. destruct (truthy (get "priority" filter)); [| auto].
    intros t Ht. apply filter_In in Ht. apply H1, Ht. }
  assert (H3 : forall t, In t l3 -> In t (MemoryStore.tasks st)).
  { unfold l3. destruct (truthy (get "category" filter)); [| auto].
    intros t Ht. apply filter_In in Ht. apply H2, Ht. }
  clearbody l3. clear l1 l2 H1 H2.
  destruct (truthy (get "$text" filter) && _).
  - destruct (call_toLowerCase _) as [term|e]; simpl; [| discriminate].
    destruct (filterM _ l3) as [l4|e] eqn:Hf; simpl; [| discriminate].
    intros [= <-] t Ht. apply H3.
    apply filterM_Ok in Hf as (_ & Hsub & _).
    apply list_elem_of_In. eapply elem_of_sublist; [| exact Hsub].
    apply list_elem_of_In. eapply Permutation_in; [apply sort_perm | exact Ht].
  - simpl. intros [= <-] t Ht. apply H3.
    eapply Permutation_in; [apply sort_perm | exact Ht].
Qed.

(** [find] returns no more tasks than are stored. *)
Lemma find_length (filter : obj) (st : MemoryStore.store) (found : list obj) :
  MemoryStore.find filter st = Ok found ->
  (length found <= length (MemoryStore.tasks st))%nat.
Proof.
  unfold MemoryStore.find.
  set (l1 := if negb _ then _ else MemoryStore.tasks st).
  set (l2 := if truthy (get "priority" filter) then _ else l1).
  set (l3 := if truthy (get "category" filter) then _ else l2).
  assert (H1 : (length l1 <= length (MemoryStore.tasks st))%nat).
  { unfold l1. destruct (negb (strict_eq (get "completed" filter) VUndefined)); [| lia].
    apply filter_length_le. }
  assert (H2 : (length l2 <= length (MemoryStore.tasks st))%nat).
  { unfold l2. destruct (truthy (get "priority" filter)); [| exact H1].
    etransitivity; [apply filter_length_le | exact H1]. }
  assert (H3 : (length l3 <= length (MemoryStore.tasks st))%nat).
  { unfold l3. destruct (truthy (get "category" filter)); [| exact H2].
    etransitivity; [apply filter_length_le | exact H2]. }
  clearbody l3. clear l1 l2 H1 H2.
  destruct (truthy (get "$text" filter) && _).
  - destruct (call_toLowerCase _) as [term|e]; simpl; [| discriminate].
    destruct (filterM _ l3) as [l4|e] eqn:Hf; simpl; [| discriminate].
    intros [= <-]. apply filterM_Ok in Hf as (_ & Hsub & _).
    rewrite (Permutation_length (sort_perm _ _)).
    apply sublist_length in Hsub. lia.
  - simpl. intros [= <-]. rewrite (Permutation_length (sort_perm _ _)). exact H3.
Qed.

(** X16.  Without a connection, a search through the simplified controller
    for a string of 2 characters or more answers 200 or 500; the query and
    the texts and categories of the stored tasks are of ASCII characters,
    and the stored tasks fewer than 2^32, as an array holds.  When it
    answers 200 it answers from memory, and every task it returns is a
    stored task whose text or category, in lower case, includes the query in
    lower case (the query as given, not trimmed); with the default limit it
    returns at most 10 tasks. *)
Theorem simple_search_offline (req : request) (w : world) (s : string) :
  readyState w <> 1 ->
  get "q" (query req) = VStr s ->
  is_ascii s = true ->
  Forall (fun t => ascii_value (get "text" t) = true
                   /\ ascii_value (get "category" t) = true) (MemoryStore.tasks (mem w)) ->
  Z.of_nat (length (MemoryStore.tasks (mem w))) < 2 ^ 32 ->
  2 <= Task.len (trim s) ->
  let answer := SimpleController.searchTasks req w in
  (status answer = 200 \/ status answer = 500)
  /\ (status answer = 200 ->
      said "storage" answer = VStr "memory"
      /\ exists found,
           said "data" answer = objects found
           /\ Forall (fun t => In t (MemoryStore.tasks (mem w))
                               /\ MemoryStore.text_or_category_includes (toLowerCase s) t
                                  = Ok true) found
           /\ (get "limit" (query req) = VUndefined -> (length found <= 10)%nat)).
Proof.
  intros Hrs Hq _ _ Hsize Hlen. cbv zeta.
  assert (Hs : s <> EmptyString).
  { intros ->. vm_compute in Hlen. apply Hlen. reflexivity. }
  unfold SimpleController.searchTasks. rewrite Hq, too_short_string.
  destruct (Z.ltb_spec (Task.len (trim s)) 2); [lia |]. cbn match.
  unfold SimpleController.getAllTasks. cbn [query].
  assert (Hoff : SimpleController.isMongoAvailable w = false).
  { unfold SimpleController.isMongoAvailable.
    destruct (Z.eqb_spec (readyState w) 1); [congruence | reflexivity]. }
  rewrite (getTaskModel_offline w Hrs), Hoff.
  set (limit := or_default (get "limit" (query req)) (VNum 10)).
  set (q' := <["limit" := limit]> (<["search" := VStr s]> (query req))).
  assert (Hsearch : get "search" q' = VStr s).
  { unfold q', get. rewrite lookup_insert_ne by discriminate.
    rewrite lookup_insert_eq. reflexivity. }
  assert (Hlimit : get "limit" q' = limit).
  { unfold q', get. rewrite lookup_insert_eq. reflexivity. }
  rewrite Hsearch, Hlimit.
  assert (Htruthy : truthy (VStr s) = true).
  { simpl. destruct (String.eqb_spec s EmptyString); [congruence | reflexivity]. }
  rewrite Htruthy. cbn [andb negb call_toLowerCase].
  set (filter0 := if negb (strict_eq (get "completed" q') VUndefined) then _ else ∅).
  destruct (if truthy (get "priority" q') then _ else Ok filter0) as [filter|e];
    [| split; [right; reflexivity | discriminate]].
  cbn [result_bind SimpleController.find].
  destruct (MemoryStore.find filter (mem w)) as [tasks|e] eqn:Hfind;
    [| split; [right; reflexivity | discriminate]].
  cbn [result_bind].
  destruct (filterM (MemoryStore.text_or_category_includes (toLowerCase s)) tasks)
    as [hits|e] eqn:Hhits; [| split; [right; reflexivity | discriminate]].
  cbn [result_bind SimpleController.caught].
  split; [left; reflexivity |]. intros _. split.
  { unfold SimpleController.storage. rewrite Hoff. reflexivity. }
  eexists. split; [reflexivity |].
  apply filterM_Ok in Hhits as (Hall & Hsub & _). split.
  - apply List.Forall_forall. intros t Ht. apply list_elem_of_In in Ht.
    assert (Hin : t ∈ hits).
    { eapply elem_of_sublist; [exact Ht | apply slice_sublist]. }
    split.
    + apply (find_stored filter (mem w) tasks Hfind).
      apply list_elem_of_In. eapply elem_of_sublist; [exact Hin | exact Hsub].
    + rewrite List.Forall_forall in Hall. apply Hall, list_elem_of_In, Hin.
  - intros Hdefault.
    assert (Hten : limit = VNum 10) by (unfold limit; rewrite Hdefault; reflexivity).
    rewrite Hten. change (parseInt (or_default (VNum 10) (VNum 50))) with (Int 10).
    apply (slice_length _ 10 hits); [lia |].
    apply sublist_length in Hsub. apply find_length in Hfind.
    change MAX_SAFE with 9007199254740992. change (2 ^ 32) with 4294967296 in Hsize. lia.
Qed.

End SimpleSearch.

Lemma simple_search_offline_witness :
  let answer := @SimpleController.searchTasks utc_host plain_engine
                  (search_for (VStr "Second")) offline in
  status answer = 200 /\ said "storage" answer = VStr "memory".
Proof.
  destruct (@simple_search_offline utc_host plain_engine
              (search_for (VStr "Second")) offline "Second") as [_ Hok];
    [discriminate | reflexivity | reflexivity | repeat constructor
    | vm_compute; reflexivity | vm_compute; discriminate |].
  assert (Hs : status (@SimpleController.searchTasks utc_host plain_engine
                         (search_for (VStr "Second")) offline) = 200)
    by (vm_compute; reflexivity).
  split; [exact Hs | apply Hok, Hs].
Defined.

Section FullRoundTrip.
Context `{Host} `{Engine}.

Lemma find_app_new (oid : string) (l : list Task.doc) (d : Task.doc) :
  Forall (fun d0 => Task._id d0 <> Some oid) l -> Task._id d = Some oid ->
  List.find (Task.is_doc oid) (l ++ [d]) = Some d.
Proof.
  intros Hfresh Hd. induction Hfresh as [|d0 l Hd0 _ IH]; simpl.
  - unfold Task.is_doc. rewrite Hd, String.eqb_refl. reflexivity.
  - unfold Task.is_doc at 1. destruct (Task._id d0) as [s|]; [| exact IH].
    destruct (String.eqb_spec s oid); [congruence | exact IH].
Qed.

Lemma lean_and_JSON (d : Task.doc) (k : string) :
  k <> "_id" -> k <> "id" -> get k (Task.to_lean d) = get k (Task.toJSON d).
Proof.
  intros H_id Hid. unfold get, Task.to_lean, Task.toJSON.
  rewrite !list_to_map_cons, !lookup_insert_ne by congruence. reflexivity.
Qed.

Lemma field_key {A} (k' : string) (f : A -> value) (o : option A) (k : string) :
  k ∈ (Task.field k' f o).*1 -> k = k'.
Proof.
  destruct o; simpl; intros Hin.
  - apply list_elem_of_singleton in Hin. exact Hin.
  - apply elem_of_nil in Hin. contradiction.
Qed.

Lemma fields_no_id (d : Task.doc) (k : string) :
  k = "_id" \/ k = "id" -> (list_to_map (Task.fields d) : obj) !! k = None.
Proof.
  intros Hk. apply not_elem_of_list_to_map_1. unfold Task.fields.
  rewrite !fmap_app, !elem_of_app. cbn [fmap list_fmap fst].
  rewrite !list_elem_of_singleton.
  intros Hin.
  repeat (destruct Hin as [Hin | Hin]; [try apply field_key in Hin; destruct Hk; congruence |]).
  try apply field_key in Hin; destruct Hk; congruence.
Qed.

Lemma toJSON_id (d : Task.doc) :
  get "id" (Task.toJSON d) = Task.id_value (Task._id d)
  /\ get "_id" (Task.toJSON d) = VUndefined.
Proof.
  unfold get, Task.toJSON. rewrite list_to_map_cons. split.
  - rewrite lookup_insert_eq. reflexivity.
  - rewrite lookup_insert_ne by discriminate. rewrite fields_no_id; [reflexivity | auto].
Qed.

Lemma to_lean_id (d : Task.doc) :
  get "_id" (Task.to_lean d) = Task.id_value (Task._id d).
Proof. unfold get, Task.to_lean. rewrite list_to_map_cons, lookup_insert_eq. reflexivity. Qed.

(** X17.  A creation the full controller answers with 201, for a payload
    that does not give [_id] as null, reports the new document under [id],
    not [_id]; get-by-id with that id answers 200 with the document under
    [_id], and with the same value on every path of the schema. *)
Theorem full_create_then_get (req : request) (now : Z) (w : world) :
  let created := TaskController.createTask req now w in
  status (fst created) = 201 ->
  get "_id" (default (body req) (validatedData req)) <> VNull ->
  exists id,
    prop "id" (said "data" (fst created)) = VStr id
    /\ prop "_id" (said "data" (fst created)) = VUndefined
    /\ forall req',
         params_id req' = VStr id ->
         let got := TaskController.getTaskById req' (snd created) in
         status got = 200
         /\ prop "_id" (said "data" got) = VStr id
         /\ forall k, In k schema_paths ->
              prop k (said "data" got) = prop k (said "data" (fst created)).
Proof.
  cbv zeta. intros Hcreated Hgiven.
  destruct (createTask_created req now w Hcreated) as (d & c' & Hsave & Hw).
  assert (Hrs : (readyState w =? 1) = true).
  { revert Hcreated. unfold TaskController.createTask, on_db_after, on_db.
    destruct (Task.prepare now _ (db w)) as [b|e].
    - destruct (readyState w =? 1); [reflexivity | discriminate].
    - simpl. intros Hs. destruct (handleDBError_status e) as [He | [He | He]];
        rewrite He in Hs; discriminate. }
  assert (Hanswer : fst (TaskController.createTask req now w)
                    = send 201 [ ("success", VBool true);
                                 ("message", VStr "Task created successfully");
                                 ("data", VObj (Task.toJSON d)) ]).
  { rewrite createTask_connected by (apply Z.eqb_eq, Hrs). cbv zeta. rewrite Hsave.
    reflexivity. }
  rewrite Hanswer, Hw.
  pose proof Hsave as Hnext. apply save_Ok in Hnext as (_ & Hpre & Hdocs).
  destruct (save_Ok_id _ _ _ _ _ Hsave) as (_ & _ & Hid & Hfresh & Hcanon).
  cbv zeta in Hid, Hfresh, Hcanon. specialize (Hid Hgiven).
  set (oid := default (ObjectId_of (Task.next_oid (db w))) (Task._id d)) in *.
  destruct (canonical_id_valid _ Hcanon) as [Hvalid Hhex].
  rewrite <- Hid, set_id_same in Hdocs.
  exists oid.
  change (said "data" (send 201 [ ("success", VBool true);
                                  ("message", VStr "Task created successfully");
                                  ("data", VObj (Task.toJSON d)) ]))
    with (VObj (Task.toJSON d)).
  cbn [prop]. destruct (toJSON_id d) as [Hjid Hj_id]. rewrite Hid in Hjid.
  split; [exact Hjid |]. split; [exact Hj_id |].
  intros req' Hreq. unfold TaskController.getTaskById. rewrite Hreq.
  unfold TaskController.isValid. rewrite Hvalid. cbn [negb].
  unfold read_db. cbn [readyState with_db db]. rewrite Hrs.
  unfold Task.findById, Task.cast_id.
  cbn [Task.cast_ObjectId Task.id_string Task.ObjectId_from].
  rewrite Hvalid, Hhex. cbn [result_bind].
  rewrite Hdocs, (find_app_new _ _ d Hfresh Hid). cbn [TaskController.caught].
  split; [reflexivity |].
  change (said "data" (send 200 [ ("success", VBool true);
                                  ("message", VStr "Task retrieved successfully");
                                  ("data", VObj (Task.to_lean d)) ]))
    with (VObj (Task.to_lean d)).
  cbn [prop]. split; [rewrite to_lean_id, Hid; reflexivity |].
  intros k Hk.
  apply lean_and_JSON; intros ->; simpl in Hk; intuition discriminate.
Qed.

End FullRoundTrip.

Lemma full_create_then_get_witness :
  let created := @TaskController.createTask utc_host plain_engine
                   (create_request (just_text "first document")) 1000 online in
  status (@TaskController.getTaskById utc_host plain_engine (by_id (ObjectId_of 1))
            (snd created)) = 200.
Proof.
  destruct (@full_create_then_get utc_host plain_engine
              (create_request (just_text "first document")) 1000 online)
    as (id & Hid & _ & Hget); [vm_compute; reflexivity | vm_compute; discriminate |].
  cbv zeta. apply Hget. rewrite <- Hid. vm_compute. reflexivity.
Defined.

(** A payload that gives [_id] as null, where the library accepts it: the
    creation is answered 201 with a null [id], and the document is stored
    under a new id, where get-by-id finds it. *)
Lemma null_id_is_reported_null :
  let created :=
    @TaskController.createTask utc_host plain_engine
      (create_request (<["_id" := VNull]> (just_text "first document"))) 1000 online in
  status (fst created) = 201
  /\ prop "id" (said "data" (fst created)) = VNull
  /\ status (@TaskController.getTaskById utc_host plain_engine (by_id (ObjectId_of 1))
               (snd created)) = 200.
Proof. vm_compute. repeat split; reflexivity. Qed.

Section Refusals.
Context `{Host} `{Engine}.

(** A text that casts leaves no cast error on its path. *)
Lemma construct_text_cast (now : Z) (oid : string) (data : obj) :
  Task.cast_String (get "text" data) <> Task.Bad ->
  Task.has_path (snd (Task.construct now oid data)) "text" = false.
Proof.
  intros Hcast.
  assert (Hset : Task.set_trim (Task.cast_String (get "text" data)) <> Task.Bad).
  { destruct (Task.cast_String (get "text" data)); simpl; congruence. }
  unfold Task.construct.
  repeat match goal with
  | |- context [match ?p with pair _ _ => _ end] => destruct p as [? ?] eqn:?
  end.
  simpl.
  repeat match goal with
  | Hp : Task.place ?path ?kind ?raw ?c ?dflt = (_, ?e) |- _ =>
      assert (Task.has_path e "text" = false)
        by (replace e with (snd (Task.place path kind raw c dflt)) by (rewrite Hp; reflexivity);
            apply place_no_error;
            first [ left; discriminate | right; exact Hset ]);
      clear Hp
  end.
  rewrite !has_path_app.
  repeat match goal with
  | Hq : Task.has_path _ "text" = false |- _ => rewrite Hq; clear Hq
  end.
  reflexivity.
Qed.

(** A payload whose text is a string of one or two characters once trimmed
    is refused by [save] with a ValidationError. *)
Lemma save_short_text (now : Z) (data : obj) (s : string) (c : Task.collection) :
  get "text" data = VStr s ->
  0 < Task.len (trim s) < 3 ->
  exists errs, Task.save now data c = (Throw (Task.ValidationError errs), c).
Proof.
  intros Htext Hlen.
  pose proof (construct_fields now (ObjectId_of (Task.next_oid c)) data) as (_ & Ht & _).
  pose proof (construct_text_cast now (ObjectId_of (Task.next_oid c)) data) as Hpath.
  cbv zeta in Ht. rewrite Htext in Ht, Hpath. simpl in Ht.
  specialize (Hpath ltac:(discriminate)).
  eexists. apply save_invalid. cbv zeta.
  destruct (Task.construct now (ObjectId_of (Task.next_oid c)) data) as [d ce].
  cbn [fst snd] in *. unfold Task.validate, Task.validators.
  rewrite Ht. unfold Task.validate_text.
  destruct (String.eqb_spec (trim s) EmptyString) as [Hempty | _].
  { rewrite Hempty in Hlen. vm_compute in Hlen. destruct Hlen as [Hlen _]. discriminate. }
  destruct (Z.ltb_spec (Task.len (trim s)) 3); [| lia].
  cbn [app List.filter fst]. rewrite Hpath. cbn [negb].
  intros Hnil. apply app_eq_nil in Hnil as [_ Hnil]. discriminate.
Qed.

(** A validation error of [save] is raised before the insertion. *)
Lemma save_invalid_prepare (now : Z) (data : obj) (c c' : Task.collection)
    (errs : list Task.path_error) :
  Task.save now data c = (Throw (Task.ValidationError errs), c') ->
  Task.prepare now data c = Throw (Task.ValidationError errs).
Proof.
  unfold Task.save. destruct (Task.prepare now data c) as [d|e].
  - unfold Task.insertOne. destruct (existsb _ _); discriminate.
  - intros [= -> _]. reflexivity.
Qed.

(** X18.  One creation request, three answers.  For a payload whose text
    is a string of ASCII characters, one or two of them once trimmed: the
    full controller answers 400 and stores nothing, connected or not, the
    validation running before the connection is needed; the simplified
    controller answers 500 while connected, and stores nothing, and 201
    while not connected, with one task more in memory. *)
Theorem short_text_three_answers (req : request) (now : Z) (w : world) (s : string) :
  validatedData req = None ->
  get "text" (body req) = VStr s ->
  is_ascii s = true ->
  0 < Task.len (trim s) < 3 ->
  (status (fst (TaskController.createTask req now w)) = 400
   /\ snd (TaskController.createTask req now w) = w)
  /\ (readyState w = 1 ->
      status (fst (SimpleController.createTask req now w)) = 500
      /\ snd (SimpleController.createTask req now w) = w)
  /\ (readyState w <> 1 ->
      status (fst (SimpleController.createTask req now w)) = 201
      /\ MemoryStore.getTaskCount (mem (snd (SimpleController.createTask req now w)))
         = MemoryStore.getTaskCount (mem w) + 1).
Proof.
  intros Hvd Htext _ Hlen.
  assert (Hne : trim s <> EmptyString).
  { intros Hempty. rewrite Hempty in Hlen. vm_compute in Hlen.
    destruct Hlen as [Hlen _]. discriminate. }
  split; [| split].
  - destruct (save_short_text now (body req) s (db w) Htext Hlen) as (errs & Hsave).
    apply save_invalid_prepare in Hsave.
    unfold TaskController.createTask, on_db_after. rewrite Hvd. cbn [default].
    rewrite Hsave. split; reflexivity.
  - intros Hrs. unfold SimpleController.createTask.
    rewrite Htext, (text_missing_string s Hne), (getTaskModel_online w Hrs).
    cbn [call_trim SimpleController.create].
    match goal with
    | |- context [Task.prepare now ?data] =>
        destruct (save_short_text now data (trim s) (db w)) as (errs' & Hsave');
          [reflexivity | rewrite trim_again; exact Hlen |]
    end.
    apply save_invalid_prepare in Hsave'.
    unfold on_db_after. rewrite Hsave'. cbn [fst snd]. split; reflexivity.
  - intros Hrs.
    destruct (simple_create_offline req now w s Hrs Htext Hne) as (Hs & t & Ht & _).
    split; [exact Hs |]. unfold MemoryStore.getTaskCount. rewrite Ht. simpl length. lia.
Qed.

(** X19.  An id that is no ObjectId.  The full controller answers
    get-by-id, update and delete with 400 before it goes to the database,
    whatever the connection state, and changes nothing.  The simplified
    controller has no such check: while connected it answers 500 and
    changes nothing; while not connected it answers 404 when no stored task
    answers to the id. *)
Theorem malformed_id_answers (req : request) (now : Z) (w : world) (id : string) :
  params_id req = VStr id ->
  ObjectId_isValid id = false ->
  (status (TaskController.getTaskById req w) = 400
   /\ TaskController.updateTask req now w = (TaskController.invalid_id, w)
   /\ TaskController.deleteTask req w = (TaskController.invalid_id, w))
  /\ (readyState w = 1 ->
      status (SimpleController.getTaskById req w) = 500
      /\ status (fst (SimpleController.updateTask req now w)) = 500
      /\ snd (SimpleController.updateTask req now w) = w
      /\ status (fst (SimpleController.deleteTask req w)) = 500
      /\ snd (SimpleController.deleteTask req w) = w)
  /\ (readyState w <> 1 ->
      MemoryStore.findById (VStr id) (mem w) = None ->
      status (SimpleController.getTaskById req w) = 404
      /\ status (fst (SimpleController.updateTask req now w)) = 404
      /\ status (fst (SimpleController.deleteTask req w)) = 404).
Proof.
  intros Hid Hbad. split; [| split].
  - unfold TaskController.getTaskById, TaskController.updateTask, TaskController.deleteTask,
      TaskController.isValid.
    rewrite Hid, Hbad. repeat split; reflexivity.
  - intros Hrs.
    assert (Hcast : Task.cast_id (VStr id) = Throw (Task.CastError "ObjectId" (VStr id) "_id")).
    { unfold Task.cast_id. cbn [Task.cast_ObjectId Task.id_string Task.ObjectId_from]. rewrite Hbad. reflexivity. }
    unfold SimpleController.getTaskById, SimpleController.updateTask,
      SimpleController.deleteTask.
    rewrite (getTaskModel_online w Hrs), Hid.
    cbn [SimpleController.findById SimpleController.findByIdAndUpdate
         SimpleController.findByIdAndDelete].
    unfold read_db, on_db_after, on_db. rewrite Hrs. cbn [Z.eqb Pos.eqb].
    unfold Task.findById, Task.cast_query, Task.findByIdAndDelete.
    rewrite Hcast. cbn [result_bind fst snd SimpleController.of_doc_opt SimpleController.caught].
    repeat split; try reflexivity; apply with_db_same.
  - intros Hrs Hnone.
    unfold SimpleController.getTaskById, SimpleController.updateTask,
      SimpleController.deleteTask.
    rewrite (getTaskModel_offline w Hrs), Hid.
    cbn [SimpleController.findById SimpleController.findByIdAndUpdate
         SimpleController.findByIdAndDelete].
    rewrite Hnone. apply find_None_findIndex in Hnone.
    unfold MemoryStore.findByIdAndUpdate, MemoryStore.findByIdAndDelete.
    rewrite Hnone. repeat split; reflexivity.
Qed.

End Refusals.

Lemma short_text_three_answers_witness :
  status (fst (@TaskController.createTask utc_host plain_engine
                 (create_request (just_text " ab ")) 4000 online)) = 400
  /\ status (fst (@TaskController.createTask utc_host plain_engine
                    (create_request (just_text " ab ")) 4000 offline)) = 400
  /\ status (fst (@SimpleController.createTask utc_host plain_engine
                    (create_request (just_text " ab ")) 4000 online)) = 500
  /\ status (fst (@SimpleController.createTask utc_host plain_engine
                    (create_request (just_text " ab ")) 4000 offline)) = 201.
Proof.
  destruct (@short_text_three_answers utc_host plain_engine
              (create_request (just_text " ab ")) 4000 online " ab ") as ([Hon _] & Hsimple & _);
    [reflexivity | reflexivity | reflexivity | vm_compute; split; reflexivity |].
  destruct (@short_text_three_answers utc_host plain_engine
              (create_request (just_text " ab ")) 4000 offline " ab ") as ([Hoff _] & _ & Hmem);
    [reflexivity | reflexivity | reflexivity | vm_compute; split; reflexivity |].
  destruct (Hsimple eq_refl) as (H500 & _).
  destruct Hmem as (H201 & _); [discriminate |].
  repeat split; assumption.
Defined.

Lemma malformed_id_answers_witness :
  status (@TaskController.getTaskById utc_host plain_engine (by_id "2") offline) = 400
  /\ status (@SimpleController.getTaskById utc_host plain_engine (by_id "2") online) = 500.
Proof.
  destruct (@malformed_id_answers utc_host plain_engine (by_id "2") 4000 offline "2")
    as [(Hfull & _) _]; [reflexivity | reflexivity |].
  destruct (@malformed_id_answers utc_host plain_engine (by_id "2") 4000 online "2")
    as (_ & Hsimple & _); [reflexivity | reflexivity |].
  destruct (Hsimple eq_refl) as (Hget & _).
  split; [exact Hfull | exact Hget].
Defined.

Section PageZero.
Context `{Host} `{Engine}.



End PageZero.

